(** * BPCells: fragment and matrix iterators, checked against their description

    The development embeds the C++ sources of the repository
    ([BedFragments.cpp], [arrayIO.h], [ImportMatrixHDF5.cpp]) and the
    fixtures of its test-suite ([test-peakMatrix.cpp], [test-matrixIO.cpp])
    as executable definitions, and proves the properties stated about them.

    Part I holds the models, one module per source file; Part II the proofs. *)

From Stdlib Require Import ZArith Ascii Lia.
From stdpp Require Import base option list gmap strings pretty.

Local Open Scope Z_scope.

(** ** Outcomes of C++ calls *)

(** The exceptions the sources throw, by class; [ShapeError] and [Cancelled]
    are the description's names for errors of components whose code is not
    among the sources. *)
Inductive exn : Type :=
| runtime_error (what : string)
| invalid_argument (what : string)
| out_of_range (what : string)
| GroupException (what : string)
| AttributeException (what : string)
| DataSetException (what : string)
| DataTypeException (what : string)
| ShapeError (what : string)
| Cancelled.

(** A call returns, throws, or (for a loop run on fuel) is cut short. *)
Inductive outcome (A : Type) : Type :=
| Ok (a : A)
| Throw (e : exn)
| OutOfFuel.
Arguments Ok {A} a.
Arguments Throw {A} e.
Arguments OutOfFuel {A}.

Definition bind {A B : Type} (m : outcome A) (k : A -> outcome B) : outcome B :=
  match m with
  | Ok a => k a
  | Throw e => Throw e
  | OutOfFuel => OutOfFuel
  end.

Declare Scope outcome_scope.
Delimit Scope outcome_scope with outcome.
Notation "'let*' x ':=' m 'in' k" := (bind m (fun x => k))
  (at level 10, x pattern, m at level 100, k at level 200) : outcome_scope.
Local Open Scope outcome_scope.

(** ** Machine integers *)

Definition to_uint32 (z : Z) : Z := z mod 2 ^ 32.
Definition to_int32 (z : Z) : Z := (z + 2 ^ 31) mod 2 ^ 32 - 2 ^ 31.
Definition to_size_t (z : Z) : Z := z mod 2 ^ 64.
Definition LONG_MAX : Z := 2 ^ 63 - 1.
Definition LONG_MIN : Z := - 2 ^ 63.

(** ** C strings *)

Module CStr.

Definition NUL : ascii := "000"%char.
Definition TAB : ascii := "009"%char.
Definition NL : ascii := "010"%char.

(** The C string held by a buffer that was filled with [s] and then
    terminated: the characters before the first NUL. *)
Fixpoint c_str (s : string) : string :=
  match s with
  | EmptyString => EmptyString
  | String c s' => if decide (c = NUL) then EmptyString else String c (c_str s')
  end.

(** [*p] for a pointer into a C string, given as the suffix it points at. *)
Definition deref (p : string) : ascii :=
  match p with
  | EmptyString => NUL
  | String c _ => c
  end.

(** [p + 1]. *)
Definition advance (p : string) : string :=
  match p with
  | EmptyString => EmptyString
  | String _ p' => p'
  end.

(** [q - p] for [q] a later position in the same string. *)
Definition ptr_diff (q p : string) : nat :=
  (String.length p - String.length q)%nat.

(** [std::string(p, n)]. *)
Fixpoint string_of (p : string) (n : nat) : string :=
  match n, p with
  | S n', String c p' => String c (string_of p' n')
  | _, _ => EmptyString
  end.

Definition isdigit (c : ascii) : bool :=
  let n := nat_of_ascii c in (48 <=? n)%nat && (n <=? 57)%nat.

Definition isspace (c : ascii) : bool :=
  let n := nat_of_ascii c in ((9 <=? n)%nat && (n <=? 13)%nat) || (n =? 32)%nat.

Definition digit_val (c : ascii) : Z := Z.of_nat (nat_of_ascii c) - 48.

Fixpoint skip_spaces (p : string) : string :=
  match p with
  | String c p' => if isspace c then skip_spaces p' else p
  | EmptyString => EmptyString
  end.

Fixpoint read_digits (acc : Z) (p : string) : Z :=
  match p with
  | String c p' => if isdigit c then read_digits (acc * 10 + digit_val c) p' else acc
  | EmptyString => acc
  end.

(** [strtol(p, NULL, 10)]: blanks, an optional sign, digits; out of range
    values are clamped to [LONG_MIN], [LONG_MAX]. *)
Definition strtol (p : string) : Z :=
  let p := skip_spaces p in
  let '(neg, p) :=
    match p with
    | String c p' =>
        if decide (c = "-"%char) then (true, p')
        else if decide (c = "+"%char) then (false, p')
        else (false, p)
    | EmptyString => (false, p)
    end in
  let v := read_digits 0 p in
  if neg then Z.max LONG_MIN (- v) else Z.min LONG_MAX v.

(** [atoi(p)], that is [(int) strtol(p, NULL, 10)]. *)
Definition atoi (p : string) : Z := to_int32 (strtol p).

End CStr.

(** ** zlib: line reads from a gzFile *)

Module Zlib.
Import CStr.

(** An open read stream: what is left of the (inflated) contents and the
    end-of-file indicator. *)
Record gzFile : Type := mk_gzFile {
  gz_rest : string;
  gz_past : bool
}.

(** The files [gzopen] can see, by path. *)
Definition filesystem : Type := gmap string string.

Definition gzopen (fs : filesystem) (path : string) : option gzFile :=
  match fs !! path with
  | Some contents => Some (mk_gzFile contents false)
  | None => None
  end.

(** The copy loop of [gzgets]: at most [left] characters, through the first
    newline; the third component tells that the end of the input was hit. *)
Fixpoint gz_copy (left : nat) (s : string) : string * string * bool :=
  match left with
  | O => (EmptyString, s, false)
  | S left' =>
      match s with
      | EmptyString => (EmptyString, EmptyString, true)
      | String c s' =>
          if decide (c = NL) then (String c EmptyString, s', false)
          else let '(l, r, p) := gz_copy left' s' in (String c l, r, p)
      end
  end.

(** [gzgets(f, buf, len)]: [None] is the NULL return (nothing was read, the
    buffer is left as it was), [Some l] the bytes stored before the
    terminating NUL. *)
Definition gzgets (f : gzFile) (len : nat) : option string * gzFile :=
  let '(l, r, p) := gz_copy (len - 1) (gz_rest f) in
  let f' := mk_gzFile r (gz_past f || p) in
  match l with
  | EmptyString => (None, f')
  | _ => (Some l, f')
  end.

Definition gzeof (f : gzFile) : bool := gz_past f.

End Zlib.

(** ** BedFragments.cpp: the reader *)

Module FragmentArray.

(** The caller's buffer of [load]: three parallel arrays. *)
Record t : Type := mk {
  start : list Z;
  end_ : list Z;
  cell : list Z
}.

Definition capacity (a : t) : nat := length (start a).

Definition make (n : nat) : t := mk (replicate n 0) (replicate n 0) (replicate n 0).

End FragmentArray.

Module BedFragments.
Import CStr Zlib.

Record t : Type := mk {
  path : string;
  f : option gzFile;
  line_buf : string;
  chr_names : list string;
  cell_names : list string;
  chr_lookup : gmap string Z;
  cell_id_lookup : gmap string Z;
  next_chr_id : Z;
  next_cell_id : Z;
  current_chr : string;
  comment : string;
  last_start : Z;
  eof : bool
}.

Definition with_f (x : option gzFile) (b : t) : t :=
  mk (path b) x (line_buf b) (chr_names b) (cell_names b) (chr_lookup b)
     (cell_id_lookup b) (next_chr_id b) (next_cell_id b) (current_chr b)
     (comment b) (last_start b) (eof b).

Definition with_line_buf (x : string) (b : t) : t :=
  mk (path b) (f b) x (chr_names b) (cell_names b) (chr_lookup b)
     (cell_id_lookup b) (next_chr_id b) (next_cell_id b) (current_chr b)
     (comment b) (last_start b) (eof b).

Definition with_eof (x : bool) (b : t) : t :=
  mk (path b) (f b) (line_buf b) (chr_names b) (cell_names b) (chr_lookup b)
     (cell_id_lookup b) (next_chr_id b) (next_cell_id b) (current_chr b)
     (comment b) (last_start b) x.

Definition with_last_start (x : Z) (b : t) : t :=
  mk (path b) (f b) (line_buf b) (chr_names b) (cell_names b) (chr_lookup b)
     (cell_id_lookup b) (next_chr_id b) (next_cell_id b) (current_chr b)
     (comment b) x (eof b).

Definition with_current_chr (x : string) (b : t) : t :=
  mk (path b) (f b) (line_buf b) (chr_names b) (cell_names b) (chr_lookup b)
     (cell_id_lookup b) (next_chr_id b) (next_cell_id b) x
     (comment b) (last_start b) (eof b).

Definition with_cells (names : list string) (lookup : gmap string Z) (next : Z) (b : t) : t :=
  mk (path b) (f b) (line_buf b) (chr_names b) names (chr_lookup b)
     lookup (next_chr_id b) next (current_chr b)
     (comment b) (last_start b) (eof b).

Definition with_chrs (names : list string) (lookup : gmap string Z) (next : Z) (b : t) : t :=
  mk (path b) (f b) (line_buf b) names (cell_names b) lookup
     (cell_id_lookup b) next (next_cell_id b) (current_chr b)
     (comment b) (last_start b) (eof b).

Definition chrCount (b : t) : Z := -1.
Definition cellCount (b : t) : Z := -1.

(** A [const char*] result: [None] is NULL. *)
Definition chrNames (b : t) (chr_id : Z) : option string :=
  if bool_decide (Z.of_nat (length (chr_names b)) <= chr_id) then None
  else chr_names b !! Z.to_nat chr_id.

Definition cellNames (b : t) (cell_id : Z) : option string :=
  if bool_decide (Z.of_nat (length (cell_names b)) <= cell_id) then None
  else cell_names b !! Z.to_nat cell_id.

Definition currentChr (b : t) : outcome Z :=
  match chr_lookup b !! current_chr b with
  | Some id => Ok id
  | None => Throw (out_of_range "unordered_map::at")
  end.

Definition isSeekable (b : t) : bool := false.

Definition seek (b : t) (chr_id base : Z) : outcome t :=
  Throw (invalid_argument "Cannot seek BedFragments").

(** The position of the first NUL, tab or newline at or after [c]. *)
Fixpoint nextField (c : string) : string :=
  match c with
  | EmptyString => EmptyString
  | String a c' =>
      if bool_decide (a = TAB) || bool_decide (a = NL) then c else nextField c'
  end.

Definition sort_error : exn := runtime_error "TSV not in sorted order by chr, start".

Definition ptr_eq (p q : string) : bool :=
  (String.length p =? String.length q)%nat.

Section Reader.

(** [line_buf.size()]; the buffer is declared in BedFragments.h. *)
Variable line_buf_size : nat.

Definition read_line (b : t) : outcome (bool * t) :=
  let '(r, f') :=
    match f b with
    | Some g => let '(r, g') := gzgets g line_buf_size in (r, Some g')
    | None => (None, None)
    end in
  let b := with_f f' b in
  match r with
  | Some l => Ok (true, with_line_buf (c_str l) b)
  | None =>
      if eof b then Ok (false, with_line_buf EmptyString b)
      else if negb (from_option gzeof false f') then
        Throw (runtime_error "Error reading from gzfile")
      else Ok (true, with_eof true b)
  end.

(** The end of [parse_line]: [cell_id_lookup.emplace(name, next_cell_id)],
    the [push_back] and increment when the name is new, and the id found. *)
Definition emplace_cell (name : string) (b : t) : Z * t :=
  match cell_id_lookup b !! name with
  | Some id => (id, b)
  | None =>
      let id := next_cell_id b in
      (id, with_cells (cell_names b ++ [name])
                      (<[name := id]> (cell_id_lookup b))
                      (to_uint32 (id + 1)) b)
  end.

(** [parse_line(start, end, cell_id)]: the three references are passed in and
    handed back with the result. *)
Definition parse_line (b : t) (start end_ cell_id : Z)
  : outcome (string * (Z * Z * Z) * t) :=
  let cur_field := line_buf b in
  let next_field := nextField cur_field in
  let chr := string_of cur_field (ptr_diff next_field cur_field) in
  if ptr_eq next_field cur_field then Ok (chr, (start, end_, cell_id), b)
  else if negb (bool_decide (deref next_field = TAB)) then
    Throw (runtime_error "Invalid TSV file")
  else
    let cur_field := advance next_field in
    let next_field := nextField cur_field in
    if ptr_eq cur_field next_field || negb (bool_decide (deref next_field = TAB)) then
      Throw (runtime_error "Invalid TSV file")
    else
      let start := to_uint32 (atoi cur_field) in
      let cur_field := advance next_field in
      let next_field := nextField cur_field in
      if ptr_eq cur_field next_field || negb (bool_decide (deref next_field = TAB)) then
        Throw (runtime_error "Invalid TSV file")
      else
        let end_ := to_uint32 (atoi cur_field) in
        let cur_field := advance next_field in
        let next_field := nextField cur_field in
        let name := string_of cur_field (ptr_diff next_field cur_field) in
        let '(cell_id, b) := emplace_cell name b in
        Ok (chr, (start, end_, cell_id), b).

Fixpoint validInt (c : string) : bool :=
  match c with
  | EmptyString => true
  | String a c' =>
      if bool_decide (a = TAB) || bool_decide (a = NL) then true
      else if negb (isdigit a) then false
      else validInt c'
  end.

(** The comment loop of [restart]. *)
Fixpoint skip_comments (fuel : nat) (b : t) : outcome t :=
  match fuel with
  | O => OutOfFuel
  | S fuel' =>
      if bool_decide (deref (line_buf b) = NUL) then Ok b
      else if negb (String.prefix (comment b) (line_buf b)) then Ok b
      else let* (_, b) := read_line b in skip_comments fuel' b
  end.

Definition restart (fs : filesystem) (fuel : nat) (b : t) : outcome t :=
  match gzopen fs (path b) with
  | None => Throw (invalid_argument "Could not open file")
  | Some g =>
      let b := with_f (Some g) b in
      let* (_, b) := read_line b in
      if (String.length (comment b) =? 0)%nat then Ok b
      else
        let* b := skip_comments fuel b in
        Ok (with_current_chr EmptyString b)
  end.

(** The constructor; [eof0] and [line_buf0] are what the members [eof] and
    [line_buf], declared in BedFragments.h and absent from the initialiser
    list, hold when [restart] is first called. *)
Definition new (fs : filesystem) (fuel : nat) (path comment_prefix : string)
    (eof0 : bool) (line_buf0 : string) : outcome t :=
  restart fs fuel
    (mk path None line_buf0 [] [] ∅ ∅ 0 0 EmptyString comment_prefix 0 eof0).

(** The skipping loop of [nextChr]; [true] when left by [break], [false]
    when left by [return false]. *)
Fixpoint nextChr_loop (fuel : nat) (b : t) (dummy : Z * Z * Z) : outcome (bool * t) :=
  match fuel with
  | O => OutOfFuel
  | S fuel' =>
      let '(dummy_start, dummy_end, dummy_cell) := dummy in
      let* (chr, (dummy_start, dummy_end, dummy_cell), b) :=
        parse_line b dummy_start dummy_end dummy_cell in
      if bool_decide (chr = EmptyString) || negb (bool_decide (chr = current_chr b)) then
        Ok (true, with_current_chr chr b)
      else if bool_decide (dummy_start < last_start b) then
        Throw sort_error
      else
        let b := with_last_start dummy_start b in
        let* (more, b) := read_line b in
        if negb more then Ok (false, b)
        else nextChr_loop fuel' b (dummy_start, dummy_end, dummy_cell)
  end.

Definition nextChr (fuel : nat) (b : t) : outcome (bool * t) :=
  if bool_decide (deref (line_buf b) = NUL) || bool_decide (deref (line_buf b) = NL) then
    Ok (false, b)
  else
    let* (broke, b) := nextChr_loop fuel b (0, 0, 0) in
    if negb broke then Ok (false, b)
    else
      match chr_lookup b !! current_chr b with
      | None =>
          let b := with_chrs (chr_names b ++ [current_chr b])
                             (<[current_chr b := next_chr_id b]> (chr_lookup b))
                             (to_uint32 (next_chr_id b + 1)) b in
          Ok (true, with_last_start 0 b)
      | Some _ =>
          Throw sort_error
      end.

(** The [for] loop of [load] from index [i], with [k = count - i] rounds
    left; the result is the value of [i] at the [return]. *)
Fixpoint load_from (k : nat) (i : nat) (b : t) (buffer : FragmentArray.t)
  : outcome (nat * t * FragmentArray.t) :=
  match k with
  | O => Ok (i, b, buffer)
  | S k' =>
      let* (chr, (s, e, c), b) :=
        parse_line b (FragmentArray.start buffer !!! i)
                     (FragmentArray.end_ buffer !!! i)
                     (FragmentArray.cell buffer !!! i) in
      let buffer :=
        FragmentArray.mk (<[i := s]> (FragmentArray.start buffer))
                         (<[i := e]> (FragmentArray.end_ buffer))
                         (<[i := c]> (FragmentArray.cell buffer)) in
      if bool_decide (chr = EmptyString) || negb (bool_decide (chr = current_chr b)) then
        Ok (i, b, buffer)
      else if bool_decide (FragmentArray.start buffer !!! i < last_start b) then
        Throw sort_error
      else
        let b := with_last_start (FragmentArray.start buffer !!! i) b in
        let* (more, b) := read_line b in
        if negb more then Ok (i, b, buffer)
        else load_from k' (S i) b buffer
  end.

(** [load(count, buffer)]; the [size_t] index is returned as [int32_t]. *)
Definition load (count : Z) (b : t) (buffer : FragmentArray.t)
  : outcome (Z * t * FragmentArray.t) :=
  let* (i, b, buffer) := load_from (Z.to_nat count) 0 b buffer in
  Ok (to_int32 (Z.of_nat i), b, buffer).

End Reader.

End BedFragments.

(** ** The consumer's side of the fragment protocol *)

Module FragmentsConsumer.
Import CStr Zlib.

(** A fragment as the consumer sees it: the chromosome id current when it
    was loaded, and the three buffer entries. *)
Record fragment : Type := mk_fragment {
  frag_chr : Z;
  frag_start : Z;
  frag_end : Z;
  frag_cell : Z
}.

(** The first [n] entries of the buffer, tagged with chromosome [chr]. *)
Definition delivered (chr : Z) (n : nat) (buffer : FragmentArray.t) : list fragment :=
  (fun i => mk_fragment chr (FragmentArray.start buffer !!! i)
                            (FragmentArray.end_ buffer !!! i)
                            (FragmentArray.cell buffer !!! i)) <$> seq 0 n.

(** The calls a consumer makes. *)
Inductive call : Type := CallNew | CallNextChr | CallLoad | CallCurrentChr.

(** How a read through the file ends: with all fragments delivered, with an
    exception out of one of the calls, or cut short for lack of fuel. *)
Inductive run_result : Type :=
| Finished (b : BedFragments.t) (frags : list fragment)
| Raised (from : call) (e : exn)
| Starved.

Section Consumer.

Variable line_buf_size : nat.

(** [nextChr()], then [load(count, buffer)] until it returns no fragment,
    and again, until [nextChr()] returns false. [in_chr] tells which of the
    two calls is due. Every call costs one unit of fuel. *)
Fixpoint iterate (fuel : nat) (count : Z) (in_chr : bool) (b : BedFragments.t)
    (buffer : FragmentArray.t) (acc : list fragment) : run_result :=
  match fuel with
  | O => Starved
  | S fuel' =>
      if in_chr then
        match BedFragments.load line_buf_size count b buffer with
        | Ok (n, b, buffer) =>
            if bool_decide (n <= 0) then iterate fuel' count false b buffer acc
            else
              match BedFragments.currentChr b with
              | Ok chr =>
                  iterate fuel' count true b buffer
                    (acc ++ delivered chr (Z.to_nat n) buffer)
              | Throw e => Raised CallCurrentChr e
              | OutOfFuel => Starved
              end
        | Throw e => Raised CallLoad e
        | OutOfFuel => Starved
        end
      else
        match BedFragments.nextChr line_buf_size fuel' b with
        | Ok (more, b) =>
            if more then iterate fuel' count true b buffer acc
            else Finished b acc
        | Throw e => Raised CallNextChr e
        | OutOfFuel => Starved
        end
  end.

(** Open [path] and read it through. *)
Definition read_all (fs : filesystem) (fuel : nat) (path comment_prefix : string)
    (eof0 : bool) (line_buf0 : string) (count : Z) (buffer : FragmentArray.t)
  : run_result :=
  match BedFragments.new line_buf_size fs fuel path comment_prefix eof0 line_buf0 with
  | Ok b => iterate fuel count false b buffer []
  | Throw e => Raised CallNew e
  | OutOfFuel => Starved
  end.

End Consumer.

(** A delivered fragment with its identifiers resolved through the reader's
    [chrNames] and [cellNames]. *)
Definition resolve (b : BedFragments.t) (x : fragment)
  : option string * Z * Z * option string :=
  (BedFragments.chrNames b (frag_chr x), frag_start x, frag_end x,
   BedFragments.cellNames b (frag_cell x)).

End FragmentsConsumer.

(** ** The fragment text format *)

Module BedText.
Import CStr.

(** One data line: chrom TAB start TAB end TAB barcode, then whatever
    follows the barcode on the line. *)
Record bed_line : Type := mk_line {
  chrom : string;
  start_txt : string;
  end_txt : string;
  barcode : string;
  extra : string
}.

Definition tab : string := String TAB EmptyString.
Definition nl : string := String NL EmptyString.

Definition render (l : bed_line) : string :=
  chrom l +:+ tab +:+ start_txt l +:+ tab +:+ end_txt l +:+ tab +:+ barcode l +:+ extra l.

(** The text of a file from its lines; the last line ends in a newline
    when [final_nl] is set. *)
Fixpoint text_of (lines : list string) (final_nl : bool) : string :=
  match lines with
  | [] => EmptyString
  | [l] => if final_nl then l +:+ nl else l
  | l :: rest => l +:+ nl +:+ text_of rest final_nl
  end.

(** The value of a string of decimal digits. *)
Fixpoint dec_value (s : string) : Z :=
  match s with
  | EmptyString => 0
  | String c s' => digit_val c * 10 ^ Z.of_nat (String.length s') + dec_value s'
  end.

Fixpoint all_chars (P : ascii -> bool) (s : string) : bool :=
  match s with
  | EmptyString => true
  | String c s' => P c && all_chars P s'
  end.

(** No NUL, tab or newline. *)
Definition field_char (c : ascii) : bool :=
  negb (bool_decide (c = NUL)) && negb (bool_decide (c = TAB)) && negb (bool_decide (c = NL)).

(** No NUL or newline. *)
Definition line_char (c : ascii) : bool :=
  negb (bool_decide (c = NUL)) && negb (bool_decide (c = NL)).

(** A well-formed data line: a non-empty chromosome name, start and end
    written as decimal 32-bit unsigned integers, a barcode, and either
    nothing or a tab and further columns after it. *)
Definition wf_line (l : bed_line) : bool :=
  negb (bool_decide (chrom l = EmptyString)) && all_chars field_char (chrom l)
  && negb (bool_decide (start_txt l = EmptyString)) && all_chars isdigit (start_txt l)
  && bool_decide (dec_value (start_txt l) < 2 ^ 32)
  && negb (bool_decide (end_txt l = EmptyString)) && all_chars isdigit (end_txt l)
  && bool_decide (dec_value (end_txt l) < 2 ^ 32)
  && all_chars field_char (barcode l)
  && (bool_decide (extra l = EmptyString)
      || (bool_decide (deref (extra l) = TAB) && all_chars line_char (extra l))).

(** What a data line says: names and coordinates. *)
Definition fields (l : bed_line) : option string * Z * Z * option string :=
  (Some (chrom l), dec_value (start_txt l), dec_value (end_txt l), Some (barcode l)).

(** Chromosomes contiguous: a chromosome left behind does not come back. *)
Fixpoint contiguous (lines : list bed_line) : bool :=
  match lines with
  | [] => true
  | l :: rest =>
      match rest with
      | [] => true
      | l' :: _ =>
          (bool_decide (chrom l' = chrom l)
           || negb (bool_decide (chrom l ∈ chrom <$> rest)))
          && contiguous rest
      end
  end.

(** Start non-decreasing within each chromosome (ties allowed). *)
Fixpoint start_sorted (lines : list bed_line) : bool :=
  match lines with
  | [] => true
  | l :: rest =>
      match rest with
      | [] => true
      | l' :: _ =>
          (negb (bool_decide (chrom l' = chrom l))
           || bool_decide (dec_value (start_txt l) <= dec_value (start_txt l')))
          && start_sorted rest
      end
  end.

End BedText.

(** ** The order a reader insists on, line by line *)

Module BedOrder.
Import BedText.

Inductive verdict : Type :=
| InOrder
| Descending   (* a start below the one before it on the same chromosome *)
| Reentry.     (* a chromosome that was left comes back *)

(** Going through the lines with the chromosomes met so far [known], the
    chromosome [c] of the line before and its start [ls]. *)
Fixpoint scan (known : list string) (c : string) (ls : Z) (lines : list bed_line) : verdict :=
  match lines with
  | [] => InOrder
  | l :: rest =>
      if bool_decide (chrom l = c) then
        if bool_decide (dec_value (start_txt l) < ls) then Descending
        else scan known c (dec_value (start_txt l)) rest
      else if bool_decide (chrom l ∈ known) then Reentry
      else scan (known ++ [chrom l]) (chrom l) (dec_value (start_txt l)) rest
  end.

(** The chromosomes met, the chromosome and the start the scan holds after
    going through [lines]. *)
Fixpoint scan_state (known : list string) (c : string) (ls : Z) (lines : list bed_line)
  : list string * string * Z :=
  match lines with
  | [] => (known, c, ls)
  | l :: rest =>
      if bool_decide (chrom l = c) then scan_state known c (dec_value (start_txt l)) rest
      else scan_state (known ++ [chrom l]) (chrom l) (dec_value (start_txt l)) rest
  end.

(** The lines left once the lines of chromosome [c] at the head are gone. *)
Fixpoint after_chr (c : string) (lines : list bed_line) : list bed_line :=
  match lines with
  | [] => []
  | l :: rest => if bool_decide (chrom l = c) then after_chr c rest else lines
  end.

(** What the scan needs of the lines ahead to go through them: they are
    contiguous and sorted, a chromosome met before is ahead only as the
    current one continuing at the head, and the head does not start below
    the last start. *)
Definition ahead_ok (known : list string) (c : string) (ls : Z) (lines : list bed_line)
  : Prop :=
  contiguous lines = true /\ start_sorted lines = true /\
  Forall (fun l => chrom l <> "") lines /\
  (forall x, x ∈ known -> x ∈ chrom <$> lines ->
     x = c /\ exists l, head lines = Some l /\ chrom l = c) /\
  (forall l, head lines = Some l -> chrom l = c -> ls <= dec_value (start_txt l)).

End BedOrder.

(** ** BedFragments.cpp: the writer *)

Module BedFragmentsWriter.
Import CStr.

(** [str_path.rfind(".")]: the index of the last dot, if there is one. *)
Fixpoint rfind_dot (s : string) : option nat :=
  match s with
  | EmptyString => None
  | String a s' =>
      match rfind_dot s' with
      | Some i => Some (S i)
      | None => if bool_decide (a = "."%char) then Some 0%nat else None
      end
  end.

(** [str_path.substr(pos)], for [pos] within the string. *)
Fixpoint substr (s : string) (pos : nat) : string :=
  match pos, s with
  | O, _ => s
  | S p, String _ s' => substr s' p
  | S _, EmptyString => EmptyString
  end.

(** The mode the constructor opens the file with: compressed at level 1
    for a path whose extension is ".gz", plain text otherwise. *)
Definition new_mode (path : string) : string :=
  match rfind_dot path with
  | Some extension_idx =>
      if bool_decide (substr path extension_idx = ".gz") then "wb1" else "wT"
  | None => "wT"
  end.

(** A write stream: the bytes written so far, the room left on the device,
    and the code [gzprintf] returns once the room is used up. *)
Record gzOut : Type := mk_gzOut {
  gz_written : string;
  gz_room : nat;
  gz_errcode : Z
}.

(** [gzprintf(f, "%s...", ...)] for an already formatted line: the number of
    bytes written, or the (non-positive) error code. *)
Definition gzprintf (f : gzOut) (line : string) : Z * gzOut :=
  if (String.length line <=? gz_room f)%nat then
    (Z.of_nat (String.length line),
     mk_gzOut (gz_written f +:+ line) (gz_room f - String.length line) (gz_errcode f))
  else (Z.min 0 (gz_errcode f), f).

(** The fragments a FragmentsIterator yields: per chromosome its id, then
    (start, end, cell) in order, with the two name tables. *)
Record source : Type := mk_source {
  src_chr_names : list string;
  src_cell_names : list string;
  src_chrs : list (Z * list (Z * Z * Z))
}.

Definition src_chrNames (s : source) (id : Z) : option string :=
  if bool_decide (0 <= id) then src_chr_names s !! Z.to_nat id else None.

Definition src_cellNames (s : source) (id : Z) : option string :=
  if bool_decide (0 <= id) then src_cell_names s !! Z.to_nat id else None.

Definition total_fragments_of (s : source) : nat :=
  length (concat (snd <$> src_chrs s)).

(** [%s] of a [const char*] (a NULL prints as glibc does) and [%d] of a
    [uint32_t]. *)
Definition fmt_s (p : option string) : string := default "(null)" p.
Definition fmt_d (x : Z) : string := pretty (to_int32 x).

Definition format (append_5th_column : bool) (chr_name : option string)
    (start end_ : Z) (cell_name : option string) : string :=
  fmt_s chr_name +:+ String TAB (fmt_d start +:+ String TAB (fmt_d end_ +:+
    String TAB (fmt_s cell_name +:+
      (if append_5th_column then String TAB (String "0" (String NL EmptyString))
       else String NL EmptyString)))).

(** What can be observed of a run, in order. *)
Inductive event : Type :=
| EvFragment                      (* a fragment's line was written *)
| EvInterrupt (raised : option exn). (* the hook was called, and maybe raised *)

Section Write.

(** The world the hook lives in; a call returns or raises. *)
Variable H : Type.

Record wstate : Type := mk_wstate {
  w_f : gzOut;
  total_fragments : Z;
  w_env : H;
  w_log : list event
}.

(** The inner [while (fragments.nextFrag())] loop. [Ok true]: the
    chromosome ran out; [Ok false]: [return false]. *)
Fixpoint write_frags (append_5th_column : bool) (s : source)
    (checkInterrupt : option (H -> outcome H)) (chr_name : option string)
    (frags : list (Z * Z * Z)) (st : wstate) : wstate * outcome bool :=
  match frags with
  | [] => (st, Ok true)
  | (start, end_, cell) :: rest =>
      let '(n, f') :=
        gzprintf (w_f st)
          (format append_5th_column chr_name start end_ (src_cellNames s cell)) in
      let bytes_written := to_uint32 n in
      let st := mk_wstate f' (total_fragments st) (w_env st) (w_log st) in
      if bool_decide (bytes_written <= 0) then (st, Ok false)
      else
        let st := mk_wstate (w_f st) (total_fragments st) (w_env st)
                            (w_log st ++ [EvFragment]) in
        match checkInterrupt with
        | None => write_frags append_5th_column s checkInterrupt chr_name rest st
        | Some hook =>
            let k := total_fragments st in
            let st := mk_wstate (w_f st) (to_size_t (k + 1)) (w_env st) (w_log st) in
            if bool_decide (k mod 1024 = 0) then
              match hook (w_env st) with
              | Ok env' =>
                  write_frags append_5th_column s checkInterrupt chr_name rest
                    (mk_wstate (w_f st) (total_fragments st) env'
                               (w_log st ++ [EvInterrupt None]))
              | Throw e =>
                  (mk_wstate (w_f st) (total_fragments st) (w_env st)
                             (w_log st ++ [EvInterrupt (Some e)]), Throw e)
              | OutOfFuel =>
                  (mk_wstate (w_f st) (total_fragments st) (w_env st)
                             (w_log st ++ [EvInterrupt None]), OutOfFuel)
              end
            else write_frags append_5th_column s checkInterrupt chr_name rest st
        end
  end.

(** The outer [while (fragments.nextChr())] loop. *)
Fixpoint write_chrs (append_5th_column : bool) (s : source)
    (checkInterrupt : option (H -> outcome H))
    (chrs : list (Z * list (Z * Z * Z))) (st : wstate) : wstate * outcome bool :=
  match chrs with
  | [] => (st, Ok true)
  | (chr_id, frags) :: rest =>
      let chr_name := src_chrNames s chr_id in
      match write_frags append_5th_column s checkInterrupt chr_name frags st with
      | (st, Ok true) => write_chrs append_5th_column s checkInterrupt rest st
      | r => r
      end
  end.

Definition write (f : gzOut) (append_5th_column : bool) (fragments : source)
    (checkInterrupt : option (H -> outcome H)) (env : H) : wstate * outcome bool :=
  write_chrs append_5th_column fragments checkInterrupt (src_chrs fragments)
    (mk_wstate f 0 env []).

End Write.

(** The lines [write] has to format, chromosome by chromosome, and a list
    of lines as one text. *)
Definition frag_lines (append_5th_column : bool) (s : source) (chr_name : option string)
    (frags : list (Z * Z * Z)) : list string :=
  (fun fr => format append_5th_column chr_name (fst (fst fr)) (snd (fst fr))
               (src_cellNames s (snd fr))) <$> frags.

Definition lines_of (append_5th_column : bool) (s : source) : list string :=
  flat_map (fun chr => frag_lines append_5th_column s (src_chrNames s (fst chr)) (snd chr))
           (src_chrs s).

Definition joined (ls : list string) : string := foldr String.append "" ls.

(** The calls of a run, without what the hook answered. *)
Definition is_interrupt (e : event) : bool :=
  match e with EvInterrupt _ => true | EvFragment => false end.

(** The schedule of the first [n] fragments: each is written, and the hook
    follows the fragments numbered 0, 1024, 2048, ... *)
Definition schedule (n : nat) : list bool :=
  flat_map (fun k => false :: (if Z.of_nat k mod 1024 =? 0 then [true] else [])) (seq 0 n).

(** The longest stretch of fragments without a call of the hook, given
    the length [cur] of the stretch that is running. *)
Fixpoint longest_gap (cur : nat) (l : list bool) : nat :=
  match l with
  | [] => cur
  | true :: l' => Nat.max cur (longest_gap 0 l')
  | false :: l' => longest_gap (S cur) l'
  end.

(** What holds of a state between two fragments: [k] fragments were
    written, the counter says so, the calls so far follow the schedule, and
    no call has raised. *)
Definition on_schedule (H : Type) (k : nat) (st : wstate H) : Prop :=
  total_fragments H st = to_size_t (Z.of_nat k) /\
  is_interrupt <$> w_log H st = schedule k /\
  (forall e, EvInterrupt (Some e) ∉ w_log H st).

(** What holds when a run of the loops is over. *)
Definition run_ok (H : Type) (k bound : nat) (res : wstate H * outcome bool) : Prop :=
  (exists n, (k <= n <= bound)%nat /\ is_interrupt <$> w_log H (fst res) = schedule n) /\
  (forall e, EvInterrupt (Some e) ∈ w_log H (fst res) -> snd res = Throw e) /\
  (snd res = Ok true -> on_schedule H bound (fst res)).

End BedFragmentsWriter.

(** ** The hierarchical file library, as far as the sources use it *)

Module HighFive.

Inductive attribute : Type :=
| AttrString (s : string)
| AttrUInts (v : list Z).

(** A member of a compound type with its column of values: of string class,
    or of another class. *)
Inductive column : Type :=
| ColStrings (v : list string)
| ColOther.

Inductive dataset : Type :=
| DNum (v : list Z)          (* one-dimensional, of a numeric type *)
| DString (v : list string)  (* one-dimensional, of strings *)
| DCompound (dims : list nat) (members : list (string * column)).

(** A group: attributes, datasets, and the names of the groups linked
    below it. *)
Record group : Type := mk_group {
  attrs : gmap string attribute;
  datasets : gmap string dataset;
  links : gset string
}.

Definition empty_group : group := mk_group ∅ ∅ ∅.

(** A file is the table of its groups by absolute path; the root is "/". *)
Record File : Type := mk_File {
  file_path : string;
  file_groups : gmap string group
}.

Record Group : Type := mk_Group {
  g_file : File;
  g_path : string;
  g_node : group
}.

(** The files on disk, by path. *)
Abbreviation disk := (gmap string (gmap string group)).

Inductive open_mode : Type := ReadOnly | ReadWrite | OpenOrCreate.

Definition new_file : gmap string group := {[ "/" := empty_group ]}.

(** [HighFive::File(path, mode)]: the handle, and the disk (a missing file
    is created under [OpenOrCreate]). *)
Definition File_open (d : disk) (path : string) (mode : open_mode) : disk * outcome File :=
  match d !! path with
  | Some gs => (d, Ok (mk_File path gs))
  | None =>
      match mode with
      | OpenOrCreate => (<[path := new_file]> d, Ok (mk_File path new_file))
      | _ => (d, Throw (runtime_error "Unable to open file"))
      end
  end.

Definition abs_path (p : string) : string :=
  match p with
  | String "/" _ => p
  | _ => String "/" p
  end.

(** [base/rel] for a group path [base]. *)
Definition join (base rel : string) : string :=
  if bool_decide (rel = "") then base
  else if bool_decide (base = "/") then String "/" rel
  else base +:+ String "/" rel.

Fixpoint has_slash (p : string) : bool :=
  match p with
  | EmptyString => false
  | String c p' => bool_decide (c = "/"%char) || has_slash p'
  end.

(** A relative path split at its last slash: the groups to go through and
    the final name. *)
Fixpoint split_last (p : string) : string * string :=
  match p with
  | EmptyString => ("", "")
  | String c p' =>
      if has_slash p' then let '(dir, name) := split_last p' in (String c dir, name)
      else if bool_decide (c = "/"%char) then ("", p')
      else ("", p)
  end.

Definition File_getGroup (fl : File) (p : string) : outcome Group :=
  match file_groups fl !! abs_path p with
  | Some g => Ok (mk_Group fl (abs_path p) g)
  | None => Throw (GroupException "Unable to open the group")
  end.

Definition Group_getGroup (g : Group) (rel : string) : outcome Group :=
  File_getGroup (g_file g) (join (g_path g) rel).

Definition getFile (g : Group) : File := g_file g.

Definition getNumberObjects (g : Group) : nat :=
  size (datasets (g_node g)) + size (links (g_node g)).

Definition hasAttribute (g : Group) (name : string) : bool :=
  bool_decide (is_Some (attrs (g_node g) !! name)).

Definition getAttribute (g : Group) (name : string) : outcome attribute :=
  match attrs (g_node g) !! name with
  | Some a => Ok a
  | None => Throw (AttributeException "Unable to open the attribute")
  end.

Definition read_string (a : attribute) : outcome string :=
  match a with
  | AttrString s => Ok s
  | AttrUInts _ => Throw (AttributeException "Unable to read the attribute as a string")
  end.

(** Read into a [std::vector<uint32_t>]. *)
Definition read_uints (a : attribute) : outcome (list Z) :=
  match a with
  | AttrUInts v => Ok (to_uint32 <$> v)
  | AttrString _ => Throw (AttributeException "Unable to read the attribute as integers")
  end.

(** [group.getDataSet(path)], [path] relative to the group. *)
Definition getDataSet (g : Group) (path : string) : outcome dataset :=
  let '(dir, name) := split_last path in
  let* g' := Group_getGroup g dir in
  match datasets (g_node g') !! name with
  | Some ds => Ok ds
  | None => Throw (DataSetException "Unable to open the dataset")
  end.

Definition getDimensions (ds : dataset) : list nat :=
  match ds with
  | DNum v => [length v]
  | DString v => [length v]
  | DCompound dims _ => dims
  end.

(** [file.createGroup(path)]: a new, empty group; the disk is updated. *)
Definition createGroup (d : disk) (fl : File) (p : string) : disk * Group :=
  let gs := <[abs_path p := empty_group]> (file_groups fl) in
  (<[file_path fl := gs]> d, mk_Group (mk_File (file_path fl) gs) (abs_path p) empty_group).

(** The group stored at [group_path] of the file at [path], if both exist
    (an empty [group_path] is the root). *)
Definition group_on_disk (d : disk) (path group_path : string) : option group :=
  match d !! path with
  | Some gs => gs !! abs_path (if bool_decide (group_path = "") then "/" else group_path)
  | None => None
  end.

End HighFive.

(** ** Readers over datasets (arrayIO/hdf5.h is not among the sources) *)

Module H5Readers.
Import HighFive.

(** A numeric reader: where it reads, its buffer size, what is stored there. *)
Record NumReader : Type := mk_NumReader {
  nr_file : string;
  nr_group : string;
  nr_name : string;
  nr_buffer_size : Z;
  nr_values : list Z
}.

Inductive StringReader : Type :=
| VecStringReader (data : list string)
| H5StringReader (file group_path path : string) (data : list string).

(** Modelled from the spec: the reader classes of arrayIO/hdf5.h are absent;
    by 4.1 opening a named array that is missing fails (NotFound), and a
    reader of the wrong type fails (TypeError). *)
Definition open_num (g : Group) (name : string) (buffer_size : Z) : outcome NumReader :=
  match datasets (g_node g) !! name with
  | Some (DNum v) => Ok (mk_NumReader (file_path (g_file g)) (g_path g) name buffer_size v)
  | Some _ => Throw (DataTypeException "Dataset is not numeric")
  | None => Throw (DataSetException "Unable to open the dataset")
  end.

Definition ZH5UIntReader := open_num.

Definition new_H5StringReader (g : Group) (path : string) : outcome StringReader :=
  let* ds := getDataSet g path in
  match ds with
  | DString v => Ok (H5StringReader (file_path (g_file g)) (g_path g) path v)
  | _ => Throw (DataTypeException "Dataset does not hold strings")
  end.

(** [H5ReaderBuilder(file, group, buffer_size, read_size)]. *)
Record H5ReaderBuilder : Type := mk_H5ReaderBuilder {
  rb_group : Group;
  rb_buffer_size : Z;
  rb_read_size : Z
}.

Definition new_H5ReaderBuilder (d : disk) (file group : string) (buffer_size read_size : Z)
  : outcome H5ReaderBuilder :=
  let* fl := snd (File_open d file ReadOnly) in
  let* g := File_getGroup fl group in
  Ok (mk_H5ReaderBuilder g buffer_size read_size).

Definition getGroup (rb : H5ReaderBuilder) : Group := rb_group rb.

Definition openUIntReader (rb : H5ReaderBuilder) (name : string) : outcome NumReader :=
  open_num (rb_group rb) name (rb_buffer_size rb).

Definition openFloatReader (rb : H5ReaderBuilder) (name : string) : outcome NumReader :=
  open_num (rb_group rb) name (rb_buffer_size rb).

End H5Readers.

(** ** arrayIO.h *)

Module ArrayIO.
Import HighFive H5Readers.

Record PackedMatrix : Type := mk_PackedMatrix {
  val_data : NumReader;
  val_idx : NumReader;
  row_data : NumReader;
  row_starts : NumReader;
  row_idx : NumReader;
  col_ptr : NumReader;
  row_count : NumReader
}.

Definition version_error : exn :=
  runtime_error "HDF5 group does not have correct version attribute (v1-packed)".

Definition openPackedMatrixH5 (d : disk) (file_path group_path : string) (buffer_size : Z)
  : outcome PackedMatrix :=
  let group_path := if bool_decide (group_path = "") then "/" else group_path in
  let* fl := snd (File_open d file_path ReadOnly) in
  let* group := File_getGroup fl group_path in
  let* a := getAttribute group "version" in
  let* version := read_string a in
  if negb (bool_decide (version = "v1-packed")) then
    Throw version_error
  else
    let* r1 := ZH5UIntReader group "val_data" buffer_size in
    let* r2 := ZH5UIntReader group "val_idx" buffer_size in
    let* r3 := ZH5UIntReader group "row_data" buffer_size in
    let* r4 := ZH5UIntReader group "row_starts" buffer_size in
    let* r5 := ZH5UIntReader group "row_idx" buffer_size in
    let* r6 := ZH5UIntReader group "col_ptr" buffer_size in
    let* r7 := ZH5UIntReader group "row_count" buffer_size in
    Ok (mk_PackedMatrix r1 r2 r3 r4 r5 r6 r7).

(** The reader [r] is on the numeric dataset [name] of the group [g], with
    buffer size [buffer_size]. *)
Definition reads (g : group) (buffer_size : Z) (name : string) (r : NumReader) : Prop :=
  datasets g !! name = Some (DNum (nr_values r)) /\ nr_name r = name /\
  nr_buffer_size r = buffer_size.

(** The directory tree and the files in it. *)
Record world : Type := mk_world {
  dirs : gset string;
  h5 : disk
}.

(** [std::filesystem::path::parent_path]. *)
Definition parent_path (p : string) : string :=
  let '(dir, _) := split_last p in
  if bool_decide (dir = "") && bool_decide (String.prefix "/" p = true) then "/" else dir.

Definition has_parent_path (p : string) : bool := negb (bool_decide (parent_path p = "")).

Fixpoint create_directories_upto (fuel : nat) (ds : gset string) (p : string) : gset string :=
  match fuel with
  | O => ds
  | S fuel' =>
      if bool_decide (p = "") || bool_decide (p = "/") then ds
      else create_directories_upto fuel' ({[p]} ∪ ds) (parent_path p)
  end.

Definition create_directories (ds : gset string) (p : string) : gset string :=
  create_directories_upto (S (String.length p)) ds p.

(** What the reachable part of [createPackedMatrixH5] returns: the group,
    as the writer. *)
Record PackedMatrixWriter : Type := mk_PackedMatrixWriter {
  pmw_group : Group
}.

Definition not_empty_error : exn := runtime_error "Requested hdf5 group is not empty".

(** [createPackedMatrixH5]. Both ways out of the [try] block return, so the
    statements after it (the version attribute and the seven writers) are
    never reached. *)
Definition createPackedMatrixH5 (w : world) (file_path group_path : string)
    (buffer_size chunk_size : Z) : world * outcome PackedMatrixWriter :=
  let group_path := if bool_decide (group_path = "") then "/" else group_path in
  let path := file_path in
  let w :=
    if has_parent_path path && negb (bool_decide (parent_path path ∈ dirs w))
    then mk_world (create_directories (dirs w) (parent_path path)) (h5 w)
    else w in
  let '(d, file) := File_open (h5 w) file_path OpenOrCreate in
  let w := mk_world (dirs w) d in
  match file with
  | Ok file =>
      match File_getGroup file group_path with
      | Ok ret =>
          if negb (getNumberObjects ret =? 0)%nat then
            (w, Throw not_empty_error)
          else (w, Ok (mk_PackedMatrixWriter ret))
      | Throw (GroupException _) =>
          let '(d, g) := createGroup (h5 w) file group_path in
          (mk_world (dirs w) d, Ok (mk_PackedMatrixWriter g))
      | Throw e => (w, Throw e)
      | OutOfFuel => (w, OutOfFuel)
      end
  | Throw e => (w, Throw e)
  | OutOfFuel => (w, OutOfFuel)
  end.

End ArrayIO.

(** ** ImportMatrixHDF5.cpp *)

Module ImportMatrixHDF5.
Import HighFive H5Readers.

Record StoredMatrix : Type := mk_StoredMatrix {
  indices : NumReader;
  data : NumReader;
  indptr : NumReader;
  rows : Z;
  row_names : StringReader;
  col_names : StringReader
}.

(** The search of [readMember] through the members of the compound type. *)
Fixpoint find_member (members : list (string * column)) (name : string)
  : outcome (option (list string)) :=
  match members with
  | [] => Ok None
  | (n, c) :: rest =>
      if bool_decide (n = name) then
        match c with
        | ColStrings v => Ok (Some v)
        | ColOther =>
            Throw (DataTypeException
                     ("Type of member " +:+ name +:+ " in file does not match class of requested type"))
        end
      else find_member rest name
  end.

(** [readMember<std::string>(dataset, name, out)]; the vector [out] is the
    result. *)
Definition readMember (ds : dataset) (name : string) : outcome (list string) :=
  let dims := getDimensions ds in
  if negb (length dims =? 1)%nat then
    Throw (runtime_error ("readMember: dims must be 1, found " +:+ pretty (length dims)))
  else
    match ds with
    | DCompound _ members =>
        let* found := find_member members name in
        match found with
        | None =>
            Throw (DataTypeException ("Member " +:+ name +:+ " not found in compound data type"))
        | Some v =>
            let n := dims !!! 0%nat in
            Ok (take n (v ++ replicate n ""))
        end
    | _ => Throw (DataTypeException "Invalid conversion towards compound data type")
    end.

(** The attributes and name tables read before the orientation is looked
    at: encoding, dims, col_names, row_names. *)
Definition anndata_header (g : Group)
  : outcome (string * list Z * StringReader * StringReader) :=
  let* root := File_getGroup (getFile g) "/" in
  if hasAttribute g "h5sparse_format" then
    let* a := getAttribute g "h5sparse_format" in
    let* encoding := read_string a in
    let* a := getAttribute g "h5sparse_shape" in
    let* dims := read_uints a in
    let encoding := encoding +:+ "_matrix" in
    let* _ := getDataSet root "var" in
    let* var := getDataSet root "var" in
    let* col_name_data := readMember var "index" in
    let* obs := getDataSet root "obs" in
    let* row_name_data := readMember obs "index" in
    Ok (encoding, dims, VecStringReader col_name_data, VecStringReader row_name_data)
  else if hasAttribute g "encoding-type" then
    let* a := getAttribute g "encoding-type" in
    let* encoding := read_string a in
    let* a := getAttribute g "shape" in
    let* dims := read_uints a in
    let* var := Group_getGroup root "var" in
    let* a := getAttribute var "_index" in
    let* col_ids := read_string a in
    let* obs := Group_getGroup root "obs" in
    let* a := getAttribute obs "_index" in
    let* row_ids := read_string a in
    let col_ids := "var/" +:+ col_ids in
    let row_ids := "obs/" +:+ row_ids in
    let* col_names := new_H5StringReader root col_ids in
    let* row_names := new_H5StringReader root row_ids in
    Ok (encoding, dims, col_names, row_names)
  else
    Throw (runtime_error
             "h5ad could not be read - missing attribute 'encoding-type' on sparse matrix").

(** The row count and the two name tables, by orientation. [dims[k]] past
    the end of [dims] is undefined in the source; it reads 0 here. *)
Definition orient (encoding : string) (dims : list Z) (col_names row_names : StringReader)
  : outcome (Z * StringReader * StringReader) :=
  if bool_decide (encoding = "csr_matrix") then
    Ok (dims !!! 1%nat, col_names, row_names)
  else if bool_decide (encoding = "csc_matrix") then
    Ok (dims !!! 0%nat, row_names, col_names)
  else Throw (runtime_error ("Unsupported matrix encoding: " +:+ encoding)).

Definition openAnnDataMatrix (d : disk) (file group : string) (buffer_size read_size : Z)
  : outcome StoredMatrix :=
  let* rb := new_H5ReaderBuilder d file group buffer_size read_size in
  let g := getGroup rb in
  let* (encoding, dims, col_names, row_names) := anndata_header g in
  let* (rows, row_names, col_names) := orient encoding dims col_names row_names in
  let* i := openUIntReader rb "indices" in
  let* x := openFloatReader rb "data" in
  let* p := openUIntReader rb "indptr" in
  Ok (mk_StoredMatrix i x p rows row_names col_names).

Definition isRowOrientedAnnDataMatrix (d : disk) (file group : string) : outcome bool :=
  let* rb := new_H5ReaderBuilder d file group 1024 1024 in
  let g := getGroup rb in
  let* encoding :=
    if hasAttribute g "h5sparse_format" then
      let* a := getAttribute g "h5sparse_format" in
      let* encoding := read_string a in
      Ok (encoding +:+ "_matrix")
    else if hasAttribute g "encoding-type" then
      let* a := getAttribute g "encoding-type" in
      read_string a
    else
      Throw (runtime_error
               "h5ad could not be read - missing attribute 'encoding-type' on sparse matrix") in
  if bool_decide (encoding = "csr_matrix") then Ok true
  else if bool_decide (encoding = "csc_matrix") then Ok false
  else Throw (runtime_error ("Unsupported matrix encoding: " +:+ encoding)).

End ImportMatrixHDF5.

(** ** Sparse matrices as column streams *)

Module Matrix.

(** What a MatrixIter yields: for each column, in order, its (row, value)
    entries. *)
Record matrix : Type := mk_matrix {
  rows : nat;
  cols : nat;
  columns : list (list (nat * Z));
  row_names : list string;
  col_names : list string
}.

(** Rows within bounds and one entry list per column. *)
Definition wf (m : matrix) : Prop :=
  length (columns m) = cols m ∧
  Forall (Forall (fun e => (fst e < rows m)%nat)) (columns m).

(** The value a dense sink holds at row [i] after a column was drained
    into it (entries add up). *)
Fixpoint entry_of (col : list (nat * Z)) (i : nat) : Z :=
  match col with
  | [] => 0
  | (r, v) :: col' => (if (r =? i)%nat then v else 0) + entry_of col' i
  end.

Definition entry (m : matrix) (i j : nat) : Z :=
  entry_of (columns m !!! j) i.

(** The dense form: a list of rows. *)
Definition dense (m : matrix) : list (list Z) :=
  (fun i => (fun j => entry m i j) <$> seq 0 (cols m)) <$> seq 0 (rows m).

Definition vstack (a b : list (list Z)) : list (list Z) := a ++ b.
Definition hstack (a b : list (list Z)) : list (list Z) := zip_with app a b.

(** The entries as (row, col, value), in the order they are yielded. *)
Definition triplets (m : matrix) : list (nat * nat * Z) :=
  concat (imap (fun j col => (fun e => (fst e, j, snd e)) <$> col) (columns m)).

(** A matrix from triplets (Eigen's [setFromTriplets], read back by
    columns): column [j] lists, by ascending row, the non-zero sums. *)
Definition from_triplets (n_row n_col : nat) (ts : list (nat * nat * Z)) : matrix :=
  let value i j :=
    foldr Z.add 0 ((fun t => snd t) <$>
      filter (fun t => fst (fst t) = i ∧ snd (fst t) = j) ts) in
  mk_matrix n_row n_col
    ((fun j => omap (fun i => if bool_decide (value i j = 0) then None
                               else Some (i, value i j)) (seq 0 n_row))
       <$> seq 0 n_col) [] [].

(** [matrix_identical_cpp] of the tests: same number of columns, and in
    each column the same entries in the same order. *)
Fixpoint entries_identical (j1 j2 : nat) (c1 c2 : list (nat * Z)) : bool :=
  match c1, c2 with
  | [], [] => true
  | (r1, v1) :: c1', (r2, v2) :: c2' =>
      if negb (r1 =? r2)%nat || negb (j1 =? j2)%nat || negb (v1 =? v2) then false
      else entries_identical j1 j2 c1' c2'
  | _, _ => false
  end.

Fixpoint columns_identical (j1 j2 : nat) (cs1 cs2 : list (list (nat * Z))) : bool :=
  match cs1, cs2 with
  | [], [] => true
  | c1 :: cs1', c2 :: cs2' =>
      if negb (j1 =? j2)%nat then false
      else if negb (entries_identical j1 j2 c1 c2) then false
      else columns_identical (S j1) (S j2) cs1' cs2'
  | _, _ => false
  end.

Definition matrix_identical_cpp (mat1 mat2 : matrix) : bool :=
  columns_identical 0 0 (columns mat1) (columns mat2).

End Matrix.

(** ** Matrix concatenation *)

Module ConcatenateMatrix.
Import Matrix.

Definition shift_rows (offset : nat) (col : list (nat * Z)) : list (nat * Z) :=
  (fun e => (offset + fst e, snd e)%nat) <$> col.

(** Column [j] of the row-stack: each source's column [j] in turn, its rows
    moved down by the rows of the sources before it. *)
Fixpoint stacked_column (offset : nat) (sources : list matrix) (j : nat) : list (nat * Z) :=
  match sources with
  | [] => []
  | m :: rest => shift_rows offset (columns m !!! j) ++ stacked_column (offset + rows m) rest j
  end.

(** Modelled from the spec: ConcatenateMatrix.h is absent. 4.7: ConcatRows
    row-stacks, for each column j source 0's rows verbatim, then source 1's
    rows with offset rows(0), and so on; construction is rejected on
    mismatched cols. *)
Definition ConcatRows (sources : list matrix) : outcome matrix :=
  match sources with
  | [] => Throw (ShapeError "ConcatRows: no sources")
  | m0 :: _ =>
      if forallb (fun m => cols m =? cols m0)%nat sources then
        Ok (mk_matrix (sum_list (rows <$> sources)) (cols m0)
              ((fun j => stacked_column 0 sources j) <$> seq 0 (cols m0))
              (concat (row_names <$> sources)) (col_names m0))
      else Throw (ShapeError "ConcatRows: mismatched cols")
  end.

(** Modelled from the spec: ConcatenateMatrix.h is absent. 4.7: ConcatCols
    column-concatenates; construction is rejected on mismatched rows. *)
Definition ConcatCols (sources : list matrix) : outcome matrix :=
  match sources with
  | [] => Throw (ShapeError "ConcatCols: no sources")
  | m0 :: _ =>
      if forallb (fun m => rows m =? rows m0)%nat sources then
        Ok (mk_matrix (rows m0) (sum_list (cols <$> sources))
              (concat ((fun m => take (cols m) (columns m ++ replicate (cols m) [])) <$> sources))
              (row_names m0) (concat (col_names <$> sources)))
      else Throw (ShapeError "ConcatCols: mismatched rows")
  end.

End ConcatenateMatrix.

(** ** Stored fragments, peaks and tiles *)

Module StoredFragments.

(** The arrays of the unpacked layout, as the tests write them. *)
Record unpacked : Type := mk_unpacked {
  cell : list Z;
  start : list Z;
  end_ : list Z;
  end_max : list Z;
  chr_ptr : list Z;
  chr_names : list string;
  cell_names : list string;
  version : string
}.

(** A fragment of the stream: start, end, cell. *)
Record frag : Type := mk_frag {
  f_start : Z;
  f_end : Z;
  f_cell : Z
}.

(** A fragment stream: the name tables, and per chromosome (in id order)
    its fragments. *)
Record fragments : Type := mk_fragments {
  fr_chr_names : list string;
  fr_cell_names : list string;
  fr_chrs : list (list frag)
}.

Definition slice {A : Type} (lo hi : nat) (l : list A) : list A :=
  take (hi - lo) (drop lo l).

(** Modelled from the spec: StoredFragments.h is absent. 4.4: [chr_ptr]
    holds an open and a close offset per chromosome, and reading
    chromosome k streams the fragments between the two. *)
Definition openUnpacked (u : unpacked) : fragments :=
  let all := zip_with (fun se c => mk_frag (fst se) (snd se) c)
               (zip (start u) (end_ u)) (cell u) in
  mk_fragments (chr_names u) (cell_names u)
    ((fun k => slice (Z.to_nat (chr_ptr u !!! (2 * k)%nat))
                     (Z.to_nat (chr_ptr u !!! (2 * k + 1)%nat)) all)
       <$> seq 0 (length (chr_ptr u) / 2)).

End StoredFragments.

Module PeakMatrix.
Import Matrix StoredFragments.

Definition ind (b : bool) : Z := if b then 1 else 0.

(** What fragment (s, e) adds to the peak [ps, pe): one for each of its two
    end points, s and e - 1, that lies inside. *)
Definition overlap_count (ps pe s e : Z) : Z :=
  ind ((ps <=? s) && (s <? pe)) + ind ((ps <=? e - 1) && (e - 1 <? pe)).

(** The position of a name in a table. *)
Fixpoint index_of (name : string) (table : list string) : option nat :=
  match table with
  | [] => None
  | x :: rest => if bool_decide (x = name) then Some 0%nat else S <$> index_of name rest
  end.

(** The fragments of the chromosome a peak is on: the peak's chromosome id
    names a chromosome in the caller's table, which is looked up by name in
    the source; an unknown chromosome has no fragments. *)
Definition frags_on (frags : fragments) (chr_names : list string) (chr : Z) : list frag :=
  match chr_names !! Z.to_nat chr with
  | None => []
  | Some name =>
      match index_of name (fr_chr_names frags) with
      | None => []
      | Some k => fr_chrs frags !!! k
      end
  end.

Definition count_for (fs : list frag) (ps pe : Z) (c : nat) : Z :=
  to_uint32
    (foldr Z.add 0
       ((fun x => if bool_decide (f_cell x = Z.of_nat c)
                  then overlap_count ps pe (f_start x) (f_end x) else 0) <$> fs)).

(** The column of a peak: for each cell, by ascending id, its count if
    not zero. *)
Definition peak_column (frags : fragments) (chr_names : list string) (chr ps pe : Z)
  : list (nat * Z) :=
  let fs := frags_on frags chr_names chr in
  omap (fun c => let n := count_for fs ps pe c in
                 if bool_decide (n = 0) then None else Some (c, n))
       (seq 0 (length (fr_cell_names frags))).

(** Modelled from the spec: PeakMatrix.h is absent. 4.8: a matrix of
    cells x peaks with one column per peak in input order, where fragment
    (s, e) adds I[p.start <= s < p.end] + I[p.start <= e-1 < p.end] to
    peak p for its cell. *)
Definition PeakMatrix (frags : fragments) (chr start end_ : list Z) (chr_names : list string)
  : matrix :=
  mk_matrix (length (fr_cell_names frags)) (length chr)
    (zip_with (fun c se => peak_column frags chr_names c (fst se) (snd se))
       chr (zip start end_))
    (fr_cell_names frags) [].

End PeakMatrix.

Module TileMatrix.
Import Matrix StoredFragments.

(** A tile: the region it belongs to (chromosome, start, end, width) and
    its number within the region. *)
Record tile : Type := mk_tile {
  t_chr : Z;
  t_start : Z;
  t_end : Z;
  t_width : Z;
  t_index : Z
}.

Definition tiles_in (start end_ width : Z) : nat :=
  Z.to_nat ((end_ - start + width - 1) / width).

(** The tiles of the regions, in input-region order, each region's tiles
    in sequence. *)
Definition tiles (chr start end_ width : list Z) : list tile :=
  concat
    (zip_with (fun cs ew =>
       (fun j => mk_tile (fst cs) (snd cs) (fst ew) (snd ew) (Z.of_nat j))
         <$> seq 0 (tiles_in (snd cs) (fst ew) (snd ew)))
       (zip chr start) (zip end_ width)).

(** What tile j of region r covers. *)
Definition cover (t : tile) : Z * Z :=
  (t_start t + t_index t * t_width t,
   Z.min (t_start t + (t_index t + 1) * t_width t) (t_end t)).

(** Whether the end point [x] falls in tile [t]: it is inside the region,
    and its tile index there, (x - start) / width, is the tile's. *)
Definition endpoint_in (t : tile) (x : Z) : bool :=
  (t_start t <=? x) && (x <? t_end t) && ((x - t_start t) / t_width t =? t_index t).

Definition count_for (fs : list frag) (t : tile) (c : nat) : Z :=
  to_uint32
    (foldr Z.add 0
       ((fun x => if bool_decide (f_cell x = Z.of_nat c)
                  then PeakMatrix.ind (endpoint_in t (f_start x))
                       + PeakMatrix.ind (endpoint_in t (f_end x - 1))
                  else 0) <$> fs)).

Definition tile_column (frags : fragments) (chr_names : list string) (t : tile)
  : list (nat * Z) :=
  let fs := PeakMatrix.frags_on frags chr_names (t_chr t) in
  omap (fun c => let n := count_for fs t c in
                 if bool_decide (n = 0) then None else Some (c, n))
       (seq 0 (length (fr_cell_names frags))).

(** Modelled from the spec: TileMatrix.h is absent. 4.9: one column per
    tile, tiles in input-region order; each of the two end points of a
    fragment adds 1 to the tile that contains it, if it is inside the
    region. *)
Definition TileMatrix (frags : fragments) (chr start end_ width : list Z)
    (chr_names : list string) : matrix :=
  let ts := tiles chr start end_ width in
  mk_matrix (length (fr_cell_names frags)) (length ts)
    (tile_column frags chr_names <$> ts)
    (fr_cell_names frags) [].

End TileMatrix.

(** ** The fixtures of test-peakMatrix.cpp *)

Module TestPeakMatrix.
Import StoredFragments.

(** An [Eigen::Triplet]: row, column, value. *)
Definition triplet (row col : nat) (val : Z) : nat * nat * Z := (row, col, val).

(** [count] copies of one fragment, as (cell, start, end). *)
Definition copies (count : nat) (cell start end_ : Z) : list (Z * Z * Z) :=
  replicate count (cell, start, end_).

Definition build (chr1 chr2 : list (Z * Z * Z)) (end_max : list Z) : unpacked :=
  let all := chr1 ++ chr2 in
  let count := Z.of_nat (length chr1) in
  mk_unpacked ((fun x => fst (fst x)) <$> all) ((fun x => snd (fst x)) <$> all)
    (snd <$> all) end_max
    [0; count; count; count + Z.of_nat (length chr2)]
    ["chr1"; "chr2"] ["c0"; "c1"; "c2"; "c3"; "c4"]
    "unpacked-fragments-v1".

(** TEST(PeakMatrix, PeakMatrix): the three nested loops over j, i, k. *)
Definition peak_chr1 : list (Z * Z * Z) :=
  flat_map (fun j =>
    flat_map (fun i => copies (i + 1) (Z.of_nat i) (Z.of_nat j) (1002 + Z.of_nat i))
             (seq 0 (j + 1)))
    (seq 0 5).

Definition peak_chr2 : list (Z * Z * Z) :=
  [(0, 9, 21); (1, 9, 20); (2, 10, 21); (3, 10, 20)].

Definition peak_frags : fragments :=
  openUnpacked (build peak_chr1 peak_chr2 [1001 + 4]).

Definition peak_chr : list Z := [0; 0; 0; 1].
Definition peak_start : list Z := [2; 1002; 1004; 10].
Definition peak_end : list Z := [4; 1005; 1006; 20].

Definition peak_expected_triplets : list (nat * nat * Z) :=
  [triplet 0 0 2; triplet 1 0 4; triplet 2 0 6; triplet 3 0 4;
   triplet 1 1 8; triplet 2 1 9; triplet 3 1 8;
   triplet 3 2 8; triplet 4 2 5;
   triplet 1 3 1; triplet 2 3 1; triplet 3 3 2]%Z.

(** TEST(PeakMatrix, TileMatrix). *)
Definition tile_chr1 : list (Z * Z * Z) :=
  [(0, 9, 21); (0, 9, 10); (1, 12, 78)]
  ++ flat_map (fun i => copies (i + 1) 2 (11 + Z.of_nat i) (30 + Z.of_nat i)) (seq 0 12)
  ++ [(0, 20, 21)]
  ++ flat_map (fun i => copies (i + 2) 3 (29 + Z.of_nat i) (50 + Z.of_nat i)) (seq 0 12).

Definition tile_chr2 : list (Z * Z * Z) :=
  [(0, 69, 81); (1, 69, 80); (2, 70, 81); (3, 70, 80)].

Definition tile_frags : fragments :=
  openUnpacked
    (build tile_chr1 tile_chr2
       (replicate (Nat.div (length tile_chr1 + 127) 128) 81)).

Definition tile_chr : list Z := [0; 0; 0; 1].
Definition tile_start : list Z := [10; 30; 50; 70].
Definition tile_end : list Z := [20; 40; 60; 80].
Definition tile_width : list Z := [5; 3; 5; 12].

Definition tile_expected_triplets : list (nat * nat * Z) :=
  [triplet 1 0 1; triplet 2 0 10;
   triplet 2 1 35;
   triplet 2 2 9; triplet 3 2 12;
   triplet 2 3 18; triplet 3 3 21;
   triplet 2 4 27; triplet 3 4 30;
   triplet 2 5 11; triplet 3 5 12;
   triplet 3 6 25;
   triplet 3 7 50;
   triplet 1 8 1; triplet 2 8 1; triplet 3 8 2]%Z.

End TestPeakMatrix.

(** ** What is known of a reader between two calls *)

Module BedInvariants.
Import CStr Zlib BedText BedOrder BedFragments.

(** An end of line: a newline, or nothing on a last line that has none. *)
Definition is_eol (eol : string) : Prop := eol = "" \/ eol = nl.

(** A line [gzgets] hands over whole: not empty, without NUL or newline,
    and short enough for the buffer. *)
Definition fits (line_buf_size : nat) (s : string) : Prop :=
  s <> "" /\ all_chars line_char s = true /\ (String.length s + 2 <= line_buf_size)%nat.

(** Where the reader is in the text: holding line [cur] with [pending] to
    come; holding the last line again after the first read past the end;
    or with the buffer emptied. *)
Inductive pos : Type :=
| At (cur : string) (pending : list string)
| Stale (cur : string)
| Done.

Definition at_pos (final_nl : bool) (b : BedFragments.t) (p : pos) : Prop :=
  match p with
  | At cur pending =>
      (exists g eol, f b = Some g /\ gz_rest g = text_of pending final_nl /\
                     line_buf b = cur +:+ eol /\ is_eol eol) /\ eof b = false
  | Stale cur =>
      (exists g eol, f b = Some g /\ gz_rest g = "" /\
                     line_buf b = cur +:+ eol /\ is_eol eol) /\ eof b = true
  | Done => line_buf b = ""
  end.

(** The position after one more [read_line]. *)
Definition advance_pos (p : pos) : pos :=
  match p with
  | At cur (s :: pending) => At s pending
  | At cur [] => Stale cur
  | Stale _ => Done
  | Done => Done
  end.

(** [b] with the file, the buffer and the end flag replaced. *)
Definition set_cursor (x : option gzFile) (buf : string) (e : bool) (b : BedFragments.t)
  : BedFragments.t :=
  mk (path b) x buf (chr_names b) (cell_names b) (chr_lookup b)
     (cell_id_lookup b) (next_chr_id b) (next_cell_id b) (current_chr b)
     (comment b) (last_start b) e.

(** A name table with its index: names are distinct and drawn from
    [universe], the index maps each name to its place, and the next id is
    the number of names. *)
Definition table_ok (universe names : list string) (lookup : gmap string Z) (next : Z) : Prop :=
  NoDup names /\ next = Z.of_nat (length names) /\
  (forall name id, lookup !! name = Some id -> 0 <= id /\ names !! Z.to_nat id = Some name) /\
  (forall name, name ∈ names -> is_Some (lookup !! name)) /\
  names ⊆ universe.

(** Names are only ever added at the end. *)
Definition extends (b b' : BedFragments.t) : Prop :=
  cell_names b `prefix_of` cell_names b' /\ chr_names b `prefix_of` chr_names b'.

(** Positions among data lines. *)
Inductive dpos : Type :=
| DAt (l : bed_line) (pending : list bed_line)
| DStale (l : bed_line)
| DDone.

Definition raw (p : dpos) : pos :=
  match p with
  | DAt l pending => At (render l) (render <$> pending)
  | DStale l => Stale (render l)
  | DDone => Done
  end.

(** The lines still to be delivered. *)
Definition dlines (p : dpos) : list bed_line :=
  match p with
  | DAt l pending => l :: pending
  | _ => []
  end.

(** The lines the reader may still look at. *)
Definition dseen (p : dpos) : list bed_line :=
  match p with
  | DAt l pending => l :: pending
  | DStale l => [l]
  | DDone => []
  end.

Definition dadvance (l : bed_line) (pending : list bed_line) : dpos :=
  match pending with
  | [] => DStale l
  | l' :: pending' => DAt l' pending'
  end.

(** One call of [load] with [k] rounds to go, on chromosome [c] with last
    start [ls]: the lines it delivers, the last start and the position it
    leaves, or nothing when it throws. *)
Fixpoint load_spec (k : nat) (c : string) (ls : Z) (p : dpos)
  : option (list bed_line * Z * dpos) :=
  match k with
  | O => Some ([], ls, p)
  | S k' =>
      match p with
      | DAt l pending =>
          if bool_decide (chrom l = c) then
            if bool_decide (dec_value (start_txt l) < ls) then None
            else
              match load_spec k' c (dec_value (start_txt l)) (dadvance l pending) with
              | Some (d, ls', p') => Some (l :: d, ls', p')
              | None => None
              end
          else Some ([], ls, p)
      | DStale l => Some ([], ls, DDone)
      | DDone => Some ([], ls, DDone)
      end
  end.

(** The three entries of the buffer at [j], the cell resolved by name. *)
Definition entry_fields (b : BedFragments.t) (buffer : FragmentArray.t) (j : nat)
  : Z * Z * option string :=
  (FragmentArray.start buffer !!! j, FragmentArray.end_ buffer !!! j,
   cellNames b (FragmentArray.cell buffer !!! j)).

Definition line_fields (l : bed_line) : Z * Z * option string :=
  (dec_value (start_txt l), dec_value (end_txt l), Some (barcode l)).

(** All three arrays of the buffer hold at least [n] entries. *)
Definition roomy_buffer (n : nat) (buffer : FragmentArray.t) : Prop :=
  (n <= length (FragmentArray.start buffer))%nat /\
  (n <= length (FragmentArray.end_ buffer))%nat /\
  (n <= length (FragmentArray.cell buffer))%nat.

Definition entry_raw (buffer : FragmentArray.t) (j : nat) : Z * Z * Z :=
  (FragmentArray.start buffer !!! j, FragmentArray.end_ buffer !!! j,
   FragmentArray.cell buffer !!! j).

(** The buffer with entry [i] written. *)
Definition written (i : nat) (s e c : Z) (buffer : FragmentArray.t) : FragmentArray.t :=
  FragmentArray.mk (<[i := s]> (FragmentArray.start buffer))
                   (<[i := e]> (FragmentArray.end_ buffer))
                   (<[i := c]> (FragmentArray.cell buffer)).

Section Invariant.

Variable line_buf_size : nat.
Variable final_nl : bool.
(** All barcodes and all chromosome names of the file. *)
Variables cell_universe chr_universe : list string.

(** Every line still to be looked at is well-formed, fits the buffer, and
    has its names in the two universes. *)
Definition pos_wf (p : dpos) : Prop :=
  Forall (fun l => wf_line l = true /\ fits line_buf_size (render l) /\
                   barcode l ∈ cell_universe /\ chrom l ∈ chr_universe) (dseen p).

(** The reader [b] is at position [p], has met the chromosomes [known], is
    on chromosome [c] with last start [ls]; a line held again after the end
    of the text is the one delivered last. *)
Definition Inv (p : dpos) (known : list string) (c : string) (ls : Z) (b : BedFragments.t)
  : Prop :=
  at_pos final_nl b (raw p) /\ pos_wf p /\
  table_ok cell_universe (cell_names b) (cell_id_lookup b) (next_cell_id b) /\
  table_ok chr_universe (chr_names b) (chr_lookup b) (next_chr_id b) /\
  chr_names b = known /\ current_chr b = c /\ last_start b = ls /\
  match p with
  | DStale l => chrom l = c /\ ls = dec_value (start_txt l)
  | _ => True
  end.

(** What a call of [load_from] does, read off [load_spec]. *)
Definition load_outcome (known : list string) (c : string) (k i : nat)
    (b : BedFragments.t) (buffer : FragmentArray.t) (ls : Z) (p : dpos) : Prop :=
  match load_spec k c ls p with
  | None => load_from line_buf_size k i b buffer = Throw sort_error
  | Some (d, ls', p') =>
      exists b' buffer',
        load_from line_buf_size k i b buffer = Ok ((i + length d)%nat, b', buffer') /\
        Inv p' known c ls' b' /\ extends b b' /\
        roomy_buffer (i + k) buffer' /\
        (forall j, (j < i)%nat -> entry_raw buffer' j = entry_raw buffer j) /\
        entry_fields b' buffer' <$> seq i (length d) = line_fields <$> d
  end.

End Invariant.

(** What every operation of the reader keeps: the path and the comment
    prefix, the end flag once it is set, and the names met, each in its
    place. *)
Definition keeps (b b' : BedFragments.t) : Prop :=
  path b' = path b /\ comment b' = comment b /\
  (eof b = true -> eof b' = true) /\ extends b b'.

(** Where a reader is once it is constructed on a file with the data
    lines [lines]: at the first of them, or done when there is none. *)
Definition start_dpos (lines : list bed_line) : dpos :=
  match lines with
  | [] => DDone
  | l :: pending => DAt l pending
  end.

(** A file the reader can take in: a buffer of at least two bytes; data
    lines that are well-formed and fit the buffer; comment lines that fit
    and start with the prefix; a prefix without NUL or newline that the
    first data line does not start with; and fewer than 2^32 distinct
    barcodes and chromosomes. *)
Definition readable (line_buf_size : nat) (comment_prefix : string)
    (comments : list string) (lines : list bed_line) : Prop :=
  (2 <= line_buf_size)%nat /\
  Forall (fun l => wf_line l = true /\
                   (String.length (render l) + 2 <= line_buf_size)%nat) lines /\
  Forall (fun s => fits line_buf_size s /\ String.prefix comment_prefix s = true) comments /\
  (comment_prefix = "" -> comments = []) /\
  all_chars line_char comment_prefix = true /\
  (comment_prefix <> "" ->
   forall l, head lines = Some l -> String.prefix comment_prefix (render l) = false) /\
  Z.of_nat (length (remove_dups (barcode <$> lines))) < 2 ^ 32 /\
  Z.of_nat (length (remove_dups (chrom <$> lines))) < 2 ^ 32.

(** Where the comment loop of [restart] leaves the reader, [body] being
    the lines after the comments. *)
Definition after_comments (body : list string) : pos :=
  match body with
  | [] => Done
  | d :: ds => At d ds
  end.

(** A pointer at the end of a field. *)
Definition at_delimiter (p : string) : Prop :=
  p = "" \/ deref p = TAB \/ deref p = NL.

(** How a read through the file should end, by the order of its lines:
    with the fields [want] delivered, or with the sort error out of [load]
    or out of [nextChr]. *)
Definition expected (v : verdict) (want : list (option string * Z * Z * option string))
    (r : FragmentsConsumer.run_result) : Prop :=
  match v with
  | InOrder =>
      exists b' frs, r = FragmentsConsumer.Finished b' frs /\
                     FragmentsConsumer.resolve b' <$> frs = want
  | Descending => r = FragmentsConsumer.Raised FragmentsConsumer.CallLoad sort_error
  | Reentry => r = FragmentsConsumer.Raised FragmentsConsumer.CallNextChr sort_error
  end.

(** [P] holds of the run once it is given enough fuel. *)
Definition eventually (P : FragmentsConsumer.run_result -> Prop)
    (run : nat -> FragmentsConsumer.run_result) : Prop :=
  exists fuel0, forall fuel, (fuel0 <= fuel)%nat -> P (run fuel).

End BedInvariants.

(** ** What the writer writes, as the reader sees it *)

Module WriterReader.
Import CStr BedText BedFragmentsWriter.

(** The data line [write] makes of a fragment of chromosome [chr_id]. *)
Definition line_of (append_5th_column : bool) (s : source) (chr_id : Z) (fr : Z * Z * Z)
  : bed_line :=
  mk_line (fmt_s (src_chrNames s chr_id)) (fmt_d (fst (fst fr))) (fmt_d (snd (fst fr)))
          (fmt_s (src_cellNames s (snd fr)))
          (if append_5th_column then tab +:+ "0" else "").

Definition bed_lines (append_5th_column : bool) (s : source) : list bed_line :=
  flat_map (fun chr => line_of append_5th_column s (fst chr) <$> snd chr) (src_chrs s).

(** The fragments of the source with their names looked up, in the order
    they are yielded. *)
Definition source_fields (s : source) : list (option string * Z * Z * option string) :=
  flat_map (fun chr => (fun fr => (src_chrNames s (fst chr), fst (fst fr), snd (fst fr),
                                   src_cellNames s (snd fr))) <$> snd chr)
           (src_chrs s).

(** A source whose text [BedFragments] takes back: every fragment has a
    chromosome name and a cell name without NUL, tab or newline, the
    chromosome name not empty; coordinates are below 2^31; the lines fit
    a line buffer of at least two bytes; the fragments come with their
    chromosomes contiguous and their starts in order; and the two name
    tables have fewer than 2^32 entries. *)
Definition rereadable (line_buf_size : nat) (append_5th_column : bool) (s : source) : Prop :=
  (2 <= line_buf_size)%nat /\
  Forall (fun chr =>
            Forall (fun fr =>
                      (exists name, src_chrNames s (fst chr) = Some name /\ name <> "" /\
                                    all_chars field_char name = true) /\
                      (exists cell, src_cellNames s (snd fr) = Some cell /\
                                    all_chars field_char cell = true) /\
                      0 <= fst (fst fr) < 2 ^ 31 /\ 0 <= snd (fst fr) < 2 ^ 31 /\
                      (String.length (render (line_of append_5th_column s (fst chr) fr)) + 2
                       <= line_buf_size)%nat)
                   (snd chr))
         (src_chrs s) /\
  contiguous (bed_lines append_5th_column s) = true /\
  start_sorted (bed_lines append_5th_column s) = true /\
  Z.of_nat (length (src_cell_names s)) < 2 ^ 32 /\
  Z.of_nat (length (src_chr_names s)) < 2 ^ 32.

End WriterReader.

(** ** Concrete inputs *)

(** A reader that has seen two chromosomes and three cells. *)
Definition two_chr_reader : BedFragments.t :=
  BedFragments.mk "frags.tsv" None "" ["chr1"; "chr2"] ["a"; "b"; "c"]
    {[ "chr1" := 0; "chr2" := 1 ]} {[ "a" := 0; "b" := 1; "c" := 2 ]}
    2 3 "chr2" "" 0 false.


(** A group holding the seven arrays of a packed matrix, tagged [tag]. *)
Definition packed_group (tag : string) : HighFive.group :=
  HighFive.mk_group {[ "version" := HighFive.AttrString tag ]}
    (list_to_map
       ((fun name => (name, HighFive.DNum [])) <$>
          ["val_data"; "val_idx"; "row_data"; "row_starts"; "row_idx"; "col_ptr"; "row_count"]))
    ∅.

(** A disk with one file, with the packed matrix tagged [tag] in group "/m". *)
Definition packed_disk (tag : string) : HighFive.disk :=
  {[ "m.h5" := <[ "/m" := packed_group tag ]> HighFive.new_file ]}.

(** A world whose one file holds a group "/m" with a dataset, and an empty
    group "/e". *)
Definition busy_world : ArrayIO.world :=
  ArrayIO.mk_world {[ "out" ]}
    {[ "out/m.h5" :=
         <[ "/m" := HighFive.mk_group ∅ {[ "val_data" := HighFive.DNum [1; 2] ]} ∅ ]>
           (<[ "/e" := HighFive.empty_group ]> HighFive.new_file) ]}.

(** An h5ad file: a 3 x 2 sparse matrix in group "/X" with the modern
    attributes and encoding [enc], obs names under "/obs", var names under
    "/var". *)
Definition anndata_disk (enc : string) : HighFive.disk :=
  {[ "a.h5ad" :=
       <[ "/X" := HighFive.mk_group
                    {[ "encoding-type" := HighFive.AttrString enc;
                       "shape" := HighFive.AttrUInts [3; 2] ]}
                    {[ "indices" := HighFive.DNum [0; 1; 1];
                       "data" := HighFive.DNum [1065353216; 1073741824; 1077936128];
                       "indptr" := HighFive.DNum [0; 1; 2; 3] ]} ∅ ]>
       (<[ "/obs" := HighFive.mk_group {[ "_index" := HighFive.AttrString "names" ]}
                       {[ "names" := HighFive.DString ["o1"; "o2"; "o3"] ]} ∅ ]>
       (<[ "/var" := HighFive.mk_group {[ "_index" := HighFive.AttrString "names" ]}
                       {[ "names" := HighFive.DString ["v1"; "v2"] ]} ∅ ]>
        HighFive.new_file)) ]}.

(** The same matrix in the legacy layout: [h5sparse_format] and
    [h5sparse_shape] on the group, names in the compound datasets "obs" and
    "var" of the root. *)
Definition legacy_anndata_disk (format : string) : HighFive.disk :=
  {[ "a.h5ad" :=
       <[ "/X" := HighFive.mk_group
                    {[ "h5sparse_format" := HighFive.AttrString format;
                       "h5sparse_shape" := HighFive.AttrUInts [3; 2] ]}
                    {[ "indices" := HighFive.DNum [0; 1; 1];
                       "data" := HighFive.DNum [1065353216; 1073741824; 1077936128];
                       "indptr" := HighFive.DNum [0; 1; 2; 3] ]} ∅ ]>
       {[ "/" := HighFive.mk_group ∅
                   {[ "obs" := HighFive.DCompound [3%nat]
                                 [("index", HighFive.ColStrings ["o1"; "o2"; "o3"])];
                      "var" := HighFive.DCompound [2%nat]
                                 [("n_cells", HighFive.ColOther);
                                  ("index", HighFive.ColStrings ["v1"; "v2"])] ]} ∅ ]} ]}.

(** A reader holding a line of two fields, and one holding a line whose
    start is not a number. *)
Definition reader_on (line : string) : BedFragments.t :=
  BedFragments.mk "frags.tsv" None line [] [] ∅ ∅ 0 0 "" "" 0 false.

(** Fragment files: one in order, with a comment line and two fragments
    that start at the same base; one whose second line starts below the
    first; one that comes back to its first chromosome. *)
Definition bed_in_order : list BedText.bed_line :=
  [BedText.mk_line "chr1" "5" "10" "a" "";
   BedText.mk_line "chr1" "5" "12" "b" "";
   BedText.mk_line "chr1" "7" "9" "a" (BedText.tab +:+ "0");
   BedText.mk_line "chr2" "1" "4" "c" ""].

Definition bed_descending : list BedText.bed_line :=
  [BedText.mk_line "chr1" "5" "10" "a" "";
   BedText.mk_line "chr1" "3" "12" "b" ""].

Definition bed_reentry : list BedText.bed_line :=
  [BedText.mk_line "chr1" "5" "10" "a" "";
   BedText.mk_line "chr2" "1" "4" "b" "";
   BedText.mk_line "chr1" "7" "9" "a" ""].

Definition bed_files : Zlib.filesystem :=
  {[ "in_order.tsv" :=
       BedText.text_of ("# fragments" :: (BedText.render <$> bed_in_order)) false;
     "descending.tsv" := BedText.text_of (BedText.render <$> bed_descending) true;
     "reentry.tsv" := BedText.text_of (BedText.render <$> bed_reentry) true ]}.

(** A reader in the middle of "in_order.tsv": on chromosome chr1, holding
    the first data line, the other three still in the file. *)
Definition chr1_reader : BedFragments.t :=
  BedFragments.mk "in_order.tsv"
    (Some (Zlib.mk_gzFile
             (BedText.text_of (BedText.render <$> drop 1 bed_in_order) false) false))
    ("chr1" +:+ BedText.tab +:+ "5" +:+ BedText.tab +:+ "10" +:+ BedText.tab +:+ "a"
     +:+ BedText.nl)
    ["chr1"] [] {[ "chr1" := 0 ]} ∅ 1 0 "chr1" "#" 0 false.

(** The file the reader [two_chr_reader] is on. *)
Definition two_chr_files : Zlib.filesystem :=
  {[ "frags.tsv" := BedText.text_of (BedText.render <$> bed_in_order) true ]}.

(** A source of three fragments on two chromosomes, and an empty device
    with [room] bytes on which a failing [gzprintf] returns [errcode]. *)
Definition small_source : BedFragmentsWriter.source :=
  BedFragmentsWriter.mk_source ["chr1"; "chr2"] ["a"; "b"]
    [(0, [(5, 10, 0); (5, 12, 1)]); (1, [(1, 4, 0)])].

Definition device (room : nat) (errcode : Z) : BedFragmentsWriter.gzOut :=
  BedFragmentsWriter.mk_gzOut "" room errcode.

(** Two small matrices with two columns each, and one with three. *)
Definition mat_a : Matrix.matrix :=
  Matrix.mk_matrix 2 2 [[(0%nat, 5); (1%nat, 7)]; [(1%nat, 2)]] ["r0"; "r1"] ["c0"; "c1"].

Definition mat_b : Matrix.matrix :=
  Matrix.mk_matrix 2 2 [[(1%nat, 3)]; []] ["r2"; "r3"] ["c0"; "c1"].

Definition mat_x : Matrix.matrix :=
  Matrix.mk_matrix 3 3 [[(2%nat, 1)]; []; [(0%nat, 4)]] ["x0"; "x1"; "x2"] ["c0"; "c1"; "c2"].

(** A source of 1030 fragments on one chromosome, a roomy write stream, and
    a hook that counts its calls and raises on the second. *)
Definition long_source : BedFragmentsWriter.source :=
  BedFragmentsWriter.mk_source ["chr1"] ["c0"]
    [(0, (fun i => (Z.of_nat i, Z.of_nat i + 10, 0)) <$> seq 0 (Z.to_nat 1030))].

Definition roomy : BedFragmentsWriter.gzOut :=
  BedFragmentsWriter.mk_gzOut "" (Z.to_nat 1000000) (-1).

Definition counting_hook (calls : nat) : outcome nat := Ok (S calls).

Definition second_call_raises (calls : nat) : outcome nat :=
  match calls with
  | O => Ok 1%nat
  | S _ => Throw Cancelled
  end.
(** * Part II: proofs *)

(** ** Name lookups of the BED reader *)

Section NameLookups.
Import BedFragments.

Lemma names_lookup_out (names : list string) (id : Z) :
  Z.of_nat (length names) <= id -> names !! Z.to_nat id = None.
Proof. intros Hge. apply lookup_ge_None. lia. Qed.

Lemma names_lookup_in (names : list string) (id : Z) :
  0 <= id < Z.of_nat (length names) -> is_Some (names !! Z.to_nat id).
Proof. intros Hin. apply lookup_lt_is_Some. lia. Qed.

(** C10. For an identifier (an unsigned integer) at or beyond the number of
    names discovered so far, [chrNames] and [cellNames] return NULL; for one
    below it they return the name stored at that index. *)
Theorem chrNames_cellNames_in_and_out_of_range (b : BedFragments.t) (id : Z) :
  0 <= id ->
  (Z.of_nat (length (chr_names b)) <= id -> chrNames b id = None) /\
  (Z.of_nat (length (cell_names b)) <= id -> cellNames b id = None) /\
  (id < Z.of_nat (length (chr_names b)) ->
     exists name, chr_names b !! Z.to_nat id = Some name /\ chrNames b id = Some name) /\
  (id < Z.of_nat (length (cell_names b)) ->
     exists name, cell_names b !! Z.to_nat id = Some name /\ cellNames b id = Some name).
Proof.
  intros Hid. unfold chrNames, cellNames. repeat split.
  - intros Hge. rewrite bool_decide_eq_true_2; auto.
  - intros Hge. rewrite bool_decide_eq_true_2; auto.
  - intros Hlt. rewrite bool_decide_eq_false_2 by lia.
    destruct (names_lookup_in (chr_names b) id) as [name Hname]; [lia|]. eauto.
  - intros Hlt. rewrite bool_decide_eq_false_2 by lia.
    destruct (names_lookup_in (cell_names b) id) as [name Hname]; [lia|]. eauto.
Qed.

End NameLookups.

Lemma chrNames_cellNames_witness :
  BedFragments.chrNames two_chr_reader 2 = None /\
  BedFragments.cellNames two_chr_reader 3 = None /\
  BedFragments.chrNames two_chr_reader 1 = Some "chr2" /\
  BedFragments.cellNames two_chr_reader 2 = Some "c".
Proof.
  pose proof (chrNames_cellNames_in_and_out_of_range two_chr_reader 2 ltac:(lia)) as (H1 & _ & _ & H4).
  pose proof (chrNames_cellNames_in_and_out_of_range two_chr_reader 3 ltac:(lia)) as (_ & H2 & _ & _).
  pose proof (chrNames_cellNames_in_and_out_of_range two_chr_reader 1 ltac:(lia)) as (_ & _ & H3 & _).
  split; [apply H1; simpl; lia|].
  split; [apply H2; simpl; lia|].
  split.
  - destruct H3 as (name & Hl & Hn); [simpl; lia|]. simpl in Hl. congruence.
  - destruct H4 as (name & Hl & Hn); [simpl; lia|]. simpl in Hl. congruence.
Defined.

(** ** Peaks and tiles on the test fixtures *)

Section Fixtures.
Import Matrix TestPeakMatrix.

(** C1. On the fixture of scenario A the peak matrix has 5 rows and 4
    columns, yields exactly the twelve expected (cell, peak, count) entries,
    and passes the test's comparison with the expected matrix. *)
Theorem PeakMatrix_scenario_A :
  let m := PeakMatrix.PeakMatrix peak_frags peak_chr peak_start peak_end ["chr1"; "chr2"] in
  rows m = 5%nat /\ cols m = 4%nat /\
  triplets m = peak_expected_triplets /\
  matrix_identical_cpp (from_triplets 5 4 peak_expected_triplets) m = true.
Proof. vm_compute. repeat split; reflexivity. Qed.

(** C2. On the fixture of scenario B the regions give nine tiles, laid out
    region after region with the last tile of a region cut at its end, and
    the tile matrix yields exactly the sixteen expected entries. *)
Theorem TileMatrix_scenario_B :
  let m := TileMatrix.TileMatrix tile_frags tile_chr tile_start tile_end tile_width
             ["chr1"; "chr2"] in
  TileMatrix.cover <$> TileMatrix.tiles tile_chr tile_start tile_end tile_width
    = [(10, 15); (15, 20); (30, 33); (33, 36); (36, 39); (39, 40);
       (50, 55); (55, 60); (70, 80)] /\
  rows m = 5%nat /\ cols m = 9%nat /\
  triplets m = tile_expected_triplets /\
  matrix_identical_cpp (from_triplets 5 9 tile_expected_triplets) m = true.
Proof. vm_compute. repeat split; reflexivity. Qed.

End Fixtures.

(** ** arrayIO.h: opening a packed matrix *)

Section OpenPacked.
Import HighFive H5Readers ArrayIO.

(** Up to the version test, the call depends on the group's tag alone. *)
Lemma openPackedMatrixH5_tagged (d : disk) (file_path group_path : string)
    (buffer_size : Z) (g : group) (v : string) :
  group_on_disk d file_path group_path = Some g ->
  attrs g !! "version" = Some (AttrString v) ->
  v <> "v1-packed" ->
  openPackedMatrixH5 d file_path group_path buffer_size = Throw version_error.
Proof.
  unfold group_on_disk, openPackedMatrixH5, File_open.
  intros Hg Hv Hne.
  destruct (d !! file_path) as [gs|] eqn:Hd; [|discriminate].
  cbn [snd bind]. unfold File_getGroup. cbn [file_groups].
  rewrite Hg. cbn [bind]. unfold getAttribute. cbn [g_node].
  rewrite Hv. cbn [bind read_string].
  rewrite bool_decide_eq_false_2 by exact Hne. reflexivity.
Qed.

Lemma openPackedMatrixH5_ok_tag (d : disk) (file_path group_path : string)
    (buffer_size : Z) (m : PackedMatrix) :
  openPackedMatrixH5 d file_path group_path buffer_size = Ok m ->
  exists g, group_on_disk d file_path group_path = Some g /\
            attrs g !! "version" = Some (AttrString "v1-packed").
Proof.
  unfold group_on_disk, openPackedMatrixH5, File_open.
  destruct (d !! file_path) as [gs|] eqn:Hd; [|discriminate].
  cbn [snd bind]. unfold File_getGroup. cbn [file_groups].
  destruct (gs !! abs_path _) as [g|] eqn:Hg; [|discriminate].
  cbn [bind]. unfold getAttribute. cbn [g_node].
  destruct (attrs g !! "version") as [[v|v]|] eqn:Hv; try discriminate.
  cbn [bind read_string].
  destruct (bool_decide (v = "v1-packed")) eqn:Htag; [|discriminate].
  apply bool_decide_eq_true_1 in Htag. subst v. eauto.
Qed.

(** C5, as the code has it. [openPackedMatrixH5] returns a reader only for
    a group whose version attribute is the string "v1-packed"; for a group
    whose version attribute is any other string -- "packed-matrix-v1"
    among them -- it throws. *)
Theorem openPackedMatrixH5_accepts_only_v1_packed (d : disk) (file_path group_path : string)
    (buffer_size : Z) :
  (forall m, openPackedMatrixH5 d file_path group_path buffer_size = Ok m ->
     exists g, group_on_disk d file_path group_path = Some g /\
               attrs g !! "version" = Some (AttrString "v1-packed")) /\
  (forall g v, group_on_disk d file_path group_path = Some g ->
     attrs g !! "version" = Some (AttrString v) ->
     v <> "v1-packed" ->
     openPackedMatrixH5 d file_path group_path buffer_size = Throw version_error).
Proof.
  split.
  - intros m. apply openPackedMatrixH5_ok_tag.
  - intros g v. apply openPackedMatrixH5_tagged.
Qed.

Lemma openPackedMatrixH5_accepts_only_v1_packed_witness :
  (exists m, openPackedMatrixH5 (packed_disk "v1-packed") "m.h5" "m" 8192 = Ok m) /\
  (exists g, group_on_disk (packed_disk "v1-packed") "m.h5" "m" = Some g /\
             attrs g !! "version" = Some (AttrString "v1-packed")) /\
  openPackedMatrixH5 (packed_disk "v2-packed") "m.h5" "m" 8192 = Throw version_error.
Proof.
  destruct (openPackedMatrixH5 (packed_disk "v1-packed") "m.h5" "m" 8192) as [m| |] eqn:Hm;
    [|vm_compute in Hm; discriminate..].
  split; [eauto|]. split.
  - apply (proj1 (openPackedMatrixH5_accepts_only_v1_packed _ _ _ _) m Hm).
  - apply (proj2 (openPackedMatrixH5_accepts_only_v1_packed _ _ _ _)
             (packed_group "v2-packed") "v2-packed"); [reflexivity|reflexivity|discriminate].
Defined.

(** C5 as stated fails both ways: the group tagged "packed-matrix-v1" is
    refused, and a group tagged with another string, "v1-packed", is opened. *)
Lemma openPackedMatrixH5_version_tag_counterexample :
  openPackedMatrixH5 (packed_disk "packed-matrix-v1") "m.h5" "m" 8192 = Throw version_error /\
  "v1-packed" <> "packed-matrix-v1" /\
  exists m, openPackedMatrixH5 (packed_disk "v1-packed") "m.h5" "m" 8192 = Ok m.
Proof.
  split; [reflexivity|]. split; [discriminate|].
  eexists. vm_compute. reflexivity.
Qed.

End OpenPacked.

(** ** arrayIO.h: creating a packed matrix *)

Section CreatePacked.
Import HighFive H5Readers ArrayIO.

(** The directory step leaves the files alone. *)
Lemma createPackedMatrixH5_existing (w : world) (file_path group_path : string)
    (buffer_size chunk_size : Z) (g : group) :
  group_on_disk (h5 w) file_path group_path = Some g ->
  exists ds,
    createPackedMatrixH5 w file_path group_path buffer_size chunk_size =
      (mk_world ds (h5 w),
       if negb (size (datasets g) + size (links g) =? 0)%nat then Throw not_empty_error
       else Ok (mk_PackedMatrixWriter
                  (mk_Group (mk_File file_path (default ∅ (h5 w !! file_path)))
                     (abs_path (if bool_decide (group_path = "") then "/" else group_path)) g))).
Proof.
  unfold group_on_disk, createPackedMatrixH5.
  intros Hg.
  destruct (h5 w !! file_path) as [gs|] eqn:Hd; [|discriminate].
  destruct (has_parent_path file_path && _);
    cbn [h5 dirs]; unfold File_open; rewrite Hd;
    unfold File_getGroup; cbn [file_groups]; rewrite Hg;
    unfold getNumberObjects; cbn [g_node default h5 dirs];
    eexists; destruct (negb _); reflexivity.
Qed.

Lemma createPackedMatrixH5_missing (w : world) (file_path group_path : string)
    (buffer_size chunk_size : Z) :
  group_on_disk (h5 w) file_path group_path = None ->
  exists w' wr,
    createPackedMatrixH5 w file_path group_path buffer_size chunk_size = (w', Ok wr) /\
    g_node (pmw_group wr) = empty_group /\
    group_on_disk (h5 w') file_path group_path = Some empty_group.
Proof.
  unfold group_on_disk, createPackedMatrixH5.
  intros Hg.
  set (gp := abs_path (if bool_decide (group_path = "") then "/" else group_path)) in *.
  destruct (has_parent_path file_path && _); cbn [h5 dirs]; unfold File_open;
    (destruct (h5 w !! file_path) as [gs|] eqn:Hd;
     [ unfold File_getGroup; cbn [file_groups]; fold gp; rewrite Hg;
       unfold createGroup; cbn [file_groups HighFive.file_path h5]; fold gp;
       do 2 eexists; split; [reflexivity|]; split; [reflexivity|];
       cbn [h5]; rewrite lookup_insert_eq; apply lookup_insert_eq
     | unfold File_getGroup; cbn [file_groups]; fold gp;
       destruct (new_file !! gp) as [g0|] eqn:Hroot;
       [ assert (g0 = empty_group) as ->
           by (unfold new_file in Hroot; apply lookup_singleton_Some in Hroot; destruct Hroot; congruence);
         unfold getNumberObjects; cbn [g_node empty_group datasets links];
         rewrite !size_empty; cbn [Nat.add Nat.eqb negb];
         do 2 eexists; split; [reflexivity|]; split; [reflexivity|];
         cbn [h5]; rewrite lookup_insert_eq; exact Hroot
       | unfold createGroup; cbn [file_groups HighFive.file_path h5]; fold gp;
         do 2 eexists; split; [reflexivity|]; split; [reflexivity|];
         cbn [h5]; rewrite lookup_insert_eq; apply lookup_insert_eq ] ]).
Qed.



End CreatePacked.

(** ** ImportMatrixHDF5.cpp: the orientation of an AnnData matrix *)

Section AnnData.
Import HighFive H5Readers ImportMatrixHDF5.

(** A reader hands out what is stored: opening changes nothing. *)
Lemma open_num_values (g : Group) (name : string) (buffer_size : Z) (r : NumReader) :
  open_num g name buffer_size = Ok r ->
  datasets (g_node g) !! name = Some (DNum (nr_values r)) /\ nr_name r = name.
Proof.
  unfold open_num. destruct (datasets (g_node g) !! name) as [[v|v|dims ms]|]; try discriminate.
  intros [= <-]. auto.
Qed.

Lemma openAnnDataMatrix_unfold (d : disk) (file group : string) (buffer_size read_size : Z)
    (rb : H5ReaderBuilder) (encoding : string) (dims : list Z) (cn rn : StringReader)
    (i x p : NumReader) :
  new_H5ReaderBuilder d file group buffer_size read_size = Ok rb ->
  anndata_header (getGroup rb) = Ok (encoding, dims, cn, rn) ->
  openUIntReader rb "indices" = Ok i ->
  openFloatReader rb "data" = Ok x ->
  openUIntReader rb "indptr" = Ok p ->
  openAnnDataMatrix d file group buffer_size read_size =
    let* (rows, row_names, col_names) := orient encoding dims cn rn in
    Ok (mk_StoredMatrix i x p rows row_names col_names).
Proof.
  intros Hrb Hh Hi Hx Hp. unfold openAnnDataMatrix.
  rewrite Hrb. cbn [bind]. rewrite Hh. cbn [bind].
  destruct (orient encoding dims cn rn) as [[[rows r] c]| |]; cbn [bind]; [|reflexivity..].
  rewrite Hi, Hx, Hp. reflexivity.
Qed.

(** C7. Whatever the header of the group says its dims and its two name
    tables are: for the encoding csr_matrix the matrix returned has dims[1]
    rows and the two name tables exchanged, for csc_matrix it has dims[0]
    rows and the tables as read; in both cases its three readers are the
    readers of the group's "indices", "data" and "indptr", holding what is
    stored there. *)
Theorem openAnnDataMatrix_csr_is_transposed_view (d : disk) (file group : string)
    (buffer_size read_size : Z) (rb : H5ReaderBuilder) (encoding : string) (dims : list Z)
    (cn rn : StringReader) (i x p : NumReader) :
  new_H5ReaderBuilder d file group buffer_size read_size = Ok rb ->
  anndata_header (getGroup rb) = Ok (encoding, dims, cn, rn) ->
  openUIntReader rb "indices" = Ok i ->
  openFloatReader rb "data" = Ok x ->
  openUIntReader rb "indptr" = Ok p ->
  (encoding = "csr_matrix" ->
     openAnnDataMatrix d file group buffer_size read_size =
       Ok (mk_StoredMatrix i x p (dims !!! 1%nat) cn rn)) /\
  (encoding = "csc_matrix" ->
     openAnnDataMatrix d file group buffer_size read_size =
       Ok (mk_StoredMatrix i x p (dims !!! 0%nat) rn cn)) /\
  datasets (g_node (getGroup rb)) !! "indices" = Some (DNum (nr_values i)) /\
  datasets (g_node (getGroup rb)) !! "data" = Some (DNum (nr_values x)) /\
  datasets (g_node (getGroup rb)) !! "indptr" = Some (DNum (nr_values p)).
Proof.
  intros Hrb Hh Hi Hx Hp.
  rewrite (openAnnDataMatrix_unfold _ _ _ _ _ _ _ _ _ _ _ _ _ Hrb Hh Hi Hx Hp).
  split; [|split].
  - intros ->. reflexivity.
  - intros ->. reflexivity.
  - split; [|split].
    + apply (open_num_values _ _ _ _ Hi).
    + apply (open_num_values _ _ _ _ Hx).
    + apply (open_num_values _ _ _ _ Hp).
Qed.

Lemma openAnnDataMatrix_witness :
  (exists i x p,
     openAnnDataMatrix (anndata_disk "csr_matrix") "a.h5ad" "X" 8192 1024 =
       Ok (mk_StoredMatrix i x p 2
             (H5StringReader "a.h5ad" "/" "var/names" ["v1"; "v2"])
             (H5StringReader "a.h5ad" "/" "obs/names" ["o1"; "o2"; "o3"]))) /\
  (exists i x p,
     openAnnDataMatrix (anndata_disk "csc_matrix") "a.h5ad" "X" 8192 1024 =
       Ok (mk_StoredMatrix i x p 3
             (H5StringReader "a.h5ad" "/" "obs/names" ["o1"; "o2"; "o3"])
             (H5StringReader "a.h5ad" "/" "var/names" ["v1"; "v2"]))).
Proof.
  split.
  - do 3 eexists.
    eapply (fun rb i x p h1 h2 h3 h4 h5 =>
              proj1 (openAnnDataMatrix_csr_is_transposed_view
                       (anndata_disk "csr_matrix") "a.h5ad" "X" 8192 1024 rb "csr_matrix" [3; 2]
                       (H5StringReader "a.h5ad" "/" "var/names" ["v1"; "v2"])
                       (H5StringReader "a.h5ad" "/" "obs/names" ["o1"; "o2"; "o3"])
                       i x p h1 h2 h3 h4 h5));
      [vm_compute; reflexivity..|reflexivity].
  - do 3 eexists.
    eapply (fun rb i x p h1 h2 h3 h4 h5 =>
              proj1 (proj2 (openAnnDataMatrix_csr_is_transposed_view
                       (anndata_disk "csc_matrix") "a.h5ad" "X" 8192 1024 rb "csc_matrix" [3; 2]
                       (H5StringReader "a.h5ad" "/" "var/names" ["v1"; "v2"])
                       (H5StringReader "a.h5ad" "/" "obs/names" ["o1"; "o2"; "o3"])
                       i x p h1 h2 h3 h4 h5)));
      [vm_compute; reflexivity..|reflexivity].
Defined.

End AnnData.

(** ** Concatenation of matrices *)

Section Concat.
Import Matrix ConcatenateMatrix.

Lemma entry_of_app (a b : list (nat * Z)) (i : nat) :
  entry_of (a ++ b) i = entry_of a i + entry_of b i.
Proof.
  induction a as [|[r v] a IH]; simpl; [reflexivity|]. rewrite IH. lia.
Qed.

Lemma entry_of_shift_below (off : nat) (c : list (nat * Z)) (i : nat) :
  (i < off)%nat -> entry_of (shift_rows off c) i = 0.
Proof.
  intros Hlt. induction c as [|[r v] c IH]; simpl; [reflexivity|].
  rewrite IH. destruct (Nat.eqb_spec (off + r) i); lia.
Qed.

Lemma entry_of_shift (off : nat) (c : list (nat * Z)) (i : nat) :
  entry_of (shift_rows off c) (off + i) = entry_of c i.
Proof.
  induction c as [|[r v] c IH]; simpl; [reflexivity|].
  rewrite IH. destruct (Nat.eqb_spec (off + r) (off + i)), (Nat.eqb_spec r i); lia.
Qed.

Lemma entry_of_shift_0 (c : list (nat * Z)) (i : nat) :
  entry_of (shift_rows 0 c) i = entry_of c i.
Proof. apply (entry_of_shift 0 c i). Qed.

Lemma entry_of_beyond (n : nat) (c : list (nat * Z)) (i : nat) :
  Forall (fun e => (fst e < n)%nat) c -> (n <= i)%nat -> entry_of c i = 0.
Proof.
  intros Hc Hi. induction Hc as [|[r v] c Hr Hc IH]; simpl in *; [reflexivity|].
  rewrite IH. destruct (Nat.eqb_spec r i); lia.
Qed.

Lemma column_in_range (m : matrix) (j : nat) :
  wf m -> Forall (fun e => (fst e < rows m)%nat) (columns m !!! j).
Proof.
  intros [_ Hall]. rewrite list_lookup_total_alt.
  destruct (columns m !! j) as [c|] eqn:Hc; simpl; [|constructor].
  eapply Forall_lookup_1 in Hall; eauto.
Qed.

(** The rows of a dense form, read off a function of the two indices. *)
Lemma dense_rows_app (f : nat -> nat -> Z) (n k c : nat) :
  (fun i => (fun j => f i j) <$> seq 0 c) <$> seq 0 (n + k) =
  ((fun i => (fun j => f i j) <$> seq 0 c) <$> seq 0 n) ++
  ((fun i => (fun j => f (n + i)%nat j) <$> seq 0 c) <$> seq 0 k).
Proof.
  rewrite seq_app, fmap_app. f_equal. simpl.
  replace (seq n k) with (Nat.add n <$> seq 0 k)
    by (rewrite fmap_add_seq; f_equal; lia).
  rewrite <- list_fmap_compose. reflexivity.
Qed.

Lemma table_ext (f g : nat -> nat -> Z) (n c : nat) :
  (forall i j, (i < n)%nat -> (j < c)%nat -> f i j = g i j) ->
  (fun i => (fun j => f i j) <$> seq 0 c) <$> seq 0 n =
  (fun i => (fun j => g i j) <$> seq 0 c) <$> seq 0 n.
Proof.
  intros Hfg. apply Forall_fmap_ext_1, Forall_forall. intros i Hi%elem_of_seq.
  apply Forall_fmap_ext_1, Forall_forall. intros j Hj%elem_of_seq.
  apply Hfg; lia.
Qed.

Lemma hstack_rows_from (F G : nat -> list Z) (s n : nat) :
  hstack (F <$> seq s n) (G <$> seq s n) = (fun i => F i ++ G i) <$> seq s n.
Proof.
  unfold hstack. revert s. induction n as [|n IH]; intros s; simpl; [reflexivity|].
  rewrite IH. reflexivity.
Qed.

Lemma hstack_tables (f g : nat -> nat -> Z) (n c k : nat) :
  hstack ((fun i => (fun j => f i j) <$> seq 0 c) <$> seq 0 n)
         ((fun i => (fun j => g i j) <$> seq 0 k) <$> seq 0 n) =
  (fun i => (fun j => if (j <? c)%nat then f i j else g i (j - c)%nat) <$> seq 0 (c + k))
    <$> seq 0 n.
Proof.
  rewrite hstack_rows_from.
  apply Forall_fmap_ext_1, Forall_forall. intros i _.
  rewrite seq_app, fmap_app. f_equal.
  - apply Forall_fmap_ext_1, Forall_forall. intros j Hj%elem_of_seq.
    destruct (Nat.ltb_spec j c); [reflexivity|lia].
  - simpl.
    replace (seq c k) with (Nat.add c <$> seq 0 k)
      by (rewrite fmap_add_seq; f_equal; lia).
    rewrite <- list_fmap_compose.
    apply Forall_fmap_ext_1, Forall_forall. intros j Hj%elem_of_seq. simpl.
    destruct (Nat.ltb_spec (c + j) c); [lia|]. f_equal. lia.
Qed.

Lemma table_lookup (F : nat -> list (nat * Z)) (c j : nat) :
  (j < c)%nat -> (F <$> seq 0 c) !!! j = F j.
Proof.
  intros Hj. rewrite list_lookup_total_alt, list_lookup_fmap, lookup_seq_lt by exact Hj.
  reflexivity.
Qed.

Lemma ConcatRows_dense (A B : matrix) :
  wf A -> cols A = cols B ->
  exists M, ConcatRows [A; B] = Ok M /\ dense M = vstack (dense A) (dense B).
Proof.
  intros HA Hcols. unfold ConcatRows. cbn [forallb].
  rewrite Nat.eqb_refl, <- Hcols, Nat.eqb_refl. cbn [andb].
  eexists. split; [reflexivity|].
  unfold dense, vstack, entry. cbn [rows cols columns fmap list_fmap sum_list sum_list_with].
  unfold id. rewrite Nat.add_0_r, dense_rows_app. rewrite <- Hcols. f_equal.
  - apply table_ext. intros i j Hi Hj.
    rewrite table_lookup by exact Hj. cbn [stacked_column Nat.add].
    rewrite app_nil_r, entry_of_app.
    rewrite (entry_of_shift_below (rows A)) by exact Hi.
    rewrite entry_of_shift_0. lia.
  - apply table_ext. intros i j Hi Hj.
    rewrite table_lookup by exact Hj. cbn [stacked_column Nat.add].
    rewrite app_nil_r, entry_of_app, entry_of_shift, entry_of_shift_0.
    rewrite (entry_of_beyond (rows A)); [lia| |lia].
    apply column_in_range, HA.
Qed.

Lemma ConcatCols_dense (A B : matrix) :
  wf A -> wf B -> rows A = rows B ->
  exists M, ConcatCols [A; B] = Ok M /\ dense M = hstack (dense A) (dense B).
Proof.
  intros [HlenA _] [HlenB _] Hrows. unfold ConcatCols. cbn [forallb].
  rewrite Nat.eqb_refl, <- Hrows, Nat.eqb_refl. cbn [andb].
  eexists. split; [reflexivity|].
  unfold dense, entry. cbn [rows cols columns fmap list_fmap sum_list sum_list_with concat].
  rewrite <- Hrows, hstack_tables, Nat.add_0_r, app_nil_r.
  rewrite !take_app_length' by (symmetry; assumption).
  apply table_ext. intros i j Hi Hj.
  destruct (Nat.ltb_spec j (cols A)) as [Hlt|Hge].
  - rewrite lookup_total_app_l by lia. reflexivity.
  - rewrite lookup_total_app_r by lia. rewrite HlenA. reflexivity.
Qed.

(** C6. For matrices A and B with as many columns, ConcatRows [A; B] is
    built and its dense form is A's on top of B's; with different numbers
    of columns the construction is rejected. Likewise ConcatCols [A; B]
    puts the dense forms side by side when the row counts agree, and is
    rejected when they differ. *)
Theorem Concat_dense_is_stacking (A B : matrix) :
  wf A -> wf B ->
  (cols A = cols B ->
     exists M, ConcatRows [A; B] = Ok M /\ dense M = vstack (dense A) (dense B)) /\
  (cols A <> cols B -> exists what, ConcatRows [A; B] = Throw (ShapeError what)) /\
  (rows A = rows B ->
     exists M, ConcatCols [A; B] = Ok M /\ dense M = hstack (dense A) (dense B)) /\
  (rows A <> rows B -> exists what, ConcatCols [A; B] = Throw (ShapeError what)).
Proof.
  intros HA HB. repeat split.
  - intros Hc. apply ConcatRows_dense; assumption.
  - intros Hc. unfold ConcatRows. cbn [forallb]. rewrite Nat.eqb_refl.
    destruct (Nat.eqb_spec (cols B) (cols A)); [congruence|]. cbn [andb]. eauto.
  - intros Hr. apply ConcatCols_dense; assumption.
  - intros Hr. unfold ConcatCols. cbn [forallb]. rewrite Nat.eqb_refl.
    destruct (Nat.eqb_spec (rows B) (rows A)); [congruence|]. cbn [andb]. eauto.
Qed.

Lemma wf_mat_a : wf mat_a.
Proof. split; [reflexivity|]. repeat constructor. Defined.

Lemma wf_mat_b : wf mat_b.
Proof. split; [reflexivity|]. repeat constructor. Defined.

Lemma wf_mat_x : wf mat_x.
Proof. split; [reflexivity|]. repeat constructor. Defined.

Lemma Concat_dense_witness :
  (exists M, ConcatRows [mat_a; mat_b] = Ok M /\
             dense M = [[5; 0]; [7; 2]; [0; 0]; [3; 0]]) /\
  (exists M, ConcatCols [mat_a; mat_b] = Ok M /\
             dense M = [[5; 0; 0; 0]; [7; 2; 3; 0]]) /\
  (exists what, ConcatRows [mat_a; mat_x] = Throw (ShapeError what)) /\
  (exists what, ConcatCols [mat_a; mat_x] = Throw (ShapeError what)).
Proof.
  pose proof (Concat_dense_is_stacking mat_a mat_b wf_mat_a wf_mat_b) as (Hr & _ & Hc & _).
  pose proof (Concat_dense_is_stacking mat_a mat_x wf_mat_a wf_mat_x) as (_ & Hr' & _ & Hc').
  split; [|split; [|split]].
  - destruct Hr as (M & HM & Hd); [reflexivity|]. exists M. split; [exact HM|].
    rewrite Hd. reflexivity.
  - destruct Hc as (M & HM & Hd); [reflexivity|]. exists M. split; [exact HM|].
    rewrite Hd. reflexivity.
  - apply Hr'. simpl. lia.
  - apply Hc'. simpl. lia.
Defined.

End Concat.

(** ** BedFragments.cpp: the interrupt hook of the writer *)

Section WriterHook.
Import BedFragmentsWriter.

Lemma schedule_S (n : nat) :
  schedule (S n) =
  schedule n ++ false :: (if Z.of_nat n mod 1024 =? 0 then [true] else []).
Proof.
  unfold schedule. rewrite seq_S, flat_map_app. simpl. rewrite app_nil_r. reflexivity.
Qed.

Lemma size_t_mod_1024 (k : Z) : to_size_t k mod 1024 = k mod 1024.
Proof.
  unfold to_size_t. apply Z.mod_mod_divide. exists (2 ^ 54). reflexivity.
Qed.

Lemma size_t_succ (k : Z) : to_size_t (to_size_t k + 1) = to_size_t (k + 1).
Proof. unfold to_size_t. apply Zplus_mod_idemp_l. Qed.

Variable H : Type.
Variable hook : H -> outcome H.

Lemma write_frags_on_schedule (a5 : bool) (s : source) (chr_name : option string)
    (frags : list (Z * Z * Z)) (k : nat) (st : wstate H) :
  on_schedule H k st ->
  run_ok H k (k + length frags) (write_frags H a5 s (Some hook) chr_name frags st).
Proof.
  revert k st. induction frags as [|[[start end_] cell] rest IH]; intros k st (Htot & Hlog & Hno).
  - simpl. rewrite Nat.add_0_r. split; [|split].
    + exists k. split; [lia|exact Hlog].
    + intros e He. destruct (Hno e He).
    + intros _. split; [|split]; assumption.
  - cbn [write_frags].
    destruct (gzprintf _ _) as [n f'].
    destruct (bool_decide (to_uint32 n <= 0)).
    { unfold run_ok; cbn [fst snd w_log]. split; [|split].
      - exists k. split; [simpl; lia|exact Hlog].
      - intros e He. destruct (Hno e He).
      - discriminate. }
    cbn [w_f total_fragments w_env w_log].
    assert (Hstep : forall tail,
               is_interrupt <$> (w_log H st ++ [EvFragment]) ++ tail =
               schedule k ++ false :: (is_interrupt <$> tail)).
    { intros tail. rewrite !fmap_app, Hlog, <- app_assoc. reflexivity. }
    rewrite Htot, size_t_mod_1024, size_t_succ.
    destruct (bool_decide (Z.of_nat k mod 1024 = 0)) eqn:Hdue.
    + apply bool_decide_eq_true_1 in Hdue.
      assert (Hsched : forall o,
                 is_interrupt <$> (w_log H st ++ [EvFragment]) ++ [EvInterrupt o] =
                 schedule (S k)).
      { intros o. rewrite Hstep, schedule_S, Hdue. reflexivity. }
      destruct (hook (w_env H st)) as [env'|e|].
      * assert (Hinv : on_schedule H (S k)
                  (mk_wstate H f' (to_size_t (Z.of_nat k + 1)) env'
                     ((w_log H st ++ [EvFragment]) ++ [EvInterrupt None]))).
        { split; [|split]; cbn [total_fragments w_log].
          - f_equal. lia.
          - apply Hsched.
          - intros e He. rewrite !elem_of_app, !list_elem_of_singleton in He.
            destruct He as [[He|He]|He]; [destruct (Hno e He)|discriminate|discriminate]. }
        specialize (IH (S k) _ Hinv). destruct IH as ((n' & Hn' & Hlog') & Hthrow & Hok).
        replace (k + length (_ :: rest))%nat with (S k + length rest)%nat by (simpl; lia).
        split; [|split; [exact Hthrow|exact Hok]].
        exists n'. split; [lia|exact Hlog'].
      * unfold run_ok; cbn [fst snd w_log]. split; [|split].
        -- exists (S k). split; [simpl; lia|apply Hsched].
        -- intros e' He'. rewrite !elem_of_app, !list_elem_of_singleton in He'.
           destruct He' as [[He'|He']|He']; [destruct (Hno e' He')|discriminate|].
           congruence.
        -- discriminate.
      * unfold run_ok; cbn [fst snd w_log]. split; [|split].
        -- exists (S k). split; [simpl; lia|apply Hsched].
        -- intros e' He'. rewrite !elem_of_app, !list_elem_of_singleton in He'.
           destruct He' as [[He'|He']|He']; [destruct (Hno e' He')|discriminate|discriminate].
        -- discriminate.
    + apply bool_decide_eq_false_1 in Hdue.
      assert (Hinv : on_schedule H (S k)
                (mk_wstate H f' (to_size_t (Z.of_nat k + 1)) (w_env H st)
                   (w_log H st ++ [EvFragment]))).
      { split; [|split]; cbn [total_fragments w_log].
        - f_equal. lia.
        - rewrite <- (app_nil_r (w_log H st ++ [EvFragment])), Hstep, schedule_S.
          destruct (Z.eqb_spec (Z.of_nat k mod 1024) 0); [contradiction|reflexivity].
        - intros e He. rewrite !elem_of_app, !list_elem_of_singleton in He.
          destruct He as [He|He]; [destruct (Hno e He)|discriminate]. }
      specialize (IH (S k) _ Hinv). destruct IH as ((n' & Hn' & Hlog') & Hthrow & Hok).
      replace (k + length (_ :: rest))%nat with (S k + length rest)%nat by (simpl; lia).
      split; [|split; [exact Hthrow|exact Hok]].
      exists n'. split; [lia|exact Hlog'].
Qed.

Lemma write_chrs_on_schedule (a5 : bool) (s : source)
    (chrs : list (Z * list (Z * Z * Z))) (k : nat) (st : wstate H) :
  on_schedule H k st ->
  run_ok H k (k + length (concat (snd <$> chrs))) (write_chrs H a5 s (Some hook) chrs st).
Proof.
  revert k st. induction chrs as [|[chr_id frags] rest IH]; intros k st Hinv.
  - simpl. rewrite Nat.add_0_r. destruct Hinv as (Htot & Hlog & Hno). split; [|split].
    + exists k. split; [lia|exact Hlog].
    + intros e He. destruct (Hno e He).
    + intros _. split; [|split]; assumption.
  - cbn [write_chrs fmap list_fmap snd concat]. rewrite length_app.
    pose proof (write_frags_on_schedule a5 s (src_chrNames s chr_id) frags k st Hinv)
      as ((n & Hn & Hlog) & Hthrow & Hok).
    destruct (write_frags H a5 s (Some hook) (src_chrNames s chr_id) frags st) as [st1 r1].
    cbn [fst snd] in *.
    destruct r1 as [[|]|e|].
    + specialize (IH _ _ (Hok eq_refl)). destruct IH as ((n' & Hn' & Hlog') & Hthrow' & Hok').
      rewrite Nat.add_assoc. split; [|split; [exact Hthrow'|exact Hok']].
      exists n'. split; [lia|exact Hlog'].
    + split; [|split; [exact Hthrow|discriminate]].
      exists n. split; [lia|exact Hlog].
    + split; [|split; [exact Hthrow|discriminate]].
      exists n. split; [lia|exact Hlog].
    + split; [|split; [exact Hthrow|discriminate]].
      exists n. split; [lia|exact Hlog].
Qed.

Lemma longest_gap_from (n : nat) : forall (k cur : nat),
  Z.of_nat cur <= (Z.of_nat k + 1023) mod 1024 ->
  Z.of_nat (longest_gap cur
              (flat_map (fun k => false :: (if Z.of_nat k mod 1024 =? 0 then [true] else []))
                        (seq k n))) <= 1024.
Proof.
  induction n as [|n IH]; intros k cur Hcur.
  - simpl. pose proof (Z.mod_pos_bound (Z.of_nat k + 1023) 1024). lia.
  - cbn [seq flat_map app longest_gap].
    destruct (Z.eqb_spec (Z.of_nat k mod 1024) 0) as [Hdue|Hdue].
    + cbn [app longest_gap].
      pose proof (Z.mod_pos_bound (Z.of_nat k + 1023) 1024).
      specialize (IH (S k) 0%nat).
      assert (0 <= (Z.of_nat (S k) + 1023) mod 1024)
        by (pose proof (Z.mod_pos_bound (Z.of_nat (S k) + 1023) 1024); lia).
      lia.
    + cbn [app]. apply IH.
      replace (Z.of_nat (S k) + 1023) with (Z.of_nat k + 1 * 1024) by lia.
      rewrite Z.mod_add by lia.
      revert Hcur Hdue. rewrite Nat2Z.inj_succ.
      generalize (Z.of_nat k) (Z.of_nat cur). intros a b Hb Ha.
      pose proof (Z.mod_pos_bound a 1024).
      assert ((a + 1023) mod 1024 = a mod 1024 - 1); [|lia].
      rewrite (Z.div_mod a 1024) at 1 by lia.
      replace (1024 * (a / 1024) + a mod 1024 + 1023)
        with (a mod 1024 - 1 + (a / 1024 + 1) * 1024) by lia.
      rewrite Z.mod_add by lia. apply Z.mod_small. lia.
Qed.

Lemma schedule_head (n : nat) : take 2 (schedule (S n)) = [false; true].
Proof. reflexivity. Qed.

(** C9. With a hook given, the calls of [write] follow the schedule: every
    fragment written is followed by a call of the hook exactly when its
    number (from 0) is a multiple of 1024. So the first fragment is followed
    by a call, at most 1024 fragments are written between two calls, and at
    the first call that raises, [write] stops with what the hook raised. *)
Theorem write_calls_checkInterrupt_every_1024 (f : gzOut) (append_5th_column : bool)
    (fragments : source) (env : H) :
  let res := write H f append_5th_column fragments (Some hook) env in
  let calls := is_interrupt <$> w_log H (fst res) in
  (exists n, (n <= total_fragments_of fragments)%nat /\ calls = schedule n) /\
  (calls <> [] -> take 2 calls = [false; true]) /\
  Z.of_nat (longest_gap 0 calls) <= 1024 /\
  (forall e, EvInterrupt (Some e) ∈ w_log H (fst res) -> snd res = Throw e).
Proof.
  intros res calls.
  assert (Hinit : on_schedule H 0 (mk_wstate H f 0 env [])).
  { split; [|split]; cbn [total_fragments w_log]; [reflexivity|reflexivity|].
    intros e He. inversion He. }
  pose proof (write_chrs_on_schedule append_5th_column fragments (src_chrs fragments) 0 _ Hinit)
    as ((n & Hn & Hlog) & Hthrow & _).
  fold (write H f append_5th_column fragments (Some hook) env) in Hlog, Hthrow.
  fold res in Hlog, Hthrow. fold calls in Hlog.
  split; [|split; [|split]].
  - exists n. split; [exact (proj2 Hn)|exact Hlog].
  - rewrite Hlog. destruct n as [|n]; [intros Hne; destruct (Hne eq_refl)|].
    intros _. apply schedule_head.
  - rewrite Hlog. apply longest_gap_from. rewrite Z.mod_small; lia.
  - exact Hthrow.
Qed.

End WriterHook.

Lemma write_checkInterrupt_witness :
  (snd (BedFragmentsWriter.write nat roomy false long_source (Some counting_hook) 0%nat) = Ok true /\
   BedFragmentsWriter.w_env nat
     (fst (BedFragmentsWriter.write nat roomy false long_source (Some counting_hook) 0%nat)) = 2%nat) /\
  snd (BedFragmentsWriter.write nat roomy false long_source (Some second_call_raises) 0%nat)
    = Throw Cancelled.
Proof.
  split; [vm_compute; split; reflexivity|].
  apply (proj2 (proj2 (proj2 (write_calls_checkInterrupt_every_1024 nat second_call_raises
                                roomy false long_source 0%nat)))).
  apply (list_elem_of_lookup_2 _ (Z.to_nat 1026)). vm_compute. reflexivity.
Defined.

(** ** BedFragments.cpp: the reader *)

(** The reader is followed from the text of the file: fields and numbers,
    one parsed line, one line read, the name tables, one call of [load],
    the consumer's loop, the constructor, and the read as a whole. *)

(** *** Text: fields, digits and lines *)

Section Text.
Import CStr Zlib BedText BedInvariants.

Lemma str_app_cons (c : ascii) (s t : string) : String c s +:+ t = String c (s +:+ t).
Proof. reflexivity. Qed.

Lemma str_app_nil_l (t : string) : "" +:+ t = t.
Proof. reflexivity. Qed.

Lemma str_app_nil_r (s : string) : s +:+ "" = s.
Proof. induction s as [|c s IH]; [reflexivity|]. rewrite str_app_cons, IH. reflexivity. Qed.

Lemma str_app_assoc (s t u : string) : (s +:+ t) +:+ u = s +:+ (t +:+ u).
Proof. induction s as [|c s IH]; [reflexivity|]. rewrite !str_app_cons, IH. reflexivity. Qed.

Lemma str_length_app (s t : string) :
  String.length (s +:+ t) = (String.length s + String.length t)%nat.
Proof. induction s as [|c s IH]; [reflexivity|]. rewrite str_app_cons. simpl. rewrite IH. reflexivity. Qed.

Lemma all_chars_app (P : ascii -> bool) (s t : string) :
  all_chars P (s +:+ t) = all_chars P s && all_chars P t.
Proof.
  induction s as [|c s IH]; [reflexivity|]. rewrite str_app_cons. simpl. rewrite IH.
  apply andb_assoc.
Qed.

Lemma all_chars_weaken (P Q : ascii -> bool) (s : string) :
  (forall c, P c = true -> Q c = true) -> all_chars P s = true -> all_chars Q s = true.
Proof.
  intros HPQ. induction s as [|c s IH]; [reflexivity|]. simpl.
  intros [Hc Hs]%andb_true_iff. rewrite (HPQ c Hc), (IH Hs). reflexivity.
Qed.

Lemma isdigit_field_char (c : ascii) : isdigit c = true -> field_char c = true.
Proof.
  unfold isdigit, field_char. intros [H1 H2]%andb_true_iff.
  apply Nat.leb_le in H1.
  rewrite !bool_decide_eq_false_2; [reflexivity|..]; intros ->; vm_compute in H1; lia.
Qed.

Lemma field_char_line_char (c : ascii) : field_char c = true -> line_char c = true.
Proof.
  unfold field_char, line_char. intros [[H1 H2]%andb_true_iff H3]%andb_true_iff.
  rewrite H1, H3. reflexivity.
Qed.

Lemma field_char_spec (c : ascii) :
  field_char c = true <-> c <> NUL /\ c <> TAB /\ c <> NL.
Proof.
  unfold field_char. rewrite !andb_true_iff, !negb_true_iff, !bool_decide_eq_false. tauto.
Qed.

Lemma line_char_spec (c : ascii) : line_char c = true <-> c <> NUL /\ c <> NL.
Proof.
  unfold line_char. rewrite !andb_true_iff, !negb_true_iff, !bool_decide_eq_false. tauto.
Qed.

Lemma nextField_at_delimiter (p : string) : at_delimiter p -> BedFragments.nextField p = p.
Proof.
  intros [->|Hd]; [reflexivity|]. destruct p as [|c p]; [reflexivity|].
  simpl in *. destruct Hd as [->| ->]; reflexivity.
Qed.

Lemma nextField_field (fld rest : string) :
  all_chars field_char fld = true -> at_delimiter rest ->
  BedFragments.nextField (fld +:+ rest) = rest.
Proof.
  intros Hf Hr. induction fld as [|c fld IH].
  - apply nextField_at_delimiter, Hr.
  - simpl in Hf. apply andb_true_iff in Hf as [Hc Hf].
    apply field_char_spec in Hc as (_ & Htab & Hnl).
    rewrite str_app_cons. cbn [BedFragments.nextField].
    rewrite (bool_decide_eq_false_2 _ Htab), (bool_decide_eq_false_2 _ Hnl).
    cbn [orb]. apply IH, Hf.
Qed.

Lemma ptr_diff_app (fld rest : string) : ptr_diff rest (fld +:+ rest) = String.length fld.
Proof. unfold ptr_diff. rewrite str_length_app. lia. Qed.

Lemma string_of_app (fld rest : string) : string_of (fld +:+ rest) (String.length fld) = fld.
Proof.
  induction fld as [|c fld IH]; [destruct rest; reflexivity|].
  rewrite str_app_cons. simpl. rewrite IH. reflexivity.
Qed.

Lemma ptr_eq_app (fld rest : string) :
  BedFragments.ptr_eq rest (fld +:+ rest) = bool_decide (fld = "").
Proof.
  unfold BedFragments.ptr_eq. rewrite str_length_app.
  destruct fld as [|c fld]; cbn [String.length].
  - rewrite Nat.eqb_refl. reflexivity.
  - rewrite bool_decide_eq_false_2 by discriminate. apply Nat.eqb_neq. lia.
Qed.

Lemma ptr_eq_sym (p q : string) : BedFragments.ptr_eq p q = BedFragments.ptr_eq q p.
Proof. unfold BedFragments.ptr_eq. apply Nat.eqb_sym. Qed.

(** *** Decimal numbers *)

Lemma digit_val_range (c : ascii) : isdigit c = true -> 0 <= digit_val c <= 9.
Proof.
  unfold isdigit, digit_val. intros [H1 H2]%andb_true_iff.
  apply Nat.leb_le in H1, H2. lia.
Qed.

Lemma dec_value_nonneg (s : string) : all_chars isdigit s = true -> 0 <= dec_value s.
Proof.
  induction s as [|c s IH]; simpl; [lia|]. intros [Hc Hs]%andb_true_iff.
  pose proof (digit_val_range c Hc). specialize (IH Hs).
  assert (0 <= 10 ^ Z.of_nat (String.length s)) by (apply Z.pow_nonneg; lia). nia.
Qed.

Lemma read_digits_app (ds rest : string) (acc : Z) :
  all_chars isdigit ds = true -> isdigit (deref rest) = false ->
  read_digits acc (ds +:+ rest) = acc * 10 ^ Z.of_nat (String.length ds) + dec_value ds.
Proof.
  intros Hds Hrest. revert acc. induction ds as [|c ds IH]; intros acc.
  - rewrite str_app_nil_l. simpl. destruct rest as [|c rest]; simpl in *; [lia|].
    rewrite Hrest. lia.
  - simpl in Hds. apply andb_true_iff in Hds as [Hc Hds].
    rewrite str_app_cons. cbn [read_digits]. rewrite Hc, (IH Hds).
    cbn [String.length dec_value]. rewrite Nat2Z.inj_succ, Z.pow_succ_r by lia. ring.
Qed.

Lemma isdigit_not_space (c : ascii) : isdigit c = true -> isspace c = false.
Proof.
  unfold isdigit, isspace. intros [H1 H2]%andb_true_iff.
  apply Nat.leb_le in H1, H2.
  apply orb_false_iff. split.
  - apply andb_false_iff. right. apply Nat.leb_gt. lia.
  - apply Nat.eqb_neq. lia.
Qed.

Lemma to_uint32_int32 (v : Z) : 0 <= v < 2 ^ 32 -> to_uint32 (to_int32 v) = v.
Proof.
  intros Hv. unfold to_uint32, to_int32.
  rewrite Zminus_mod_idemp_l. replace (v + 2 ^ 31 - 2 ^ 31) with v by lia.
  apply Z.mod_small. lia.
Qed.

(** [atoi] reads a field of digits as the number it writes. *)
Lemma atoi_digits (ds rest : string) :
  ds <> "" -> all_chars isdigit ds = true -> dec_value ds < 2 ^ 32 ->
  isdigit (deref rest) = false ->
  to_uint32 (atoi (ds +:+ rest)) = dec_value ds.
Proof.
  intros Hne Hds Hlt Hrest.
  pose proof (dec_value_nonneg ds Hds) as Hge.
  unfold atoi, strtol.
  destruct ds as [|c ds]; [contradiction|].
  assert (Hc : isdigit c = true) by (simpl in Hds; apply andb_true_iff in Hds; tauto).
  rewrite str_app_cons. cbn [skip_spaces]. rewrite (isdigit_not_space c Hc).
  assert (Hminus : c <> "-"%char) by (intros ->; discriminate).
  assert (Hplus : c <> "+"%char) by (intros ->; discriminate).
  destruct (decide (c = "-"%char)) as [|_]; [contradiction|].
  destruct (decide (c = "+"%char)) as [|_]; [contradiction|].
  rewrite <- str_app_cons, (read_digits_app _ _ _ Hds Hrest).
  rewrite Z.mul_0_l, Z.add_0_l, Z.min_r by (unfold LONG_MAX; lia).
  apply to_uint32_int32. lia.
Qed.

End Text.

(** ** Parsing a well-formed line *)

Section ParseLine.
Import CStr Zlib BedText BedFragments BedInvariants.

Lemma render_eol (l : bed_line) (eol : string) :
  render l +:+ eol =
  chrom l +:+ String TAB (start_txt l +:+ String TAB (end_txt l +:+ String TAB
    (barcode l +:+ (extra l +:+ eol)))).
Proof. unfold render, tab. rewrite !str_app_assoc. reflexivity. Qed.

Lemma wf_line_spec (l : bed_line) :
  wf_line l = true ->
  (chrom l <> "" /\ all_chars field_char (chrom l) = true) /\
  (start_txt l <> "" /\ all_chars isdigit (start_txt l) = true /\
     dec_value (start_txt l) < 2 ^ 32) /\
  (end_txt l <> "" /\ all_chars isdigit (end_txt l) = true /\
     dec_value (end_txt l) < 2 ^ 32) /\
  all_chars field_char (barcode l) = true /\
  (extra l = "" \/ deref (extra l) = TAB /\ all_chars line_char (extra l) = true).
Proof.
  unfold wf_line.
  rewrite !andb_true_iff, !negb_true_iff, !bool_decide_eq_false, orb_true_iff,
    andb_true_iff, !bool_decide_eq_true.
  tauto.
Qed.

Lemma tail_at_delimiter (l : bed_line) (eol : string) :
  wf_line l = true -> is_eol eol -> at_delimiter (extra l +:+ eol).
Proof.
  intros (_ & _ & _ & _ & Hx)%wf_line_spec Heol.
  destruct Hx as [->|[Hx _]].
  - rewrite str_app_nil_l. destruct Heol as [->| ->]; [left|right; right]; reflexivity.
  - destruct (extra l) as [|c x]; [discriminate|]. right. left. exact Hx.
Qed.

Lemma deref_tab (r : string) : bool_decide (deref (String TAB r) = TAB) = true.
Proof. reflexivity. Qed.

(** On a buffer holding a well-formed line, [parse_line] returns its
    chromosome, stores its start and end, and looks its barcode up. *)
Lemma parse_line_wf (b : BedFragments.t) (l : bed_line) (eol : string) (s e c : Z) :
  wf_line l = true -> is_eol eol ->
  line_buf b = render l +:+ eol ->
  parse_line b s e c =
    Ok (chrom l,
        (dec_value (start_txt l), dec_value (end_txt l), fst (emplace_cell (barcode l) b)),
        snd (emplace_cell (barcode l) b)).
Proof.
  intros Hwf Heol Hbuf.
  pose proof (tail_at_delimiter l eol Hwf Heol) as Htail.
  apply wf_line_spec in Hwf as ((Hc0 & Hc) & (Hs0 & Hs & Hsv) & (He0 & He & Hev) & Hb & _).
  unfold parse_line. rewrite Hbuf, render_eol.
  set (r3 := barcode l +:+ (extra l +:+ eol)).
  set (r2 := end_txt l +:+ String TAB r3).
  set (r1 := start_txt l +:+ String TAB r2).
  assert (Htab : forall r, at_delimiter (String TAB r)) by (intros r; right; left; reflexivity).
  assert (Hn1 : nextField r1 = String TAB r2).
  { apply nextField_field; [|apply Htab].
    apply (all_chars_weaken _ _ _ isdigit_field_char Hs). }
  assert (Hn2 : nextField r2 = String TAB r3).
  { apply nextField_field; [|apply Htab].
    apply (all_chars_weaken _ _ _ isdigit_field_char He). }
  assert (Hn3 : nextField r3 = extra l +:+ eol) by (apply nextField_field; assumption).
  assert (Hp1 : ptr_eq r1 (String TAB r2) = false).
  { unfold r1. rewrite ptr_eq_sym, ptr_eq_app. apply bool_decide_eq_false_2, Hs0. }
  assert (Hp2 : ptr_eq r2 (String TAB r3) = false).
  { unfold r2. rewrite ptr_eq_sym, ptr_eq_app. apply bool_decide_eq_false_2, He0. }
  assert (Ha1 : to_uint32 (atoi r1) = dec_value (start_txt l))
    by (apply atoi_digits; auto).
  assert (Ha2 : to_uint32 (atoi r2) = dec_value (end_txt l))
    by (apply atoi_digits; auto).
  assert (Hname : string_of r3 (ptr_diff (extra l +:+ eol) r3) = barcode l).
  { unfold r3. rewrite ptr_diff_app. apply string_of_app. }
  cbv zeta.
  rewrite (nextField_field (chrom l) (String TAB r1) Hc (Htab _)).
  rewrite ptr_diff_app, string_of_app, ptr_eq_app.
  rewrite (bool_decide_eq_false_2 _ Hc0).
  rewrite (deref_tab r1). cbn [advance negb].
  rewrite !Hn1, Hp1, (deref_tab r2). cbn [advance negb orb].
  rewrite !Hn2, Hp2, (deref_tab r3). cbn [advance negb orb].
  rewrite !Hn3, Hname, Ha1, Ha2.
  destruct (emplace_cell (barcode l) b) as [id b']. reflexivity.
Qed.

(** On an emptied buffer [parse_line] returns the empty name and touches
    nothing. *)
Lemma parse_line_empty (b : BedFragments.t) (s e c : Z) :
  line_buf b = "" -> parse_line b s e c = Ok ("", (s, e, c), b).
Proof. intros Hbuf. unfold parse_line. rewrite Hbuf. reflexivity. Qed.

End ParseLine.

(** ** Reading lines *)

Section ReadLine.
Import CStr Zlib BedText BedFragments BedInvariants.

Variable line_buf_size : nat.
Hypothesis buf_size_ge : (2 <= line_buf_size)%nat.
Variable final_nl : bool.

Lemma gz_copy_line (left : nat) (s rest : string) :
  all_chars line_char s = true -> (String.length s < left)%nat ->
  gz_copy left (s +:+ String NL rest) = (s +:+ nl, rest, false).
Proof.
  revert left. induction s as [|c s IH]; intros left Hs Hlen.
  - destruct left; [simpl in Hlen; lia|]. reflexivity.
  - destruct left; [simpl in Hlen; lia|].
    simpl in Hs. apply andb_true_iff in Hs as [Hc Hs].
    apply line_char_spec in Hc as [_ Hc].
    rewrite !str_app_cons. cbn [gz_copy].
    destruct (decide (c = NL)) as [|_]; [contradiction|].
    rewrite IH; [reflexivity|exact Hs|simpl in Hlen; lia].
Qed.

Lemma gz_copy_last (left : nat) (s : string) :
  all_chars line_char s = true -> (String.length s < left)%nat ->
  gz_copy left s = (s, "", true).
Proof.
  revert left. induction s as [|c s IH]; intros left Hs Hlen.
  - destruct left; [simpl in Hlen; lia|]. reflexivity.
  - destruct left; [simpl in Hlen; lia|].
    simpl in Hs. apply andb_true_iff in Hs as [Hc Hs].
    apply line_char_spec in Hc as [_ Hc].
    cbn [gz_copy]. destruct (decide (c = NL)) as [|_]; [contradiction|].
    rewrite IH; [reflexivity|exact Hs|simpl in Hlen; lia].
Qed.

Lemma c_str_line (s eol : string) :
  all_chars line_char s = true -> is_eol eol -> c_str (s +:+ eol) = s +:+ eol.
Proof.
  intros Hs Heol. induction s as [|c s IH].
  - rewrite str_app_nil_l. destruct Heol as [->| ->]; reflexivity.
  - simpl in Hs. apply andb_true_iff in Hs as [Hc Hs].
    apply line_char_spec in Hc as [Hc _].
    rewrite str_app_cons. cbn [c_str]. destruct (decide (c = NUL)) as [|_]; [contradiction|].
    rewrite (IH Hs). reflexivity.
Qed.

(** [gzgets] on a text that starts with a fitting line. *)
Lemma gzgets_line (s : string) (rest : list string) (past : bool) :
  fits line_buf_size s ->
  exists eol g,
    gzgets (mk_gzFile (text_of (s :: rest) final_nl) past) line_buf_size = (Some (s +:+ eol), g) /\
    is_eol eol /\ gz_rest g = text_of rest final_nl.
Proof.
  intros (Hne & Hs & Hlen). unfold gzgets. cbn [gz_rest gz_past].
  assert (Hsome : forall (eol : string) (g : gzFile),
             match s +:+ eol with
             | "" => (@None string, g)
             | String _ _ => (Some (s +:+ eol), g)
             end = (Some (s +:+ eol), g)).
  { intros eol g. destruct s as [|c s]; [contradiction|]. reflexivity. }
  destruct rest as [|s' rest].
  - cbn [text_of]. destruct final_nl.
    + unfold nl at 1. rewrite gz_copy_line by (auto; lia).
      exists nl, (mk_gzFile "" (past || false)).
      split; [apply Hsome|]. split; [right|]; reflexivity.
    + rewrite gz_copy_last by (auto; lia).
      exists "", (mk_gzFile "" (past || true)).
      split; [|split; [left|]; reflexivity].
      rewrite str_app_nil_r. destruct s as [|c s]; [contradiction|reflexivity].
  - change (text_of (s :: s' :: rest) final_nl)
      with (s +:+ String NL (text_of (s' :: rest) final_nl)).
    rewrite gz_copy_line by (auto; lia).
    exists nl, (mk_gzFile (text_of (s' :: rest) final_nl) (past || false)).
    split; [apply Hsome|]. split; [right|]; reflexivity.
Qed.

(** [gzgets] at the end of the text. *)
Lemma gzgets_end (past : bool) :
  gzgets (mk_gzFile "" past) line_buf_size = (None, mk_gzFile "" true).
Proof.
  unfold gzgets. cbn [gz_rest gz_past].
  destruct line_buf_size as [|[|n]]; [lia|lia|].
  cbn [Nat.sub gz_copy]. rewrite orb_true_r. reflexivity.
Qed.

(** One [read_line] moves the reader to the next position; it tells
    [false] only when the buffer is emptied. *)
Lemma read_line_advances (b : BedFragments.t) (p : pos) :
  at_pos final_nl b p -> p <> Done ->
  match p with At _ pending => Forall (fits line_buf_size) pending | _ => True end ->
  exists x buf e,
    read_line line_buf_size b =
      Ok (match p with At _ _ => true | _ => false end, set_cursor x buf e b) /\
    at_pos final_nl (set_cursor x buf e b) (advance_pos p).
Proof.
  intros Hpos Hnd Hfit. destruct p as [cur pending|cur|]; [| |contradiction].
  - destruct Hpos as ((g & eol & Hf & Hrest & Hbuf & Heol) & Heof).
    unfold read_line. rewrite Hf. destruct g as [text past]. cbn [gz_rest] in Hrest. subst text.
    destruct pending as [|s pending].
    + cbn [text_of]. rewrite gzgets_end. cbn [eof with_f]. rewrite Heof.
      cbn [from_option gzeof gz_past negb].
      exists (Some (mk_gzFile "" true)), (line_buf b), true. split; [reflexivity|].
      cbn [advance_pos at_pos set_cursor f line_buf eof]. split; [|reflexivity].
      exists (mk_gzFile "" true), eol. auto.
    + apply Forall_cons in Hfit as [Hs Hfit].
      destruct (gzgets_line s pending past Hs) as (eol' & g' & -> & Heol' & Hrest').
      rewrite c_str_line by (auto; apply Hs).
      exists (Some g'), (s +:+ eol'), false. split.
      * unfold set_cursor, with_line_buf, with_f. cbn. rewrite Heof. reflexivity.
      * cbn [advance_pos at_pos set_cursor f line_buf eof]. split; [|reflexivity].
        exists g', eol'. auto.
  - destruct Hpos as ((g & eol & Hf & Hrest & Hbuf & Heol) & Heof).
    unfold read_line. rewrite Hf. destruct g as [text past]. cbn [gz_rest] in Hrest. subst text.
    rewrite gzgets_end. cbn [eof with_f]. rewrite Heof.
    exists (Some (mk_gzFile "" true)), "", true. split.
    + unfold set_cursor, with_line_buf. cbn. rewrite Heof. reflexivity.
    + reflexivity.
Qed.

End ReadLine.

(** ** Name tables *)

Section Tables.
Import CStr Zlib BedText BedFragments BedInvariants.

Variable universe : list string.
Hypothesis universe_bound : Z.of_nat (length (remove_dups universe)) < 2 ^ 32.

Lemma table_ok_length (names : list string) (lookup : gmap string Z) (next : Z) :
  table_ok universe names lookup next ->
  (length names <= length (remove_dups universe))%nat.
Proof.
  intros (Hnd & _ & _ & _ & Hsub).
  apply submseteq_length, NoDup_submseteq; [exact Hnd|].
  intros x Hx. apply elem_of_remove_dups, Hsub, Hx.
Qed.

(** A new name goes to the end of the table and gets the next id. *)
Lemma table_ok_insert (names : list string) (lookup : gmap string Z) (next : Z)
    (name : string) :
  table_ok universe names lookup next -> lookup !! name = None -> name ∈ universe ->
  table_ok universe (names ++ [name]) (<[name := next]> lookup) (to_uint32 (next + 1)) /\
  0 <= next /\ (names ++ [name]) !! Z.to_nat next = Some name.
Proof.
  intros Hok Hnew Hin.
  pose proof Hok as (Hnd & Hnext & Hlook & Hall & Hsub).
  assert (Hfresh : name ∉ names).
  { intros Hmem. destruct (Hall name Hmem) as [id Hid]. congruence. }
  assert (Hnd' : NoDup (names ++ [name])).
  { apply NoDup_app. split; [exact Hnd|]. split; [|apply NoDup_singleton].
    intros x Hx Hx'%list_elem_of_singleton. subst x. contradiction. }
  assert (Hsub' : names ++ [name] ⊆ universe).
  { intros x [Hx|Hx%list_elem_of_singleton]%elem_of_app; [apply Hsub, Hx|subst x; exact Hin]. }
  assert (Hlen : (length (names ++ [name]) <= length (remove_dups universe))%nat).
  { apply submseteq_length, NoDup_submseteq; [exact Hnd'|].
    intros x Hx. apply elem_of_remove_dups, Hsub', Hx. }
  rewrite length_app in Hlen. cbn [length] in Hlen.
  assert (Hhere : (names ++ [name]) !! Z.to_nat next = Some name).
  { subst next. rewrite Nat2Z.id. apply list_lookup_middle. reflexivity. }
  split; [|split; [lia|exact Hhere]].
  split; [exact Hnd'|]. split; [|split; [|split; [|exact Hsub']]].
  - rewrite length_app. cbn [length]. unfold to_uint32. rewrite Z.mod_small; lia.
  - intros x id Hx. destruct (decide (name = x)) as [->|Hne].
    + rewrite lookup_insert_eq in Hx. injection Hx as <-. split; [lia|exact Hhere].
    + rewrite lookup_insert_ne in Hx by exact Hne.
      destruct (Hlook x id Hx) as [Hid Hnth]. split; [exact Hid|].
      apply lookup_app_l_Some, Hnth.
  - intros x [Hx|Hx%list_elem_of_singleton]%elem_of_app.
    + destruct (decide (name = x)) as [->|Hne]; [contradiction|].
      rewrite lookup_insert_ne by exact Hne. apply Hall, Hx.
    + subst x. rewrite lookup_insert_eq. eauto.
Qed.

(** A name in the index is in the table. *)
Lemma table_ok_known (names : list string) (lookup : gmap string Z) (next : Z)
    (name : string) :
  table_ok universe names lookup next -> (is_Some (lookup !! name) <-> name ∈ names).
Proof.
  intros (_ & _ & Hlook & Hall & _). split; [|apply Hall].
  intros [id Hid]. destruct (Hlook name id Hid) as [_ Hnth].
  eapply list_elem_of_lookup_2, Hnth.
Qed.

(** [emplace_cell] keeps the cell table in order and returns the place of
    the name in it. *)
Lemma emplace_cell_spec (name : string) (b : BedFragments.t) :
  table_ok universe (cell_names b) (cell_id_lookup b) (next_cell_id b) ->
  name ∈ universe ->
  exists id names lookup next,
    emplace_cell name b = (id, with_cells names lookup next b) /\
    table_ok universe names lookup next /\
    cell_names b `prefix_of` names /\
    0 <= id /\ names !! Z.to_nat id = Some name.
Proof.
  intros Hok Hin. unfold emplace_cell.
  destruct (cell_id_lookup b !! name) as [id|] eqn:Hlook.
  - exists id, (cell_names b), (cell_id_lookup b), (next_cell_id b).
    split; [destruct b; reflexivity|]. split; [exact Hok|]. split; [reflexivity|].
    destruct Hok as (_ & _ & Hl & _). apply (Hl name id Hlook).
  - destruct (table_ok_insert _ _ _ name Hok Hlook Hin) as (Hok' & Hid & Hnth).
    eexists _, _, _, _. split; [reflexivity|]. split; [exact Hok'|].
    split; [apply prefix_app_r; reflexivity|]. split; [exact Hid|exact Hnth].
Qed.

End Tables.

(** ** One call of load *)

Section LoadBasics.
Import CStr Zlib BedText BedOrder BedFragments BedInvariants.

Lemma extends_refl (b : BedFragments.t) : extends b b.
Proof. split; reflexivity. Qed.

Lemma extends_trans (b1 b2 b3 : BedFragments.t) :
  extends b1 b2 -> extends b2 b3 -> extends b1 b3.
Proof. intros [H1 H2] [H3 H4]. split; etrans; eassumption. Qed.

Lemma names_resolve (names names' : list string) (id : Z) (x : string) :
  names `prefix_of` names' -> 0 <= id -> names !! Z.to_nat id = Some x ->
  (if bool_decide (Z.of_nat (length names') <= id) then None else names' !! Z.to_nat id)
    = Some x.
Proof.
  intros Hpre Hid Hnth.
  pose proof (prefix_lookup_Some _ _ _ _ Hnth Hpre) as Hnth'.
  pose proof (lookup_lt_Some _ _ _ Hnth') as Hlt.
  rewrite bool_decide_eq_false_2 by lia. exact Hnth'.
Qed.

Lemma names_resolved_stay (names names' : list string) (id : Z) (x : string) :
  names `prefix_of` names' ->
  (if bool_decide (Z.of_nat (length names) <= id) then None else names !! Z.to_nat id)
    = Some x ->
  (if bool_decide (Z.of_nat (length names') <= id) then None else names' !! Z.to_nat id)
    = Some x.
Proof.
  intros Hpre Hres. destruct (bool_decide (Z.of_nat (length names) <= id)) eqn:Hge;
    [discriminate|].
  apply bool_decide_eq_false_1 in Hge.
  pose proof (prefix_lookup_Some _ _ _ _ Hres Hpre) as Hnth'.
  pose proof (lookup_lt_Some _ _ _ Hnth') as Hlt.
  pose proof (lookup_lt_Some _ _ _ Hres) as Hlt0.
  rewrite bool_decide_eq_false_2; [exact Hnth'|].
  destruct (Z.le_gt_cases 0 id); [lia|]. rewrite Z2Nat.nonpos in Hlt by lia.
  pose proof (prefix_length _ _ Hpre). lia.
Qed.

Lemma written_roomy (n i : nat) (s e c : Z) (buffer : FragmentArray.t) :
  roomy_buffer n buffer -> roomy_buffer n (written i s e c buffer).
Proof. unfold roomy_buffer, written. cbn. rewrite !length_insert. tauto. Qed.

Lemma written_below (i j : nat) (s e c : Z) (buffer : FragmentArray.t) :
  (j < i)%nat -> entry_raw (written i s e c buffer) j = entry_raw buffer j.
Proof.
  intros Hj. unfold entry_raw, written. cbn.
  rewrite !list_lookup_total_insert_ne by lia. reflexivity.
Qed.

Lemma written_here (n i : nat) (s e c : Z) (buffer : FragmentArray.t) :
  roomy_buffer n buffer -> (i < n)%nat -> entry_raw (written i s e c buffer) i = (s, e, c).
Proof.
  intros (H1 & H2 & H3) Hi. unfold entry_raw, written. cbn.
  rewrite !list_lookup_total_insert_eq by lia. reflexivity.
Qed.

End LoadBasics.

Section Load.
Import CStr Zlib BedText BedOrder BedFragments BedInvariants.

Variable line_buf_size : nat.
Hypothesis buf_size_ge : (2 <= line_buf_size)%nat.
Variable final_nl : bool.
Variables cell_universe chr_universe : list string.
Hypothesis cells_bound : Z.of_nat (length (remove_dups cell_universe)) < 2 ^ 32.
Hypothesis chrs_bound : Z.of_nat (length (remove_dups chr_universe)) < 2 ^ 32.

Local Abbreviation inv := (Inv line_buf_size final_nl cell_universe chr_universe).

Variable known : list string.
Variable c : string.

Lemma load_from_spec (k : nat) : forall (i : nat) (b : BedFragments.t)
    (buffer : FragmentArray.t) (ls : Z) (p : dpos),
  inv p known c ls b -> roomy_buffer (i + k) buffer ->
  load_outcome line_buf_size final_nl cell_universe chr_universe known c k i b buffer ls p.
Proof.
  induction k as [|k IH]; intros i b buffer ls p Hinv Hroom; unfold load_outcome.
  - cbn [load_spec load_from]. exists b, buffer.
    split; [cbn [length]; rewrite Nat.add_0_r; reflexivity|].
    split; [exact Hinv|]. split; [apply extends_refl|]. split; [exact Hroom|].
    split; [reflexivity|reflexivity].
  - pose proof Hinv as (Hpos & Hwf & Hcells & Hchrs & Hknown & Hcur & Hls & Hstale).
    destruct p as [l pending|l|].
    + (* a line is held *)
      cbn [raw at_pos] in Hpos.
      destruct Hpos as ((g & eol & Hf & Hrest & Hbuf & Heol) & Heof).
      unfold pos_wf in Hwf. cbn [dseen] in Hwf.
      pose proof Hwf as [(Hwl & Hfit & Hbc & Hch) Hwf']%Forall_cons.
      cbn [load_spec load_from].
      rewrite (parse_line_wf b l eol _ _ _ Hwl Heol Hbuf). cbn [bind].
      destruct (emplace_cell_spec cell_universe cells_bound (barcode l) b Hcells Hbc)
        as (id & names & lookup & next & Hemp & Hcells' & Hpre & Hid & Hnth).
      rewrite Hemp. cbn [fst snd].
      fold (written i (dec_value (start_txt l)) (dec_value (end_txt l)) id buffer).
      set (b1 := with_cells names lookup next b).
      set (buffer1 := written i (dec_value (start_txt l)) (dec_value (end_txt l)) id buffer).
      assert (Hroom1 : roomy_buffer (i + S k) buffer1) by (apply written_roomy, Hroom).
      assert (Hext1 : extends b b1) by (split; [exact Hpre|reflexivity]).
      change (current_chr b1) with (current_chr b). change (last_start b1) with (last_start b).
      rewrite Hcur, Hls.
      assert (Hc0 : chrom l <> "") by (apply wf_line_spec in Hwl; tauto).
      rewrite (bool_decide_eq_false_2 _ Hc0). cbn [orb].
      destruct (decide (chrom l = c)) as [Heq|Hne].
      * rewrite !(bool_decide_eq_true_2 _ Heq). cbn [negb].
        assert (Hhere : entry_raw buffer1 i
                        = (dec_value (start_txt l), dec_value (end_txt l), id)).
        { apply (written_here (i + S k)); [exact Hroom|lia]. }
        assert (Hstart : FragmentArray.start buffer1 !!! i = dec_value (start_txt l))
          by (unfold entry_raw in Hhere; congruence).
        rewrite Hstart.
        destruct (bool_decide (dec_value (start_txt l) < ls)); [reflexivity|].
        set (b2 := with_last_start (dec_value (start_txt l)) b1).
        destruct (read_line_advances line_buf_size buf_size_ge final_nl b2
                    (At (render l) (render <$> pending))) as (x & buf & e & Hread & Hpos3).
        { cbn [at_pos]. split; [|exact Heof]. exists g, eol. auto. }
        { discriminate. }
        { apply Forall_fmap. eapply Forall_impl; [exact Hwf'|]. cbn. tauto. }
        rewrite Hread. cbn [bind negb].
        set (b3 := set_cursor x buf e b2) in *.
        assert (Hinv3 : inv (dadvance l pending) known c (dec_value (start_txt l)) b3).
        { split; [|split; [|split; [exact Hcells'|split; [exact Hchrs|]]]].
          - destruct pending; exact Hpos3.
          - unfold pos_wf. destruct pending as [|l' pending]; cbn [dadvance dseen].
            + exact Hwf.
            + exact Hwf'.
          - split; [exact Hknown|]. split; [exact Hcur|]. split; [reflexivity|].
            destruct pending; cbn [dadvance]; auto. }
        assert (Hroom3 : roomy_buffer (S i + k) buffer1).
        { replace (S i + k)%nat with (i + S k)%nat by lia. exact Hroom1. }
        specialize (IH (S i) b3 buffer1 (dec_value (start_txt l)) (dadvance l pending)
                       Hinv3 Hroom3).
        unfold load_outcome in IH.
        destruct (load_spec k c (dec_value (start_txt l)) (dadvance l pending))
          as [[[d ls'] p']|]; [|exact IH].
        destruct IH as (b' & buffer' & Hload & Hinv' & Hext' & Hroom' & Hbelow & Hfields).
        exists b', buffer'.
        split; [rewrite Hload; cbn [length]; do 3 f_equal; lia|].
        split; [exact Hinv'|].
        split; [eapply extends_trans; [exact Hext1|exact Hext']|].
        split; [replace (i + S k)%nat with (S i + k)%nat by lia; exact Hroom'|].
        split.
        -- intros j Hj. rewrite Hbelow by lia. apply written_below, Hj.
        -- cbn [length]. rewrite <- cons_seq. cbn [fmap list_fmap].
           fold (fmap (M := list) (entry_fields b' buffer') (seq (S i) (length d))).
           fold (fmap (M := list) line_fields d).
           rewrite Hfields. f_equal.
           pose proof (Hbelow i ltac:(lia)) as Hi. rewrite Hhere in Hi.
           unfold entry_raw in Hi. unfold entry_fields, line_fields.
           injection Hi as -> -> ->. do 2 f_equal.
           unfold cellNames. apply (names_resolve names); [|exact Hid|exact Hnth].
           apply Hext'.
      * rewrite !(bool_decide_eq_false_2 _ Hne). cbn [negb].
        exists b1, buffer1.
        split; [cbn [length]; rewrite Nat.add_0_r; reflexivity|].
        split.
        { split; [|split; [exact Hwf|split; [exact Hcells'|split; [exact Hchrs|]]]].
          - cbn [raw at_pos]. split; [|exact Heof]. exists g, eol. auto.
          - auto. }
        split; [exact Hext1|]. split; [exact Hroom1|].
        split; [|reflexivity].
        intros j Hj. apply written_below, Hj.
    + (* the last line is held again *)
      cbn [raw at_pos] in Hpos.
      destruct Hpos as ((g & eol & Hf & Hrest & Hbuf & Heol) & Heof).
      unfold pos_wf in Hwf. cbn [dseen] in Hwf.
      pose proof Hwf as [(Hwl & Hfit & Hbc & Hch) _]%Forall_cons.
      destruct Hstale as [Heq Hlsl].
      cbn [load_spec load_from].
      rewrite (parse_line_wf b l eol _ _ _ Hwl Heol Hbuf). cbn [bind].
      destruct (emplace_cell_spec cell_universe cells_bound (barcode l) b Hcells Hbc)
        as (id & names & lookup & next & Hemp & Hcells' & Hpre & Hid & Hnth).
      rewrite Hemp. cbn [fst snd].
      fold (written i (dec_value (start_txt l)) (dec_value (end_txt l)) id buffer).
      set (b1 := with_cells names lookup next b).
      set (buffer1 := written i (dec_value (start_txt l)) (dec_value (end_txt l)) id buffer).
      assert (Hroom1 : roomy_buffer (i + S k) buffer1) by (apply written_roomy, Hroom).
      change (current_chr b1) with (current_chr b). change (last_start b1) with (last_start b).
      rewrite Hcur, Hls.
      assert (Hc0 : chrom l <> "") by (apply wf_line_spec in Hwl; tauto).
      rewrite (bool_decide_eq_false_2 _ Hc0), (bool_decide_eq_true_2 _ Heq). cbn [orb negb].
      assert (Hhere : entry_raw buffer1 i
                      = (dec_value (start_txt l), dec_value (end_txt l), id)).
      { apply (written_here (i + S k)); [exact Hroom|lia]. }
      assert (Hstart : FragmentArray.start buffer1 !!! i = dec_value (start_txt l))
        by (unfold entry_raw in Hhere; congruence).
      rewrite Hstart, bool_decide_eq_false_2 by lia.
      set (b2 := with_last_start (dec_value (start_txt l)) b1).
      destruct (read_line_advances line_buf_size buf_size_ge final_nl b2
                  (Stale (render l))) as (x & buf & e & Hread & Hpos3).
      { cbn [at_pos]. split; [|exact Heof]. exists g, eol. auto. }
      { discriminate. }
      { exact I. }
      rewrite Hread. cbn [bind negb].
      exists (set_cursor x buf e b2), buffer1.
      split; [cbn [length]; rewrite Nat.add_0_r; reflexivity|].
      split.
      { split; [exact Hpos3|]. split; [constructor|].
        split; [exact Hcells'|]. split; [exact Hchrs|].
        split; [exact Hknown|]. split; [exact Hcur|]. split; [symmetry; exact Hlsl|exact I]. }
      split; [split; [exact Hpre|reflexivity]|]. split; [exact Hroom1|].
      split; [|reflexivity].
      intros j Hj. apply written_below, Hj.
    + (* the buffer is empty *)
      cbn [raw at_pos] in Hpos.
      cbn [load_spec load_from].
      rewrite (parse_line_empty b _ _ _ Hpos). cbn [bind].
      rewrite (bool_decide_eq_true_2 ("" = "") eq_refl). cbn [orb].
      eexists b, _.
      split; [cbn [length]; rewrite Nat.add_0_r; reflexivity|].
      split; [exact Hinv|]. split; [apply extends_refl|].
      split; [apply (written_roomy _ i), Hroom|].
      split; [|reflexivity].
      intros j Hj. apply (written_below i), Hj.
Qed.

End Load.

(** ** The consumer loop *)

Section IterateBasics.
Import CStr Zlib BedText BedOrder BedFragments BedInvariants FragmentsConsumer.

(** *** The specification of a call and the order of the lines *)

Lemma load_spec_scan (known : list string) (c : string) (k : nat) :
  forall (ls : Z) (p : dpos),
  match load_spec k c ls p with
  | None => scan known c ls (dlines p) = Descending
  | Some (d, ls', p') =>
      scan known c ls (dlines p) = scan known c ls' (dlines p') /\
      dlines p = d ++ dlines p' /\
      Forall (fun l => chrom l = c) d /\ (length d <= k)%nat
  end.
Proof.
  induction k as [|k IH]; intros ls p; cbn [load_spec].
  - repeat split; [constructor|cbn; lia].
  - destruct p as [l pending|l|]; cbn [dlines scan].
    + destruct (bool_decide (chrom l = c)) eqn:Hc.
      * destruct (bool_decide (dec_value (start_txt l) < ls)); [reflexivity|].
        specialize (IH (dec_value (start_txt l)) (dadvance l pending)).
        assert (Hadv : dlines (dadvance l pending) = pending) by (destruct pending; reflexivity).
        rewrite Hadv in IH.
        destruct (load_spec k c (dec_value (start_txt l)) (dadvance l pending))
          as [[[d ls'] p']|]; [|exact IH].
        destruct IH as (Hscan & Hlines & Hall & Hlen).
        split; [exact Hscan|]. split; [cbn; f_equal; exact Hlines|].
        split; [constructor; [exact (bool_decide_eq_true_1 _ Hc)|exact Hall]|cbn; lia].
      * cbn [dlines scan]. rewrite Hc. repeat split; [constructor|cbn; lia].
    + repeat split; [constructor|cbn; lia].
    + repeat split; [constructor|cbn; lia].
Qed.

(** A call on a line of the current chromosome delivers it or throws. *)
Lemma load_spec_progress (c : string) (k : nat) (ls : Z) (l : bed_line)
    (pending : list bed_line) :
  chrom l = c ->
  match load_spec (S k) c ls (DAt l pending) with
  | None => True
  | Some (d, _, _) => d <> []
  end.
Proof.
  intros Hc. cbn [load_spec]. rewrite (bool_decide_eq_true_2 _ Hc).
  destruct (bool_decide (dec_value (start_txt l) < ls)); [exact I|].
  destruct (load_spec k c (dec_value (start_txt l)) (dadvance l pending))
    as [[[d ls'] p']|]; [discriminate|exact I].
Qed.

Lemma first_char_of_line (l : bed_line) (eol : string) :
  wf_line l = true ->
  deref (render l +:+ eol) <> NUL /\ deref (render l +:+ eol) <> NL.
Proof.
  intros ((Hc0 & Hc) & _)%wf_line_spec. rewrite render_eol.
  destruct (chrom l) as [|a s]; [contradiction|].
  cbn in Hc. apply andb_true_iff in Hc as [Ha _].
  apply field_char_spec in Ha. rewrite str_app_cons. cbn [deref]. tauto.
Qed.

(** *** Names stay resolved *)

Lemma resolve_stays (b b' : BedFragments.t) (x : fragment) (cn bc : string) (s e : Z) :
  extends b b' -> resolve b x = (Some cn, s, e, Some bc) ->
  resolve b' x = (Some cn, s, e, Some bc).
Proof.
  intros [Hcells Hchrs]. unfold resolve, chrNames, cellNames. intros [= H1 H2 H3 H4].
  rewrite (names_resolved_stay _ _ _ _ Hchrs H1), (names_resolved_stay _ _ _ _ Hcells H4).
  congruence.
Qed.

Lemma resolved_stay (b b' : BedFragments.t) (acc : list fragment) (done : list bed_line) :
  extends b b' -> resolve b <$> acc = fields <$> done ->
  resolve b' <$> acc = fields <$> done.
Proof.
  intros Hext. revert done. induction acc as [|x acc IH]; intros [|l done] Hres;
    try discriminate; [reflexivity|].
  rewrite !fmap_cons in Hres.
  assert (resolve b x = fields l /\ resolve b <$> acc = fields <$> done) as [Hx Hacc]
    by (split; congruence).
  rewrite !fmap_cons. f_equal.
  - unfold fields in *. apply (resolve_stays b b' _ _ _ _ _ Hext Hx).
  - apply IH, Hacc.
Qed.

(** What a call delivered resolves to the lines it went through. *)
Lemma delivered_resolved (b : BedFragments.t) (buffer : FragmentArray.t) (c : string)
    (chr : Z) (d : list bed_line) :
  chrNames b chr = Some c -> Forall (fun l => chrom l = c) d ->
  entry_fields b buffer <$> seq 0 (length d) = line_fields <$> d ->
  resolve b <$> delivered chr (length d) buffer = fields <$> d.
Proof.
  intros Hchr Hall. unfold delivered. rewrite <- list_fmap_compose.
  generalize 0%nat. induction Hall as [|l d Hl Hall IH]; intros i Hfields; [reflexivity|].
  change (entry_fields b buffer i :: (entry_fields b buffer <$> seq (S i) (length d))
          = line_fields l :: (line_fields <$> d)) in Hfields.
  assert (entry_fields b buffer i = line_fields l /\
          entry_fields b buffer <$> seq (S i) (length d) = line_fields <$> d)
    as [Hhead Htail] by (split; congruence).
  cbn [length seq]. rewrite !fmap_cons. f_equal.
  - unfold resolve, fields, entry_fields, line_fields in *. cbn.
    injection Hhead as -> -> ->. rewrite Hchr, Hl. reflexivity.
  - apply IH, Htail.
Qed.

(** *** Fuel *)

Lemma iterate_in_chr (line_buf_size fuel : nat) (count : Z) (b : BedFragments.t)
    (buffer : FragmentArray.t) (acc : list fragment) :
  iterate line_buf_size (S fuel) count true b buffer acc =
  match load line_buf_size count b buffer with
  | Ok (n, b, buffer) =>
      if bool_decide (n <= 0) then iterate line_buf_size fuel count false b buffer acc
      else
        match currentChr b with
        | Ok chr =>
            iterate line_buf_size fuel count true b buffer
              (acc ++ delivered chr (Z.to_nat n) buffer)
        | Throw e => Raised CallCurrentChr e
        | OutOfFuel => Starved
        end
  | Throw e => Raised CallLoad e
  | OutOfFuel => Starved
  end.
Proof. reflexivity. Qed.

Lemma iterate_between (line_buf_size fuel : nat) (count : Z) (b : BedFragments.t)
    (buffer : FragmentArray.t) (acc : list fragment) :
  iterate line_buf_size (S fuel) count false b buffer acc =
  match nextChr line_buf_size fuel b with
  | Ok (more, b) =>
      if more then iterate line_buf_size fuel count true b buffer acc
      else Finished b acc
  | Throw e => Raised CallNextChr e
  | OutOfFuel => Starved
  end.
Proof. reflexivity. Qed.

Lemma eventually_now (P : run_result -> Prop) (run : nat -> run_result) (n : nat)
    (r : run_result) :
  (forall fuel, (n <= fuel)%nat -> run fuel = r) -> P r -> eventually P run.
Proof. intros Hrun HP. exists n. intros fuel Hfuel. rewrite Hrun by exact Hfuel. exact HP. Qed.

Lemma eventually_step (P : run_result -> Prop) (run run' : nat -> run_result) :
  (forall fuel, (1 <= fuel)%nat -> run (S fuel) = run' fuel) ->
  eventually P run' -> eventually P run.
Proof.
  intros Hstep [fuel0 Hrun']. exists (S (S fuel0)). intros fuel Hfuel.
  destruct fuel as [|fuel]; [lia|]. rewrite Hstep by lia. apply Hrun'. lia.
Qed.

End IterateBasics.

Section Iterate.
Import CStr Zlib BedText BedOrder BedFragments BedInvariants FragmentsConsumer.

Variable line_buf_size : nat.
Hypothesis buf_size_ge : (2 <= line_buf_size)%nat.
Variable final_nl : bool.
Variables cell_universe chr_universe : list string.
Hypothesis cells_bound : Z.of_nat (length (remove_dups cell_universe)) < 2 ^ 32.
Hypothesis chrs_bound : Z.of_nat (length (remove_dups chr_universe)) < 2 ^ 32.
Local Abbreviation inv := (Inv line_buf_size final_nl cell_universe chr_universe).

(** *** nextChr *)

Lemma nextChr_new_chromosome (known : list string) (c : string) (ls : Z)
    (b : BedFragments.t) (l : bed_line) (pending : list bed_line) :
  inv (DAt l pending) known c ls b -> chrom l <> c ->
  if bool_decide (chrom l ∈ known) then
    forall fuel, nextChr line_buf_size (S fuel) b = Throw sort_error
  else
    exists b', (forall fuel, nextChr line_buf_size (S fuel) b = Ok (true, b')) /\
               inv (DAt l pending) (known ++ [chrom l]) (chrom l) 0 b' /\
               extends b b'.
Proof.
  intros (Hpos & Hwf & Hcells & Hchrs & Hknown & Hcur & Hls & _) Hne.
  cbn [raw at_pos] in Hpos.
  destruct Hpos as ((g & eol & Hf & Hrest & Hbuf & Heol) & Heof).
  pose proof Hwf as [(Hwl & Hfit & Hbc & Hch) Hwf']%Forall_cons.
  destruct (first_char_of_line l eol Hwl) as [Hnul Hnl].
  destruct (emplace_cell_spec cell_universe cells_bound (barcode l) b Hcells Hbc)
    as (id & names & lookup & next & Hemp & Hcells' & Hpre & Hid & Hnth).
  set (b1 := with_cells names lookup next b) in *.
  assert (Hc0 : chrom l <> "") by (apply wf_line_spec in Hwl; tauto).
  assert (Hrun : forall fuel,
             nextChr line_buf_size (S fuel) b =
             match chr_lookup b !! chrom l with
             | None =>
                 Ok (true,
                     with_last_start 0
                       (with_chrs (chr_names b ++ [chrom l])
                          (<[chrom l := next_chr_id b]> (chr_lookup b))
                          (to_uint32 (next_chr_id b + 1))
                          (with_current_chr (chrom l) b1)))
             | Some _ => Throw sort_error
             end).
  { intros fuel. unfold nextChr. rewrite Hbuf.
    rewrite (bool_decide_eq_false_2 _ Hnul), (bool_decide_eq_false_2 _ Hnl). cbn [orb].
    cbn [nextChr_loop].
    rewrite (parse_line_wf b l eol _ _ _ Hwl Heol Hbuf). cbn [bind].
    rewrite Hemp. cbn [fst snd].
    change (current_chr b1) with (current_chr b). rewrite Hcur.
    rewrite (bool_decide_eq_false_2 _ Hc0), (bool_decide_eq_false_2 _ Hne).
    cbn [orb negb bind]. reflexivity. }
  pose proof (table_ok_known chr_universe _ _ _ (chrom l) Hchrs) as Hmem.
  rewrite Hknown in Hmem.
  destruct (bool_decide (chrom l ∈ known)) eqn:Hin.
  - apply bool_decide_eq_true_1 in Hin. apply Hmem in Hin as [cid Hcid].
    intros fuel. rewrite Hrun, Hcid. reflexivity.
  - apply bool_decide_eq_false_1 in Hin.
    destruct (chr_lookup b !! chrom l) as [cid|] eqn:Hcid.
    { exfalso. apply Hin, Hmem. eauto. }
    destruct (table_ok_insert chr_universe chrs_bound _ _ _ (chrom l) Hchrs Hcid Hch)
      as (Hchrs' & _ & _).
    eexists. split; [exact Hrun|]. split.
    + split; [cbn [raw at_pos]; split; [|exact Heof]; exists g, eol; auto|].
      split; [exact Hwf|]. split; [exact Hcells'|]. split; [exact Hchrs'|].
      cbn. rewrite Hknown. auto.
    + split; [exact Hpre|]. cbn. apply prefix_app_r. reflexivity.
Qed.

Lemma nextChr_done (fuel : nat) (b : BedFragments.t) :
  line_buf b = "" -> nextChr line_buf_size fuel b = Ok (false, b).
Proof. intros Hbuf. unfold nextChr. rewrite Hbuf. reflexivity. Qed.

(** *** load, as the consumer calls it *)

Variable count : Z.
Hypothesis count_range : 0 < count < 2 ^ 31.

Lemma load_call (known : list string) (c : string) (ls : Z) (p : dpos)
    (b : BedFragments.t) (buffer : FragmentArray.t) :
  inv p known c ls b -> roomy_buffer (Z.to_nat count) buffer ->
  match load_spec (Z.to_nat count) c ls p with
  | None => load line_buf_size count b buffer = Throw sort_error
  | Some (d, ls', p') =>
      exists b' buffer',
        load line_buf_size count b buffer = Ok (Z.of_nat (length d), b', buffer') /\
        inv p' known c ls' b' /\ extends b b' /\
        roomy_buffer (Z.to_nat count) buffer' /\
        entry_fields b' buffer' <$> seq 0 (length d) = line_fields <$> d
  end.
Proof.
  intros Hinv Hroom.
  pose proof (load_from_spec line_buf_size buf_size_ge final_nl cell_universe chr_universe
                cells_bound known c (Z.to_nat count) 0 b buffer ls p Hinv Hroom) as Hspec.
  pose proof (load_spec_scan known c (Z.to_nat count) ls p) as Hscan.
  unfold load_outcome in Hspec. unfold load.
  destruct (load_spec (Z.to_nat count) c ls p) as [[[d ls'] p']|].
  - destruct Hspec as (b' & buffer' & Hload & Hinv' & Hext & Hroom' & _ & Hfields).
    destruct Hscan as (_ & _ & _ & Hlen).
    exists b', buffer'. rewrite Hload. cbn [bind Nat.add].
    split; [|auto].
    do 3 f_equal. unfold to_int32. rewrite Z.mod_small by lia. lia.
  - rewrite Hspec. reflexivity.
Qed.

(** *** The whole read *)

Lemma iterate_at_end (p : dpos) (known : list string) (c : string) (ls : Z)
    (b : BedFragments.t) (buffer : FragmentArray.t) (acc : list fragment)
    (done : list bed_line) :
  dlines p = [] ->
  inv p known c ls b -> roomy_buffer (Z.to_nat count) buffer ->
  resolve b <$> acc = fields <$> done ->
  eventually (expected InOrder (fields <$> done))
    (fun fuel => iterate line_buf_size fuel count true b buffer acc).
Proof.
  intros Hend Hinv Hroom Hres.
  pose proof (load_call known c ls p b buffer Hinv Hroom) as Hload.
  assert (Hspec : load_spec (Z.to_nat count) c ls p = Some ([], ls, DDone)).
  { destruct (Z.to_nat count) as [|k] eqn:Hk; [lia|].
    destruct p; [discriminate|reflexivity|reflexivity]. }
  rewrite Hspec in Hload.
  destruct Hload as (b' & buffer' & Hload & Hinv' & Hext & _ & _).
  apply (eventually_now _ _ 2 (Finished b' acc)).
  - intros fuel Hfuel. destruct fuel as [|[|fuel]]; [lia|lia|].
    rewrite iterate_in_chr, Hload. cbn [length Z.of_nat].
    rewrite bool_decide_eq_true_2 by lia.
    rewrite iterate_between, nextChr_done; [reflexivity|]. apply Hinv'.
  - exists b', acc. split; [reflexivity|]. apply (resolved_stay b b'); assumption.
Qed.

Lemma known_chromosome (known : list string) (c : string) (ls : Z) (p : dpos)
    (b : BedFragments.t) :
  inv p known c ls b -> c ∈ known ->
  exists chr, currentChr b = Ok chr /\ chrNames b chr = Some c.
Proof.
  intros (_ & _ & _ & Hchrs & Hknown & Hcur & _) Hc.
  pose proof Hchrs as (_ & _ & Hlook & Hall & _).
  rewrite <- Hknown in Hc. destruct (Hall c Hc) as [chr Hchr].
  destruct (Hlook c chr Hchr) as [Hge Hnth].
  exists chr. unfold currentChr, chrNames. rewrite Hcur, Hchr. split; [reflexivity|].
  apply (names_resolve (chr_names b)); [reflexivity|exact Hge|exact Hnth].
Qed.

Lemma iterate_reads (n : nat) : forall (p : dpos), (length (dlines p) <= n)%nat ->
  forall (known : list string) (c : string) (ls : Z) (b : BedFragments.t)
    (buffer : FragmentArray.t) (acc : list fragment) (done : list bed_line),
  inv p known c ls b -> c ∈ known -> roomy_buffer (Z.to_nat count) buffer ->
  resolve b <$> acc = fields <$> done ->
  eventually (expected (scan known c ls (dlines p)) (fields <$> (done ++ dlines p)))
    (fun fuel => iterate line_buf_size fuel count true b buffer acc).
Proof.
  induction n as [|n IH]; intros p Hlen known c ls b buffer acc done Hinv Hc Hroom Hres.
  - assert (Hend : dlines p = []) by (destruct (dlines p); [reflexivity|cbn in Hlen; lia]).
    rewrite Hend, app_nil_r. cbn [scan].
    apply (iterate_at_end p known c ls); assumption.
  - destruct p as [l pending|l0|]; cycle 1.
    { cbn [dlines scan]. rewrite app_nil_r.
      apply (iterate_at_end (DStale l0) known c ls); auto. }
    { cbn [dlines scan]. rewrite app_nil_r.
      apply (iterate_at_end DDone known c ls); auto. }
    cbn [dlines] in *.
    (* a call on a line of the current chromosome *)
    assert (Hmatch : forall known c ls b buffer acc done,
               chrom l = c -> inv (DAt l pending) known c ls b -> c ∈ known ->
               roomy_buffer (Z.to_nat count) buffer ->
               resolve b <$> acc = fields <$> done ->
               eventually (expected (scan known c ls (l :: pending))
                                    (fields <$> (done ++ l :: pending)))
                 (fun fuel => iterate line_buf_size fuel count true b buffer acc)).
    { clear known c ls b buffer acc done Hinv Hc Hroom Hres.
      intros known c ls b buffer acc done Heq Hinv Hc Hroom Hres.
      pose proof (load_call known c ls (DAt l pending) b buffer Hinv Hroom) as Hload.
      pose proof (load_spec_scan known c (Z.to_nat count) ls (DAt l pending)) as Hscan.
      assert (Hprog := load_spec_progress c (Nat.pred (Z.to_nat count)) ls l pending Heq).
      replace (S (Nat.pred (Z.to_nat count))) with (Z.to_nat count) in Hprog by lia.
      destruct (load_spec (Z.to_nat count) c ls (DAt l pending)) as [[[d ls'] p']|].
      - destruct Hload as (b' & buffer' & Hload & Hinv' & Hext & Hroom' & Hfields).
        destruct Hscan as (Hscan & Hlines & Hall & Hdlen).
        cbn [dlines] in Hscan, Hlines.
        destruct (known_chromosome known c ls' p' b' Hinv' Hc) as (chr & Hchr & Hname).
        assert (Hshorter : (length (dlines p') <= n)%nat).
        { apply (f_equal length) in Hlines. rewrite length_app in Hlines.
          cbn [length] in Hlines, Hlen. destruct d; [contradiction|]. cbn [length] in Hlines.
          lia. }
        assert (Hres' : resolve b' <$> acc ++ delivered chr (length d) buffer'
                        = fields <$> (done ++ d)).
        { rewrite !fmap_app. f_equal.
          - apply (resolved_stay b b'); assumption.
          - apply (delivered_resolved b' buffer' c); assumption. }
        specialize (IH p' Hshorter known c ls' b' buffer'
                       (acc ++ delivered chr (length d) buffer') (done ++ d)
                       Hinv' Hc Hroom' Hres').
        rewrite Hscan, Hlines, app_assoc.
        eapply eventually_step; [|exact IH].
        intros fuel _. rewrite iterate_in_chr, Hload.
        rewrite bool_decide_eq_false_2 by (destruct d; [contradiction|cbn [length]; lia]).
        rewrite Hchr, Nat2Z.id. reflexivity.
      - cbn [dlines] in Hscan. rewrite Hscan. cbn [expected].
        apply (eventually_now _ _ 1 (Raised CallLoad sort_error)); [|reflexivity].
        intros fuel Hfuel. destruct fuel as [|fuel]; [lia|].
        rewrite iterate_in_chr, Hload. reflexivity. }
    destruct (decide (chrom l = c)) as [Heq|Hne]; [apply Hmatch; assumption|].
    (* a line of another chromosome: load gives nothing, nextChr moves on *)
    pose proof (load_call known c ls (DAt l pending) b buffer Hinv Hroom) as Hload.
    assert (Hspec : load_spec (Z.to_nat count) c ls (DAt l pending)
                    = Some ([], ls, DAt l pending)).
    { destruct (Z.to_nat count) as [|k] eqn:Hk; [lia|].
      cbn [load_spec]. rewrite (bool_decide_eq_false_2 _ Hne). reflexivity. }
    rewrite Hspec in Hload.
    destruct Hload as (b1 & buffer1 & Hload & Hinv1 & Hext1 & Hroom1 & _).
    assert (Hwl : wf_line l = true).
    { destruct Hinv as (_ & Hwf & _). apply Forall_cons in Hwf as [Hwl _]. tauto. }
    assert (Hstart : 0 <= dec_value (start_txt l)).
    { apply dec_value_nonneg. apply wf_line_spec in Hwl. tauto. }
    cbn [scan]. rewrite (bool_decide_eq_false_2 _ Hne).
    eapply eventually_step.
    { intros fuel _. rewrite iterate_in_chr, Hload. cbn [length Z.of_nat].
      rewrite bool_decide_eq_true_2 by lia. reflexivity. }
    pose proof (nextChr_new_chromosome known c ls b1 l pending Hinv1 Hne) as Hnext.
    destruct (bool_decide (chrom l ∈ known)) eqn:Hin.
    + apply (eventually_now _ _ 2 (Raised CallNextChr sort_error)); [|reflexivity].
      intros fuel Hfuel. destruct fuel as [|[|fuel]]; [lia|lia|].
      rewrite iterate_between, Hnext. reflexivity.
    + destruct Hnext as (b2 & Hnext & Hinv2 & Hext2).
      apply (eventually_step _ _
               (fun fuel => iterate line_buf_size fuel count true b2 buffer1 acc)).
      { intros fuel Hfuel. destruct fuel as [|fuel]; [lia|].
        rewrite iterate_between, Hnext. reflexivity. }
      assert (Hsame : scan (known ++ [chrom l]) (chrom l) (dec_value (start_txt l)) pending
                      = scan (known ++ [chrom l]) (chrom l) 0 (l :: pending)).
      { cbn [scan]. rewrite (bool_decide_eq_true_2 (chrom l = chrom l) eq_refl).
        rewrite bool_decide_eq_false_2 by lia. reflexivity. }
      rewrite Hsame.
      apply Hmatch; [reflexivity|exact Hinv2| |exact Hroom1|].
      * apply elem_of_app. right. apply list_elem_of_singleton. reflexivity.
      * apply (resolved_stay b1 b2); [exact Hext2|].
        apply (resolved_stay b b1); assumption.
Qed.

End Iterate.

(** ** The order of the lines *)

Section Order.
Import CStr BedText BedOrder.

Lemma contiguous_cons (l : bed_line) (rest : list bed_line) :
  contiguous (l :: rest) = true ->
  contiguous rest = true /\
  (forall l', head rest = Some l' -> chrom l' = chrom l \/ chrom l ∉ chrom <$> rest).
Proof.
  cbn [contiguous]. destruct rest as [|l' rest']; [split; [reflexivity|discriminate]|].
  intros [Hhead Hrest]%andb_true_iff. split; [exact Hrest|].
  intros l'' [= <-]. apply orb_true_iff in Hhead as [Heq|Hout].
  - left. apply bool_decide_eq_true_1 in Heq. exact Heq.
  - right. apply negb_true_iff, bool_decide_eq_false_1 in Hout. exact Hout.
Qed.

Lemma start_sorted_cons (l : bed_line) (rest : list bed_line) :
  start_sorted (l :: rest) = true ->
  start_sorted rest = true /\
  (forall l', head rest = Some l' -> chrom l' = chrom l ->
     dec_value (start_txt l) <= dec_value (start_txt l')).
Proof.
  cbn [start_sorted]. destruct rest as [|l' rest']; [split; [reflexivity|discriminate]|].
  intros [Hhead Hrest]%andb_true_iff. split; [exact Hrest|].
  intros l'' [= <-] Heq. apply orb_true_iff in Hhead as [Hne|Hle].
  - apply negb_true_iff, bool_decide_eq_false_1 in Hne. contradiction.
  - apply bool_decide_eq_true_1 in Hle. exact Hle.
Qed.

(** Through lines that are in order the scan only moves its state. *)
Lemma scan_through (good : list bed_line) : forall (known : list string) (c : string)
    (ls : Z) (rest : list bed_line),
  ahead_ok known c ls good ->
  scan known c ls (good ++ rest) =
  scan (scan_state known c ls good).1.1 (scan_state known c ls good).1.2
       (scan_state known c ls good).2 rest.
Proof.
  induction good as [|l good IH]; intros known c ls rest Hok; [reflexivity|].
  destruct Hok as (Hcont & Hsort & Hne & Hknown & Hhead).
  apply contiguous_cons in Hcont as [Hcont Hnext].
  apply start_sorted_cons in Hsort as [Hsort Hnexts].
  apply Forall_cons in Hne as [Hl Hne].
  cbn [app scan scan_state].
  destruct (decide (chrom l = c)) as [Heq|Hneq].
  - rewrite !(bool_decide_eq_true_2 _ Heq).
    rewrite bool_decide_eq_false_2 by (specialize (Hhead l eq_refl Heq); lia).
    apply IH. split; [exact Hcont|]. split; [exact Hsort|]. split; [exact Hne|]. split.
    + intros x Hx Hin.
      destruct (Hknown x Hx) as [-> _]; [rewrite fmap_cons; apply elem_of_cons; auto|].
      split; [reflexivity|].
      destruct good as [|l' good']; [inversion Hin|].
      exists l'. split; [reflexivity|].
      destruct (Hnext l' eq_refl) as [Hsame|Hout]; [congruence|].
      rewrite Heq in Hout. contradiction.
    + intros l' Hl' Hc. apply (Hnexts l' Hl'). congruence.
  - rewrite !(bool_decide_eq_false_2 _ Hneq).
    assert (Hfresh : chrom l ∉ known).
    { intros Hin. destruct (Hknown (chrom l) Hin) as [Hc _]; [|contradiction].
      rewrite fmap_cons. apply elem_of_cons. auto. }
    rewrite (bool_decide_eq_false_2 _ Hfresh).
    apply IH. split; [exact Hcont|]. split; [exact Hsort|]. split; [exact Hne|]. split.
    + intros x [Hx|Hx%list_elem_of_singleton]%elem_of_app Hin.
      * exfalso. destruct (Hknown x Hx) as (-> & l0 & [= <-] & Hl0);
          [rewrite fmap_cons; apply elem_of_cons; auto|]. contradiction.
      * subst x. split; [reflexivity|].
        destruct good as [|l' good']; [inversion Hin|].
        exists l'. split; [reflexivity|].
        destruct (Hnext l' eq_refl) as [Hsame|Hout]; [exact Hsame|contradiction].
    + intros l' Hl' Hc. apply (Hnexts l' Hl' Hc).
Qed.

(** The state after lines in order: the last line's chromosome and start,
    and every chromosome of the lines among those met. *)
Lemma scan_state_last (good : list bed_line) : forall (known : list string) (c : string)
    (ls : Z) (l1 : bed_line),
  (c ∈ known \/ Forall (fun l => chrom l <> c) (good ++ [l1])) ->
  (scan_state known c ls (good ++ [l1])).1.2 = chrom l1 /\
  (scan_state known c ls (good ++ [l1])).2 = dec_value (start_txt l1) /\
  (forall x, x ∈ known \/ x ∈ chrom <$> good ++ [l1] ->
     x ∈ (scan_state known c ls (good ++ [l1])).1.1).
Proof.
  induction good as [|l good IH]; intros known c ls l1 Hc.
  - cbn [app scan_state]. destruct (decide (chrom l1 = c)) as [Heq|Hneq].
    + rewrite (bool_decide_eq_true_2 _ Heq). cbn. split; [auto|split; [reflexivity|]].
      intros x [Hx|Hx]; [exact Hx|].
      apply list_elem_of_singleton in Hx. subst x.
      destruct Hc as [Hc|Hc]; [congruence|].
      apply Forall_cons in Hc as [Hc _]. contradiction.
    + rewrite (bool_decide_eq_false_2 _ Hneq). cbn. split; [reflexivity|split; [reflexivity|]].
      intros x [Hx|Hx]; apply elem_of_app; [left; exact Hx|right; exact Hx].
  - cbn [app scan_state]. destruct (decide (chrom l = c)) as [Heq|Hneq].
    + rewrite (bool_decide_eq_true_2 _ Heq).
      assert (Hin : c ∈ known).
      { destruct Hc as [Hc|Hc]; [exact Hc|].
        apply Forall_cons in Hc as [Hc _]. contradiction. }
      destruct (IH known c (dec_value (start_txt l)) l1 (or_introl Hin)) as (H1 & H2 & H3).
      split; [exact H1|]. split; [exact H2|].
      intros x [Hx|Hx]; [apply H3; auto|].
      rewrite fmap_cons in Hx. apply elem_of_cons in Hx as [->|Hx]; [|apply H3; auto].
      apply H3. left. congruence.
    + rewrite (bool_decide_eq_false_2 _ Hneq).
      assert (Hin : chrom l ∈ known ++ [chrom l]).
      { apply elem_of_app. right. apply list_elem_of_singleton. reflexivity. }
      destruct (IH (known ++ [chrom l]) (chrom l) (dec_value (start_txt l)) l1
                  (or_introl Hin)) as (H1 & H2 & H3).
      split; [exact H1|]. split; [exact H2|].
      intros x [Hx|Hx].
      * apply H3. left. apply elem_of_app. auto.
      * rewrite fmap_cons in Hx. apply elem_of_cons in Hx as [->|Hx]; apply H3; auto.
Qed.

(** At the start of a file nothing was met. *)
Lemma ahead_ok_start (lines : list bed_line) :
  contiguous lines = true -> start_sorted lines = true ->
  Forall (fun l => wf_line l = true) lines ->
  ahead_ok [] "" 0 lines.
Proof.
  intros Hcont Hsort Hwf.
  assert (Hne : Forall (fun l => chrom l <> "") lines).
  { eapply Forall_impl; [exact Hwf|]. intros l Hl. apply wf_line_spec in Hl. tauto. }
  split; [exact Hcont|]. split; [exact Hsort|]. split; [exact Hne|]. split.
  - intros x Hx. inversion Hx.
  - intros l Hl Hc. destruct lines as [|l0 rest]; [discriminate|].
    injection Hl as ->. apply Forall_cons in Hne as [Hne _]. contradiction.
Qed.

Lemma scan_in_order (lines : list bed_line) :
  contiguous lines = true -> start_sorted lines = true ->
  Forall (fun l => wf_line l = true) lines ->
  scan [] "" 0 lines = InOrder.
Proof.
  intros Hcont Hsort Hwf.
  rewrite <- (app_nil_r lines) at 1.
  rewrite (scan_through lines [] "" 0 [] (ahead_ok_start lines Hcont Hsort Hwf)).
  reflexivity.
Qed.

Lemma scan_after_prefix (pre : list bed_line) (l1 : bed_line) (rest : list bed_line) :
  contiguous (pre ++ [l1]) = true -> start_sorted (pre ++ [l1]) = true ->
  Forall (fun l => wf_line l = true) (pre ++ [l1]) ->
  exists known,
    scan [] "" 0 (pre ++ l1 :: rest)
      = scan known (chrom l1) (dec_value (start_txt l1)) rest /\
    (forall x, x ∈ chrom <$> pre ++ [l1] -> x ∈ known).
Proof.
  intros Hcont Hsort Hwf.
  pose proof (scan_through (pre ++ [l1]) [] "" 0 rest
                (ahead_ok_start _ Hcont Hsort Hwf)) as Hscan.
  rewrite <- app_assoc in Hscan. cbn [app] in Hscan.
  destruct (scan_state_last pre [] "" 0 l1) as (Hc & Hls & Hknown).
  { right. eapply Forall_impl; [exact Hwf|]. intros l Hl. apply wf_line_spec in Hl. tauto. }
  rewrite Hc, Hls in Hscan.
  eexists. split; [exact Hscan|]. intros x Hx. apply Hknown. auto.
Qed.

Lemma scan_descending (pre : list bed_line) (l1 l2 : bed_line) (post : list bed_line) :
  contiguous (pre ++ [l1]) = true -> start_sorted (pre ++ [l1]) = true ->
  Forall (fun l => wf_line l = true) (pre ++ [l1]) ->
  chrom l2 = chrom l1 -> dec_value (start_txt l2) < dec_value (start_txt l1) ->
  scan [] "" 0 (pre ++ l1 :: l2 :: post) = Descending.
Proof.
  intros Hcont Hsort Hwf Hc Hlt.
  destruct (scan_after_prefix pre l1 (l2 :: post) Hcont Hsort Hwf) as (known & -> & _).
  cbn [scan]. rewrite (bool_decide_eq_true_2 _ Hc), (bool_decide_eq_true_2 _ Hlt).
  reflexivity.
Qed.

Lemma scan_reentry (pre : list bed_line) (l1 l2 : bed_line) (post : list bed_line) :
  contiguous (pre ++ [l1]) = true -> start_sorted (pre ++ [l1]) = true ->
  Forall (fun l => wf_line l = true) (pre ++ [l1]) ->
  chrom l2 <> chrom l1 -> chrom l2 ∈ chrom <$> pre ->
  scan [] "" 0 (pre ++ l1 :: l2 :: post) = Reentry.
Proof.
  intros Hcont Hsort Hwf Hc Hin.
  destruct (scan_after_prefix pre l1 (l2 :: post) Hcont Hsort Hwf) as (known & -> & Hknown).
  cbn [scan]. rewrite (bool_decide_eq_false_2 _ Hc).
  rewrite bool_decide_eq_true_2; [reflexivity|].
  apply Hknown. rewrite fmap_app. apply elem_of_app. auto.
Qed.

(** A start below the one before it on the same chromosome stops the scan,
    whatever came before. *)
Lemma scan_descending_pair (pre : list bed_line) : forall (known : list string)
    (c : string) (ls : Z) (l1 l2 : bed_line) (post : list bed_line),
  chrom l2 = chrom l1 -> dec_value (start_txt l2) < dec_value (start_txt l1) ->
  scan known c ls (pre ++ l1 :: l2 :: post) <> InOrder.
Proof.
  induction pre as [|l pre IH]; intros known c ls l1 l2 post Hc Hlt.
  - assert (Hnext : forall known',
               scan known' (chrom l1) (dec_value (start_txt l1)) (l2 :: post) = Descending).
    { intros known'. cbn [scan].
      rewrite (bool_decide_eq_true_2 _ Hc), (bool_decide_eq_true_2 _ Hlt). reflexivity. }
    change (([] : list bed_line) ++ l1 :: l2 :: post) with (l1 :: l2 :: post).
    destruct (decide (chrom l1 = c)) as [<-|Hne].
    + change (scan known (chrom l1) ls (l1 :: l2 :: post))
        with (if bool_decide (chrom l1 = chrom l1) then
                if bool_decide (dec_value (start_txt l1) < ls) then Descending
                else scan known (chrom l1) (dec_value (start_txt l1)) (l2 :: post)
              else if bool_decide (chrom l1 ∈ known) then Reentry
              else scan (known ++ [chrom l1]) (chrom l1) (dec_value (start_txt l1))
                        (l2 :: post)).
      rewrite !Hnext. destruct (bool_decide (chrom l1 = chrom l1));
        [destruct (bool_decide (dec_value (start_txt l1) < ls))
        |destruct (bool_decide (chrom l1 ∈ known))]; discriminate.
    + change (scan known c ls (l1 :: l2 :: post))
        with (if bool_decide (chrom l1 = c) then
                if bool_decide (dec_value (start_txt l1) < ls) then Descending
                else scan known c (dec_value (start_txt l1)) (l2 :: post)
              else if bool_decide (chrom l1 ∈ known) then Reentry
              else scan (known ++ [chrom l1]) (chrom l1) (dec_value (start_txt l1))
                        (l2 :: post)).
      rewrite (bool_decide_eq_false_2 _ Hne), Hnext.
      destruct (bool_decide (chrom l1 ∈ known)); discriminate.
  - cbn [app scan]. destruct (bool_decide (chrom l = c)).
    + destruct (bool_decide (dec_value (start_txt l) < ls)); [discriminate|].
      apply IH; assumption.
    + destruct (bool_decide (chrom l ∈ known)); [discriminate|]. apply IH; assumption.
Qed.

End Order.

(** ** Opening the file *)

Section OpenBasics.
Import CStr Zlib BedText BedOrder BedFragments BedInvariants FragmentsConsumer.

Lemma prefix_of_longer (s : string) : forall (c eol : string),
  String.prefix c s = true -> String.prefix c (s +:+ eol) = true.
Proof.
  induction s as [|a s IH]; intros c eol Hpre.
  - destruct c; [|discriminate]. destruct eol; reflexivity.
  - destruct c as [|x c]; [reflexivity|].
    rewrite str_app_cons. cbn [String.prefix] in *.
    destruct (Ascii.ascii_dec x a); [apply IH; exact Hpre|discriminate].
Qed.

Lemma prefix_within_line (s : string) : forall (c eol : string),
  all_chars line_char c = true -> is_eol eol ->
  String.prefix c (s +:+ eol) = true -> String.prefix c s = true.
Proof.
  induction s as [|a s IH]; intros c eol Hc Heol Hpre.
  - destruct c as [|x c]; [reflexivity|]. exfalso.
    cbn [all_chars] in Hc. apply andb_true_iff in Hc as [Hx _].
    apply line_char_spec in Hx as [_ Hx].
    rewrite str_app_nil_l in Hpre. destruct Heol as [->| ->]; [discriminate|].
    unfold nl in Hpre. cbn [String.prefix] in Hpre.
    destruct (Ascii.ascii_dec x NL); [contradiction|discriminate].
  - destruct c as [|x c]; [reflexivity|].
    cbn [all_chars] in Hc. apply andb_true_iff in Hc as [_ Hc].
    rewrite str_app_cons in Hpre. cbn [String.prefix] in *.
    destruct (Ascii.ascii_dec x a); [apply (IH c eol); assumption|discriminate].
Qed.

Lemma first_char_fits (n : nat) (s eol : string) :
  fits n s -> deref (s +:+ eol) <> NUL.
Proof.
  intros (Hne & Hs & _). destruct s as [|a s]; [contradiction|].
  cbn [all_chars] in Hs. apply andb_true_iff in Hs as [Ha _].
  apply line_char_spec in Ha. rewrite str_app_cons. cbn [deref]. tauto.
Qed.

(** A well-formed line has neither NUL nor newline, and is not empty. *)
Lemma render_line_chars (l : bed_line) :
  wf_line l = true -> render l <> "" /\ all_chars line_char (render l) = true.
Proof.
  intros ((Hc0 & Hc) & (_ & Hs & _) & (_ & He & _) & Hb & Hx)%wf_line_spec.
  split.
  - unfold render. destruct (chrom l) as [|a s]; [contradiction|].
    rewrite !str_app_cons. discriminate.
  - unfold render, tab. rewrite !all_chars_app. cbn [all_chars].
    rewrite (all_chars_weaken _ _ _ field_char_line_char Hc).
    rewrite (all_chars_weaken _ _ _ field_char_line_char
               (all_chars_weaken _ _ _ isdigit_field_char Hs)).
    rewrite (all_chars_weaken _ _ _ field_char_line_char
               (all_chars_weaken _ _ _ isdigit_field_char He)).
    rewrite (all_chars_weaken _ _ _ field_char_line_char Hb).
    destruct Hx as [->|[_ ->]]; reflexivity.
Qed.

Lemma set_cursor_twice (x x' : option gzFile) (buf buf' : string) (e e' : bool)
    (b : BedFragments.t) :
  set_cursor x buf e (set_cursor x' buf' e' b) = set_cursor x buf e b.
Proof. reflexivity. Qed.

End OpenBasics.

Section Open.
Import CStr Zlib BedText BedOrder BedFragments BedInvariants FragmentsConsumer.

Variable line_buf_size : nat.
Hypothesis buf_size_ge : (2 <= line_buf_size)%nat.
Variable final_nl : bool.
Variable comment_prefix : string.
Hypothesis prefix_chars : all_chars line_char comment_prefix = true.
(** The lines after the comments. *)
Variable body : list string.
Hypothesis body_fits : Forall (fits line_buf_size) body.
Hypothesis body_starts :
  forall d, head body = Some d -> String.prefix comment_prefix d = false.

(** The comment loop of [restart] reads on to the first line of the body,
    or through the end of the text when there is none. *)
Lemma skip_comments_spec (cs : list string) : forall (b : BedFragments.t) (cur : string),
  comment b = comment_prefix ->
  Forall (fun s => fits line_buf_size s /\ String.prefix comment_prefix s = true)
         (cur :: cs) ->
  at_pos final_nl b (At cur (cs ++ body)) ->
  exists x buf e,
    (forall fuel, (length cs + 3 <= fuel)%nat ->
       skip_comments line_buf_size fuel b = Ok (set_cursor x buf e b)) /\
    at_pos final_nl (set_cursor x buf e b) (after_comments body).
Proof.
  induction cs as [|c1 cs IH]; intros b cur Hcom Hcs Hpos.
  - apply Forall_cons in Hcs as [[Hfit Hpre] _]. cbn [app] in Hpos.
    pose proof Hpos as ((g & eol & Hf & Hrest & Hbuf & Heol) & Heof).
    destruct (read_line_advances line_buf_size buf_size_ge final_nl b (At cur body)
                Hpos ltac:(discriminate) body_fits) as (x1 & buf1 & e1 & Hread1 & Hpos1).
    set (b1 := set_cursor x1 buf1 e1 b) in *.
    assert (Hstep : forall fuel,
               skip_comments line_buf_size (S fuel) b = skip_comments line_buf_size fuel b1).
    { intros fuel. cbn [skip_comments]. rewrite Hbuf, Hcom.
      rewrite (bool_decide_eq_false_2 _ (first_char_fits _ cur eol Hfit)).
      rewrite (prefix_of_longer cur comment_prefix eol Hpre). cbn [negb].
      rewrite Hread1. reflexivity. }
    unfold after_comments. destruct body as [|d ds] eqn:Hbody.
    + cbn [advance_pos] in Hpos1.
      pose proof Hpos1 as ((g1 & eol1 & Hf1 & Hrest1 & Hbuf1 & Heol1) & Heof1).
      destruct (read_line_advances line_buf_size buf_size_ge final_nl b1 (Stale cur)
                  Hpos1 ltac:(discriminate) I) as (x2 & buf2 & e2 & Hread2 & Hpos2).
      exists x2, buf2, e2. split; [|exact Hpos2].
      intros fuel Hfuel. destruct fuel as [|[|[|fuel]]]; [cbn in Hfuel; lia..|].
      rewrite Hstep. cbn [skip_comments]. rewrite Hbuf1.
      change (comment b1) with (comment b). rewrite Hcom.
      rewrite (bool_decide_eq_false_2 _ (first_char_fits _ cur eol1 Hfit)).
      rewrite (prefix_of_longer cur comment_prefix eol1 Hpre). cbn [negb].
      rewrite Hread2. cbn [bind]. cbn [advance_pos at_pos] in Hpos2.
      rewrite Hpos2. cbn [deref]. rewrite bool_decide_eq_true_2 by reflexivity.
      reflexivity.
    + cbn [advance_pos] in Hpos1.
      pose proof Hpos1 as ((g1 & eol1 & Hf1 & Hrest1 & Hbuf1 & Heol1) & Heof1).
      apply Forall_cons in body_fits as [Hd _].
      exists x1, buf1, e1. split; [|exact Hpos1].
      intros fuel Hfuel. destruct fuel as [|[|fuel]]; [cbn in Hfuel; lia..|].
      rewrite Hstep. cbn [skip_comments]. rewrite Hbuf1.
      change (comment b1) with (comment b). rewrite Hcom.
      rewrite (bool_decide_eq_false_2 _ (first_char_fits _ d eol1 Hd)).
      assert (Hno : String.prefix comment_prefix (d +:+ eol1) = false).
      { destruct (String.prefix comment_prefix (d +:+ eol1)) eqn:Hp; [|reflexivity].
        apply prefix_within_line in Hp; [|assumption..].
        rewrite (body_starts d eq_refl) in Hp. discriminate. }
      rewrite Hno. reflexivity.
  - apply Forall_cons in Hcs as [[Hfit Hpre] Hcs].
    pose proof Hpos as ((g & eol & Hf & Hrest & Hbuf & Heol) & Heof).
    assert (Hpend : Forall (fits line_buf_size) ((c1 :: cs) ++ body)).
    { apply Forall_app. split; [|exact body_fits].
      eapply Forall_impl; [exact Hcs|]. intros s Hs. apply Hs. }
    destruct (read_line_advances line_buf_size buf_size_ge final_nl b
                (At cur ((c1 :: cs) ++ body)) Hpos ltac:(discriminate) Hpend)
      as (x1 & buf1 & e1 & Hread1 & Hpos1).
    set (b1 := set_cursor x1 buf1 e1 b) in *.
    cbn [app advance_pos] in Hpos1.
    destruct (IH b1 c1 Hcom Hcs Hpos1) as (x & buf & e & Hrun & Hend).
    exists x, buf, e. split; [|exact Hend].
    intros fuel Hfuel. destruct fuel as [|fuel]; [cbn in Hfuel; lia|].
    cbn [skip_comments]. rewrite Hbuf, Hcom.
    rewrite (bool_decide_eq_false_2 _ (first_char_fits _ cur eol Hfit)).
    rewrite (prefix_of_longer cur comment_prefix eol Hpre). cbn [negb].
    rewrite Hread1. cbn [bind]. fold b1. apply Hrun. cbn [length] in Hfuel. lia.
Qed.

(** The same from wherever the first [read_line] of [restart] left the
    reader, in a text that is not empty. *)
Lemma skip_comments_from_start (cs : list string) (b : BedFragments.t) (cur0 : string) :
  comment b = comment_prefix ->
  Forall (fun s => fits line_buf_size s /\ String.prefix comment_prefix s = true) cs ->
  cs ++ body <> [] ->
  at_pos final_nl b (advance_pos (At cur0 (cs ++ body))) ->
  exists x buf e,
    (forall fuel, (length cs + 3 <= fuel)%nat ->
       skip_comments line_buf_size fuel b = Ok (set_cursor x buf e b)) /\
    at_pos final_nl (set_cursor x buf e b) (after_comments body).
Proof.
  intros Hcom Hcs Hne Hpos. destruct cs as [|c1 cs].
  - cbn [app] in *. destruct body as [|d ds] eqn:Hbody; [contradiction|].
    cbn [advance_pos] in Hpos.
    pose proof Hpos as ((g & eol & Hf & Hrest & Hbuf & Heol) & Heof).
    apply Forall_cons in body_fits as [Hd _].
    exists (f b), (line_buf b), (eof b).
    assert (Hb : set_cursor (f b) (line_buf b) (eof b) b = b) by (destruct b; reflexivity).
    rewrite Hb. split; [|exact Hpos].
    intros fuel Hfuel. destruct fuel as [|fuel]; [cbn in Hfuel; lia|].
    cbn [skip_comments]. rewrite Hbuf, Hcom.
    rewrite (bool_decide_eq_false_2 _ (first_char_fits _ d eol Hd)).
    assert (Hno : String.prefix comment_prefix (d +:+ eol) = false).
    { destruct (String.prefix comment_prefix (d +:+ eol)) eqn:Hp; [|reflexivity].
      apply prefix_within_line in Hp; [|assumption..].
      rewrite (body_starts d eq_refl) in Hp. discriminate. }
    rewrite Hno. reflexivity.
  - cbn [app advance_pos] in Hpos.
    destruct (skip_comments_spec cs b c1 Hcom Hcs Hpos) as (x & buf & e & Hrun & Hend).
    exists x, buf, e. split; [|exact Hend].
    intros fuel Hfuel. apply Hrun. cbn [length] in Hfuel. lia.
Qed.

End Open.

(** ** The constructor and the whole read *)

Section WholeRead.
Import CStr Zlib BedText BedOrder BedFragments BedInvariants FragmentsConsumer.

Lemma table_ok_empty (universe : list string) : table_ok universe [] ∅ 0.
Proof.
  split; [constructor|]. split; [reflexivity|]. split.
  - intros name id Hl. rewrite lookup_empty in Hl. discriminate.
  - split; [intros name Hin; inversion Hin|]. intros x Hin. inversion Hin.
Qed.

Lemma readable_pos_wf (line_buf_size : nat) (comment_prefix : string)
    (comments : list string) (lines : list bed_line) :
  readable line_buf_size comment_prefix comments lines ->
  Forall (fun l => wf_line l = true /\ fits line_buf_size (render l) /\
                   barcode l ∈ barcode <$> lines /\ chrom l ∈ chrom <$> lines) lines.
Proof.
  intros (_ & Hlines & _). rewrite Forall_forall in Hlines. apply Forall_forall.
  intros l Hl. destruct (Hlines l Hl) as [Hwf Hlen].
  destruct (render_line_chars l Hwf) as [Hne Hchars].
  split; [exact Hwf|]. split; [split; [exact Hne|split; [exact Hchars|exact Hlen]]|].
  split; apply list_elem_of_fmap_2; exact Hl.
Qed.

Lemma raw_start_dpos (lines : list bed_line) :
  raw (start_dpos lines) = after_comments (render <$> lines).
Proof. destruct lines; reflexivity. Qed.

(** Constructed on a readable file with the end flag clear, the reader
    stands at the first data line with empty tables. *)
Lemma new_reaches (line_buf_size : nat) (final_nl : bool) (comment_prefix : string)
    (comments : list string) (lines : list bed_line) (fs : filesystem)
    (path line_buf0 : string) :
  readable line_buf_size comment_prefix comments lines ->
  fs !! path = Some (text_of (comments ++ (render <$> lines)) final_nl) ->
  (comments = [] -> lines = [] -> line_buf0 = "") ->
  exists b,
    (forall fuel, (length comments + 3 <= fuel)%nat ->
       new line_buf_size fs fuel path comment_prefix false line_buf0 = Ok b) /\
    Inv line_buf_size final_nl (barcode <$> lines) (chrom <$> lines)
        (start_dpos lines) [] "" 0 b.
Proof.
  intros Hread Hfs Hempty.
  pose proof (readable_pos_wf _ _ _ _ Hread) as Hwf.
  destruct Hread as (Hsize & Hlines & Hcomments & Hnone & Hchars & Hfirst & _).
  set (text := text_of (comments ++ (render <$> lines)) final_nl) in *.
  set (b1 := BedFragments.mk path (Some (mk_gzFile text false)) line_buf0 [] [] ∅ ∅ 0 0 ""
               comment_prefix 0 false).
  assert (Hbody : Forall (fits line_buf_size) (render <$> lines)).
  { apply Forall_fmap. eapply Forall_impl; [exact Hwf|]. intros l Hl. apply Hl. }
  assert (Hinv : forall x buf e p,
             at_pos final_nl (set_cursor x buf e b1) (raw p) -> pos_wf line_buf_size
               (barcode <$> lines) (chrom <$> lines) p ->
             match p with DStale _ => False | _ => True end ->
             Inv line_buf_size final_nl (barcode <$> lines) (chrom <$> lines) p [] "" 0
                 (with_current_chr "" (set_cursor x buf e b1))).
  { intros x buf e p Hpos Hp Hns. split; [destruct p; exact Hpos|]. split; [exact Hp|].
    split; [apply table_ok_empty|]. split; [apply table_ok_empty|].
    cbn. destruct p; tauto. }
  assert (Hopen : forall fuel,
             new line_buf_size fs fuel path comment_prefix false line_buf0 =
             let* (_, b) := read_line line_buf_size b1 in
             if (String.length (comment b) =? 0)%nat then Ok b
             else let* b := skip_comments line_buf_size fuel b in
                  Ok (with_current_chr "" b)).
  { intros fuel. unfold new, restart, gzopen. cbn [BedFragments.path]. rewrite Hfs.
    reflexivity. }
  assert (Hwfs : pos_wf line_buf_size (barcode <$> lines) (chrom <$> lines)
                        (start_dpos lines)).
  { unfold pos_wf. destruct lines; [constructor|exact Hwf]. }
  assert (Hnostale : match start_dpos lines with DStale _ => False | _ => True end)
    by (destruct lines; exact I).
  destruct (decide (comments ++ (render <$> lines) = [])) as [Hall|Hne].
  - (* an empty file *)
    apply app_eq_nil in Hall as [-> Hl]. apply fmap_nil_inv in Hl. subst lines.
    assert (Hb0 := Hempty eq_refl eq_refl). clear Hempty. subst line_buf0.
    assert (Hread1 : read_line line_buf_size b1
                     = Ok (true, set_cursor (Some (mk_gzFile "" true)) "" true b1)).
    { unfold read_line. cbn [f b1 text text_of app fmap list_fmap].
      rewrite gzgets_end by exact Hsize. reflexivity. }
    exists (with_current_chr "" (set_cursor (Some (mk_gzFile "" true)) "" true b1)).
    split.
    + intros fuel Hfuel. rewrite Hopen, Hread1. cbn [bind].
      change (comment (set_cursor (Some (mk_gzFile "" true)) "" true b1))
        with comment_prefix.
      destruct (String.length comment_prefix =? 0)%nat eqn:Hlen; [reflexivity|].
      destruct fuel as [|fuel]; [cbn in Hfuel; lia|]. reflexivity.
    + apply (Hinv _ _ _ DDone); [reflexivity|constructor|exact I].
  - (* a first line to read *)
    assert (Hpos1 : at_pos final_nl b1 (At line_buf0 (comments ++ (render <$> lines)))).
    { split; [|reflexivity]. exists (mk_gzFile text false), "".
      split; [reflexivity|]. split; [reflexivity|].
      split; [cbn; rewrite str_app_nil_r; reflexivity|left; reflexivity]. }
    assert (Hpend : Forall (fits line_buf_size) (comments ++ (render <$> lines))).
    { apply Forall_app. split; [|exact Hbody].
      eapply Forall_impl; [exact Hcomments|]. intros c Hc. apply Hc. }
    destruct (read_line_advances line_buf_size Hsize final_nl b1 _ Hpos1
                ltac:(discriminate) Hpend) as (x1 & buf1 & e1 & Hread1 & Hpos2).
    set (b2 := set_cursor x1 buf1 e1 b1) in *.
    destruct (decide (comment_prefix = "")) as [Hcp|Hcp].
    + (* no comment prefix: [restart] returns after the first read *)
      rewrite (Hnone Hcp) in *. cbn [app] in Hne, Hpos2.
      exists b2. split.
      * intros fuel _. rewrite Hopen, Hread1. cbn [bind].
        change (comment b2) with comment_prefix. rewrite Hcp. reflexivity.
      * assert (Hb2 : b2 = with_current_chr "" b2) by reflexivity.
        rewrite Hb2. apply Hinv; [|exact Hwfs|exact Hnostale].
        destruct lines as [|l pending]; [contradiction|exact Hpos2].
    + destruct (skip_comments_from_start line_buf_size Hsize final_nl comment_prefix
                  Hchars (render <$> lines) Hbody) with (cs := comments) (b := b2)
                  (cur0 := line_buf0)
        as (x & buf & e & Hrun & Hend).
      * intros d Hd. destruct lines as [|l pending]; [discriminate|].
        injection Hd as <-. apply (Hfirst Hcp l eq_refl).
      * reflexivity.
      * exact Hcomments.
      * exact Hne.
      * exact Hpos2.
      * exists (with_current_chr "" (set_cursor x buf e b1)). split.
        -- intros fuel Hfuel. rewrite Hopen, Hread1. cbn [bind].
           change (comment b2) with comment_prefix.
           assert (Hlen : (String.length comment_prefix =? 0)%nat = false).
           { destruct comment_prefix; [contradiction|reflexivity]. }
           rewrite Hlen, (Hrun fuel Hfuel). reflexivity.
        -- apply Hinv; [|exact Hwfs|exact Hnostale].
           rewrite raw_start_dpos. exact Hend.
Qed.

End WholeRead.

(** ** The whole read, by the order of the lines *)

Section ReadAll.
Import CStr Zlib BedText BedOrder BedFragments BedInvariants FragmentsConsumer.

Variable line_buf_size : nat.
Variable final_nl : bool.
Variable comment_prefix : string.
Variable comments : list string.
Variable lines : list bed_line.
Variable fs : filesystem.
Variables path line_buf0 : string.
Variable count : Z.
Variable buffer : FragmentArray.t.

Hypothesis file_readable : readable line_buf_size comment_prefix comments lines.
Hypothesis file_there :
  fs !! path = Some (text_of (comments ++ (render <$> lines)) final_nl).
Hypothesis buffer_clear : comments = [] -> lines = [] -> line_buf0 = "".
Hypothesis count_range : 0 < count < 2 ^ 31.
Hypothesis buffer_room : roomy_buffer (Z.to_nat count) buffer.

(** The first [nextChr] on a fresh reader, and the read from there. *)
Lemma iterate_starts (b : BedFragments.t) :
  Inv line_buf_size final_nl (barcode <$> lines) (chrom <$> lines)
      (start_dpos lines) [] "" 0 b ->
  eventually (expected (scan [] "" 0 lines) (fields <$> lines))
    (fun fuel => iterate line_buf_size fuel count false b buffer []).
Proof.
  intros Hinv.
  destruct file_readable as (Hsize & _ & _ & _ & _ & _ & Hcells & Hchrs).
  destruct lines as [|l pending] eqn:Hlines.
  - cbn [scan expected start_dpos] in *.
    apply (eventually_now _ _ 1 (Finished b [])).
    + intros fuel Hfuel. destruct fuel as [|fuel]; [lia|].
      rewrite iterate_between, nextChr_done; [reflexivity|]. apply Hinv.
    + exists b, []. split; reflexivity.
  - rewrite <- Hlines in Hinv, Hcells, Hchrs. cbn [start_dpos] in Hinv.
    rewrite Hlines in Hinv at 3.
    assert (Hwl : wf_line l = true).
    { destruct Hinv as (_ & Hwf & _). apply Forall_cons in Hwf as [Hwl _]. tauto. }
    assert (Hc0 : chrom l <> "") by (apply wf_line_spec in Hwl; tauto).
    assert (Hstart : 0 <= dec_value (start_txt l)).
    { apply dec_value_nonneg. apply wf_line_spec in Hwl. tauto. }
    pose proof (nextChr_new_chromosome line_buf_size final_nl _ _ Hcells Hchrs
                  [] "" 0 b l pending Hinv Hc0) as Hnext.
    rewrite bool_decide_eq_false_2 in Hnext by (intros Hin; inversion Hin).
    destruct Hnext as (b' & Hnext & Hinv' & Hext).
    apply (eventually_step _ _
             (fun fuel => iterate line_buf_size fuel count true b' buffer [])).
    { intros fuel Hfuel. destruct fuel as [|fuel]; [lia|].
      rewrite iterate_between, Hnext. reflexivity. }
    assert (Hsame : scan [] "" 0 (l :: pending)
                    = scan ([] ++ [chrom l]) (chrom l) 0 (l :: pending)).
    { cbn [scan]. rewrite (bool_decide_eq_false_2 _ Hc0).
      rewrite bool_decide_eq_false_2 by (intros Hin; inversion Hin).
      rewrite (bool_decide_eq_true_2 (chrom l = chrom l) eq_refl).
      rewrite bool_decide_eq_false_2 by lia. reflexivity. }
    rewrite Hsame.
    apply (iterate_reads line_buf_size Hsize final_nl _ _ Hcells Hchrs count count_range
             (length (l :: pending)) (DAt l pending) (le_n _)
             ([] ++ [chrom l]) (chrom l) 0 b' buffer [] []); auto.
    apply elem_of_app. right. apply list_elem_of_singleton. reflexivity.
Qed.

(** Reading a readable file through ends as the order of its lines says. *)
Lemma read_all_by_scan :
  eventually (expected (scan [] "" 0 lines) (fields <$> lines))
    (fun fuel => read_all line_buf_size fs fuel path comment_prefix false line_buf0
                   count buffer).
Proof.
  destruct (new_reaches line_buf_size final_nl comment_prefix comments lines fs path
              line_buf0 file_readable file_there buffer_clear) as (b & Hnew & Hinv).
  destruct (iterate_starts b Hinv) as [fuel0 Hrun].
  exists (fuel0 + (length comments + 3))%nat. intros fuel Hfuel.
  unfold read_all. rewrite Hnew by lia. apply Hrun. lia.
Qed.

End ReadAll.

(** ** The reader on files in and out of order *)

Section ReaderClaims.
Import CStr Zlib BedText BedOrder BedFragments BedInvariants FragmentsConsumer.


(** C4. On a readable file in which line [l2] follows line [l1]: when [l2]
    is on the chromosome of [l1] with a start strictly below, iterating
    raises the sort error, out of [load] when the lines up to [l1] are in
    order; when [l2] leaves the chromosome of [l1] for one that an earlier
    line was on, the lines up to [l1] being in order, the sort error comes
    out of [nextChr()]; and when the file is in order with [l2] starting
    where [l1] starts, nothing is raised and every line is delivered. *)
Theorem BedFragments_sort_errors (line_buf_size : nat) (final_nl : bool)
    (comment_prefix : string) (comments : list string) (lines : list bed_line)
    (fs : filesystem) (path line_buf0 : string) (count : Z) (buffer : FragmentArray.t)
    (pre : list bed_line) (l1 l2 : bed_line) (post : list bed_line) :
  readable line_buf_size comment_prefix comments lines ->
  fs !! path = Some (text_of (comments ++ (render <$> lines)) final_nl) ->
  0 < count < 2 ^ 31 ->
  roomy_buffer (Z.to_nat count) buffer ->
  lines = pre ++ l1 :: l2 :: post ->
  let run := fun fuel => read_all line_buf_size fs fuel path comment_prefix false
                           line_buf0 count buffer in
  let in_order := fun ls => contiguous ls = true /\ start_sorted ls = true in
  (chrom l2 = chrom l1 -> dec_value (start_txt l2) < dec_value (start_txt l1) ->
     eventually (fun r => exists from, r = Raised from sort_error) run /\
     (in_order (pre ++ [l1]) -> eventually (fun r => r = Raised CallLoad sort_error) run)) /\
  (chrom l2 <> chrom l1 -> chrom l2 ∈ chrom <$> pre -> in_order (pre ++ [l1]) ->
     eventually (fun r => r = Raised CallNextChr sort_error) run) /\
  (chrom l2 = chrom l1 -> dec_value (start_txt l2) = dec_value (start_txt l1) ->
   in_order lines ->
     eventually (fun r => exists b frs, r = Finished b frs /\
                                        resolve b <$> frs = fields <$> lines) run).
Proof.
  intros Hread Hfile Hcount Hroom Hlines run in_order.
  assert (Hclear : comments = [] -> lines = [] -> line_buf0 = "").
  { intros _ Hnil. rewrite Hlines in Hnil. destruct pre; discriminate. }
  destruct (read_all_by_scan line_buf_size final_nl comment_prefix comments lines fs path
              line_buf0 count buffer Hread Hfile Hclear Hcount Hroom) as [fuel0 Hrun].
  fold run in Hrun.
  assert (Hwf : Forall (fun l => wf_line l = true) lines).
  { destruct Hread as (_ & Hl & _). eapply Forall_impl; [exact Hl|].
    intros l Hl'. apply Hl'. }
  assert (Hwfp : Forall (fun l => wf_line l = true) (pre ++ [l1])).
  { rewrite Hlines in Hwf. apply Forall_app in Hwf as [Hp Hr].
    apply Forall_cons in Hr as [H1 _]. apply Forall_app. split; [exact Hp|].
    constructor; [exact H1|constructor]. }
  split; [|split].
  - intros Hc Hlt. split.
    + exists fuel0. intros fuel Hfuel. specialize (Hrun fuel Hfuel).
      pose proof (scan_descending_pair pre [] "" 0 l1 l2 post Hc Hlt) as Hbad.
      rewrite <- Hlines in Hbad.
      destruct (scan [] "" 0 lines); [contradiction| |]; cbn [expected] in Hrun; eauto.
    + intros [Hcont Hsort]. exists fuel0. intros fuel Hfuel. specialize (Hrun fuel Hfuel).
      rewrite Hlines in Hrun at 1.
      rewrite (scan_descending pre l1 l2 post Hcont Hsort Hwfp Hc Hlt) in Hrun.
      exact Hrun.
  - intros Hc Hin [Hcont Hsort]. exists fuel0. intros fuel Hfuel.
    specialize (Hrun fuel Hfuel). rewrite Hlines in Hrun at 1.
    rewrite (scan_reentry pre l1 l2 post Hcont Hsort Hwfp Hc Hin) in Hrun.
    exact Hrun.
  - intros _ _ [Hcont Hsort]. exists fuel0. intros fuel Hfuel.
    specialize (Hrun fuel Hfuel).
    rewrite (scan_in_order lines Hcont Hsort Hwf) in Hrun. exact Hrun.
Qed.

End ReaderClaims.


Lemma BedFragments_sort_errors_witness :
  BedInvariants.eventually
    (fun r => r = FragmentsConsumer.Raised FragmentsConsumer.CallLoad BedFragments.sort_error)
    (fun fuel => FragmentsConsumer.read_all 64 bed_files fuel "descending.tsv" "" false ""
                   2 (FragmentArray.make 2)) /\
  BedInvariants.eventually
    (fun r => r = FragmentsConsumer.Raised FragmentsConsumer.CallNextChr
                    BedFragments.sort_error)
    (fun fuel => FragmentsConsumer.read_all 64 bed_files fuel "reentry.tsv" "" false ""
                   2 (FragmentArray.make 2)) /\
  BedInvariants.eventually
    (fun r => exists b frs,
       r = FragmentsConsumer.Finished b frs /\
       FragmentsConsumer.resolve b <$> frs = BedText.fields <$> bed_in_order)
    (fun fuel => FragmentsConsumer.read_all 64 bed_files fuel "in_order.tsv" "#" false ""
                   2 (FragmentArray.make 2)).
Proof.
  assert (Hroom : BedInvariants.roomy_buffer (Z.to_nat 2) (FragmentArray.make 2))
    by (repeat split; vm_compute; lia).
  split; [|split].
  - destruct (BedFragments_sort_errors 64 true "" [] bed_descending bed_files
                "descending.tsv" "" 2 (FragmentArray.make 2)
                [] (BedText.mk_line "chr1" "5" "10" "a" "")
                (BedText.mk_line "chr1" "3" "12" "b" "") [])
      as (Hdesc & _ & _).
    + unfold BedInvariants.readable.
      split; [lia|].
      split; [repeat constructor; vm_compute; lia|].
      split; [constructor|].
      split; [reflexivity|].
      split; [reflexivity|].
      split; [intros Hne; contradiction|].
      split; vm_compute; reflexivity.
    + vm_compute. reflexivity.
    + lia.
    + exact Hroom.
    + reflexivity.
    + apply Hdesc; [reflexivity|vm_compute; reflexivity|].
      split; vm_compute; reflexivity.
  - destruct (BedFragments_sort_errors 64 true "" [] bed_reentry bed_files
                "reentry.tsv" "" 2 (FragmentArray.make 2)
                [BedText.mk_line "chr1" "5" "10" "a" ""]
                (BedText.mk_line "chr2" "1" "4" "b" "")
                (BedText.mk_line "chr1" "7" "9" "a" "") [])
      as (_ & Hre & _).
    + unfold BedInvariants.readable.
      split; [lia|].
      split; [repeat constructor; vm_compute; lia|].
      split; [constructor|].
      split; [reflexivity|].
      split; [reflexivity|].
      split; [intros Hne; contradiction|].
      split; vm_compute; reflexivity.
    + vm_compute. reflexivity.
    + lia.
    + exact Hroom.
    + reflexivity.
    + apply Hre; [discriminate|apply list_elem_of_singleton; reflexivity|].
      split; vm_compute; reflexivity.
  - destruct (BedFragments_sort_errors 64 false "#" ["# fragments"] bed_in_order bed_files
                "in_order.tsv" "" 2 (FragmentArray.make 2)
                [] (BedText.mk_line "chr1" "5" "10" "a" "")
                (BedText.mk_line "chr1" "5" "12" "b" "")
                [BedText.mk_line "chr1" "7" "9" "a" (BedText.tab +:+ "0");
                 BedText.mk_line "chr2" "1" "4" "c" ""])
      as (_ & _ & Htie).
    + unfold BedInvariants.readable, BedInvariants.fits.
      split; [lia|].
      split; [repeat constructor; vm_compute; lia|].
      split; [repeat constructor; try discriminate; vm_compute; try reflexivity; lia|].
      split; [discriminate|].
      split; [reflexivity|].
      split; [intros _ l [= <-]; vm_compute; reflexivity|].
      split; vm_compute; reflexivity.
    + vm_compute. reflexivity.
    + lia.
    + exact Hroom.
    + reflexivity.
    + apply Htie; [reflexivity|reflexivity|].
      split; vm_compute; reflexivity.
Defined.

(** With the end flag set when the reader is constructed, the first read
    past the end already empties the buffer, and the last line is not
    delivered. *)
Example end_flag_set_drops_last_line :
  match FragmentsConsumer.read_all 64 bed_files 50 "in_order.tsv" "#" true ""
          2 (FragmentArray.make 2) with
  | FragmentsConsumer.Finished b frs =>
      FragmentsConsumer.resolve b <$> frs = BedText.fields <$> take 3 bed_in_order
  | _ => False
  end.
Proof. vm_compute. reflexivity. Qed.

(** ** More on the reader: fields and lines that are not well-formed *)

Section Fields.
Import CStr Zlib BedText BedFragments BedInvariants.

Lemma nextField_decompose (c : string) :
  exists fld, c = fld +:+ nextField c /\
    all_chars (fun a => negb (bool_decide (a = TAB)) && negb (bool_decide (a = NL))) fld
      = true /\
    at_delimiter (nextField c).
Proof.
  induction c as [|a c IH].
  - exists "". split; [reflexivity|]. split; [reflexivity|left; reflexivity].
  - cbn [nextField].
    destruct (bool_decide (a = TAB)) eqn:Htab; [|destruct (bool_decide (a = NL)) eqn:Hnl].
    + exists "". split; [reflexivity|]. split; [reflexivity|].
      right. left. apply bool_decide_eq_true_1 in Htab. exact Htab.
    + exists "". split; [reflexivity|]. split; [reflexivity|].
      right. right. apply bool_decide_eq_true_1 in Hnl. exact Hnl.
    + destruct IH as (fld & Hc & Hfld & Hdel). exists (String a fld).
      split; [rewrite str_app_cons; f_equal; exact Hc|].
      split; [|exact Hdel]. cbn [all_chars orb]. rewrite Htab, Hnl, Hfld. reflexivity.
Qed.


Lemma validInt_field (fld rest : string) :
  all_chars (fun a => negb (bool_decide (a = TAB)) && negb (bool_decide (a = NL))) fld
    = true ->
  at_delimiter rest ->
  validInt (fld +:+ rest) = all_chars isdigit fld.
Proof.
  intros Hfld Hrest. induction fld as [|a fld IH].
  - rewrite str_app_nil_l. cbn [all_chars].
    destruct Hrest as [->|Hd]; [reflexivity|].
    destruct rest as [|x rest]; [reflexivity|]. cbn [deref] in Hd. cbn [validInt].
    destruct Hd as [->| ->]; reflexivity.
  - cbn [all_chars] in Hfld. apply andb_true_iff in Hfld as [Ha Hfld].
    rewrite str_app_cons. cbn [validInt all_chars].
    apply andb_true_iff in Ha as [Htab Hnl]. apply negb_true_iff in Htab, Hnl.
    rewrite Htab, Hnl. cbn [orb]. rewrite (IH Hfld).
    destruct (isdigit a); reflexivity.
Qed.


End Fields.

(** ** More on the reader: what parse_line refuses and what it lets through *)

Section ParseLineEdges.
Import CStr Zlib BedText BedFragments BedInvariants.

Lemma eol_at_delimiter (eol : string) : is_eol eol -> at_delimiter eol.
Proof. intros [->| ->]; [left|right; right]; reflexivity. Qed.

Lemma eol_not_tab (eol : string) : is_eol eol -> bool_decide (deref eol = TAB) = false.
Proof. intros [->| ->]; reflexivity. Qed.

Lemma tab_at_delimiter (r : string) : at_delimiter (String TAB r).
Proof. right. left. reflexivity. Qed.

Lemma ptr_eq_refl (p : string) : ptr_eq p p = true.
Proof. unfold ptr_eq. apply Nat.eqb_refl. Qed.

(** A field and what follows it: where [nextField] stops and whether the
    field is empty. *)
Lemma field_then (fld rest : string) :
  all_chars field_char fld = true -> at_delimiter rest ->
  nextField (fld +:+ rest) = rest /\
  ptr_eq rest (fld +:+ rest) = bool_decide (fld = "") /\
  ptr_eq (fld +:+ rest) rest = bool_decide (fld = "").
Proof.
  intros Hf Hr. split; [apply nextField_field; assumption|].
  split; [apply ptr_eq_app|]. rewrite ptr_eq_sym. apply ptr_eq_app.
Qed.

(** X3. [parse_line] throws "Invalid TSV file" on a line that has a first
    field but fewer than three tabs, and on a line whose start or end field
    is empty. *)
Theorem parse_line_rejects_short_lines (b : BedFragments.t) (s e c : Z)
    (f1 f2 f3 eol rest : string) :
  f1 <> "" -> all_chars field_char f1 = true ->
  all_chars field_char f2 = true -> all_chars field_char f3 = true ->
  is_eol eol ->
  line_buf b = f1 +:+ eol \/
  line_buf b = f1 +:+ String TAB (f2 +:+ eol) \/
  line_buf b = f1 +:+ String TAB (f2 +:+ String TAB (f3 +:+ eol)) \/
  line_buf b = f1 +:+ String TAB (String TAB rest) \/
  line_buf b = f1 +:+ String TAB (f2 +:+ String TAB (String TAB rest)) ->
  parse_line b s e c = Throw (runtime_error "Invalid TSV file").
Proof.
  intros Hne H1 H2 H3 Heol Hbuf.
  pose proof (eol_at_delimiter eol Heol) as Hd.
  pose proof (eol_not_tab eol Heol) as Hnt.
  assert (Hfirst : forall r, at_delimiter r ->
             nextField (f1 +:+ r) = r /\ ptr_eq r (f1 +:+ r) = false).
  { intros r Hr. destruct (field_then f1 r H1 Hr) as (Hn & Hp & _).
    rewrite Hp, (bool_decide_eq_false_2 _ Hne). auto. }
  unfold parse_line. destruct Hbuf as [Hbuf|[Hbuf|[Hbuf|[Hbuf|Hbuf]]]]; rewrite Hbuf.
  - destruct (Hfirst eol Hd) as [-> ->]. rewrite Hnt. reflexivity.
  - destruct (Hfirst _ (tab_at_delimiter (f2 +:+ eol))) as [-> ->].
    rewrite deref_tab. cbn [negb advance].
    destruct (field_then f2 eol H2 Hd) as (-> & _ & _).
    rewrite Hnt. cbn [negb]. rewrite orb_true_r. reflexivity.
  - destruct (Hfirst _ (tab_at_delimiter (f2 +:+ String TAB (f3 +:+ eol)))) as [-> ->].
    rewrite deref_tab. cbn [negb advance].
    destruct (field_then f2 _ H2 (tab_at_delimiter (f3 +:+ eol))) as (-> & _ & ->).
    rewrite deref_tab. cbn [negb advance].
    destruct (bool_decide (f2 = "")); [reflexivity|]. cbn [orb].
    destruct (field_then f3 eol H3 Hd) as (-> & _ & _).
    rewrite Hnt. cbn [negb]. rewrite orb_true_r. reflexivity.
  - destruct (Hfirst _ (tab_at_delimiter (String TAB rest))) as [-> ->].
    rewrite deref_tab. cbn [negb advance].
    rewrite (nextField_at_delimiter _ (tab_at_delimiter rest)), ptr_eq_refl. reflexivity.
  - destruct (Hfirst _ (tab_at_delimiter (f2 +:+ String TAB (String TAB rest)))) as [-> ->].
    rewrite deref_tab. cbn [negb advance].
    destruct (field_then f2 _ H2 (tab_at_delimiter (String TAB rest))) as (-> & _ & ->).
    rewrite deref_tab. cbn [negb advance].
    destruct (bool_decide (f2 = "")); [reflexivity|]. cbn [orb].
    rewrite (nextField_at_delimiter _ (tab_at_delimiter rest)), ptr_eq_refl. reflexivity.
Qed.

(** [atoi] of a field that starts with neither blank, sign nor digit. *)
Lemma atoi_no_number (a : ascii) (s : string) :
  isspace a = false -> isdigit a = false -> a <> "-"%char -> a <> "+"%char ->
  atoi (String a s) = 0.
Proof.
  intros Hsp Hdig Hminus Hplus. unfold atoi, strtol. cbn [skip_spaces]. rewrite Hsp.
  destruct (decide (a = "-"%char)) as [|_]; [contradiction|].
  destruct (decide (a = "+"%char)) as [|_]; [contradiction|].
  cbn [read_digits]. rewrite Hdig. reflexivity.
Qed.

(** On a line of four fields [parse_line] takes whatever [atoi] makes of
    the second and the third. *)
Lemma parse_line_fields (b : BedFragments.t) (chr s e bc tail : string) (x y z : Z) :
  chr <> "" -> all_chars field_char chr = true ->
  s <> "" -> all_chars field_char s = true ->
  e <> "" -> all_chars field_char e = true ->
  all_chars field_char bc = true -> at_delimiter tail ->
  line_buf b = chr +:+ String TAB (s +:+ String TAB (e +:+ String TAB (bc +:+ tail))) ->
  parse_line b x y z =
    Ok (chr,
        (to_uint32 (atoi (s +:+ String TAB (e +:+ String TAB (bc +:+ tail)))),
         to_uint32 (atoi (e +:+ String TAB (bc +:+ tail))),
         fst (emplace_cell bc b)),
        snd (emplace_cell bc b)).
Proof.
  intros Hc0 Hc Hs0 Hs He0 He Hb Htail Hbuf.
  unfold parse_line. rewrite Hbuf.
  set (r3 := bc +:+ tail).
  set (r2 := e +:+ String TAB r3).
  set (r1 := s +:+ String TAB r2).
  assert (Hn0 : nextField (chr +:+ String TAB r1) = String TAB r1)
    by (apply field_then; [exact Hc|apply tab_at_delimiter]).
  assert (Hn1 : nextField r1 = String TAB r2)
    by (apply field_then; [exact Hs|apply tab_at_delimiter]).
  assert (Hn2 : nextField r2 = String TAB r3)
    by (apply field_then; [exact He|apply tab_at_delimiter]).
  assert (Hn3 : nextField r3 = tail) by (apply field_then; assumption).
  assert (Hp1 : ptr_eq r1 (String TAB r2) = false).
  { unfold r1. rewrite ptr_eq_sym, ptr_eq_app. apply bool_decide_eq_false_2, Hs0. }
  assert (Hp2 : ptr_eq r2 (String TAB r3) = false).
  { unfold r2. rewrite ptr_eq_sym, ptr_eq_app. apply bool_decide_eq_false_2, He0. }
  assert (Hname : string_of r3 (ptr_diff tail r3) = bc).
  { unfold r3. rewrite ptr_diff_app. apply string_of_app. }
  cbv zeta. rewrite Hn0.
  rewrite ptr_diff_app, string_of_app, ptr_eq_app.
  rewrite (bool_decide_eq_false_2 _ Hc0).
  rewrite (deref_tab r1). cbn [advance negb].
  rewrite !Hn1, Hp1, (deref_tab r2). cbn [advance negb orb].
  rewrite !Hn2, Hp2, (deref_tab r3). cbn [advance negb orb].
  rewrite !Hn3, Hname.
  destruct (emplace_cell bc b) as [id b']. reflexivity.
Qed.

(** X4. [parse_line] does not check that the start field is a number: a
    start that begins with neither blank, sign nor digit is taken as 0, and
    the line goes through like any other. *)
Theorem parse_line_takes_a_word_for_zero (b : BedFragments.t) (chr bc e eol : string)
    (a : ascii) (s : string) (x y z : Z) :
  chr <> "" -> all_chars field_char chr = true ->
  all_chars field_char (String a s) = true ->
  isspace a = false -> isdigit a = false -> a <> "-"%char -> a <> "+"%char ->
  e <> "" -> all_chars isdigit e = true -> dec_value e < 2 ^ 32 ->
  all_chars field_char bc = true -> is_eol eol ->
  line_buf b = chr +:+ tab +:+ String a s +:+ tab +:+ e +:+ tab +:+ bc +:+ eol ->
  parse_line b x y z =
    Ok (chr, (0, dec_value e, fst (emplace_cell bc b)), snd (emplace_cell bc b)).
Proof.
  intros Hc0 Hc Hs Hsp Hdig Hminus Hplus He0 He Hev Hb Heol Hbuf.
  assert (Hshape : line_buf b = chr +:+ String TAB (String a s +:+ String TAB
                                  (e +:+ String TAB (bc +:+ eol)))).
  { rewrite Hbuf. reflexivity. }
  rewrite (parse_line_fields b chr (String a s) e bc eol x y z Hc0 Hc ltac:(discriminate) Hs
             He0 (all_chars_weaken _ _ _ isdigit_field_char He) Hb
             (eol_at_delimiter eol Heol) Hshape).
  rewrite str_app_cons, (atoi_no_number a _ Hsp Hdig Hminus Hplus).
  rewrite (atoi_digits e (String TAB (bc +:+ eol)) He0 He Hev eq_refl).
  reflexivity.
Qed.

End ParseLineEdges.

Lemma parse_line_rejects_short_lines_witness :
  BedFragments.parse_line (reader_on ("chr1" +:+ BedText.tab +:+ "5" +:+ BedText.nl)) 0 0 0
  = Throw (runtime_error "Invalid TSV file").
Proof.
  apply (parse_line_rejects_short_lines _ 0 0 0 "chr1" "5" "" BedText.nl "");
    [discriminate|reflexivity|reflexivity|reflexivity|right; reflexivity|].
  right. left. reflexivity.
Defined.

Lemma parse_line_takes_a_word_for_zero_witness :
  BedFragments.parse_line
    (reader_on ("chr1" +:+ BedText.tab +:+ "start" +:+ BedText.tab +:+ "12" +:+ BedText.tab
                +:+ "a" +:+ BedText.nl)) 7 7 7
  = Ok ("chr1", (0, 12, 0),
        BedFragments.with_cells ["a"] {[ "a" := 0 ]} 1
          (reader_on ("chr1" +:+ BedText.tab +:+ "start" +:+ BedText.tab +:+ "12"
                      +:+ BedText.tab +:+ "a" +:+ BedText.nl))).
Proof.
  apply (parse_line_takes_a_word_for_zero
           (reader_on ("chr1" +:+ BedText.tab +:+ "start" +:+ BedText.tab +:+ "12"
                       +:+ BedText.tab +:+ "a" +:+ BedText.nl))
           "chr1" "a" "12" BedText.nl "s"%char "tart" 7 7 7);
    try reflexivity; try discriminate.
  right. reflexivity.
Defined.

(** ** More on the reader: what its operations keep *)

Section Keeps.
Import CStr Zlib BedText BedFragments BedInvariants.

Variable line_buf_size : nat.

Lemma keeps_refl (b : BedFragments.t) : keeps b b.
Proof. split; [reflexivity|]. split; [reflexivity|]. split; [auto|apply extends_refl]. Qed.

Lemma keeps_trans (b1 b2 b3 : BedFragments.t) : keeps b1 b2 -> keeps b2 b3 -> keeps b1 b3.
Proof.
  intros (Hp & Hc & He & Hx) (Hp' & Hc' & He' & Hx').
  split; [congruence|]. split; [congruence|]. split; [auto|].
  apply (extends_trans b1 b2 b3); assumption.
Qed.

(** [read_line] touches the file, the buffer and the end flag only, and
    does not clear the flag. *)
Lemma read_line_cursor (b b' : BedFragments.t) (r : bool) :
  read_line line_buf_size b = Ok (r, b') ->
  exists x buf e, b' = set_cursor x buf e b /\ (eof b = true -> e = true).
Proof.
  unfold read_line. intros Hread.
  destruct (f b) as [g|]; [destruct (gzgets g line_buf_size) as [[l|] g']|];
    cbn [eof with_f] in Hread.
  - injection Hread as _ <-. eexists _, _, _. split; [reflexivity|auto].
  - destruct (eof b) eqn:Heof.
    + injection Hread as _ <-. eexists _, _, _. split; [reflexivity|auto].
    + destruct (negb (from_option gzeof false (Some g'))); [discriminate|].
      injection Hread as _ <-. eexists _, _, _. split; [reflexivity|auto].
  - destruct (eof b) eqn:Heof.
    + injection Hread as _ <-. eexists _, _, _. split; [reflexivity|auto].
    + discriminate.
Qed.

Lemma set_cursor_keeps (x : option gzFile) (buf : string) (e : bool) (b : BedFragments.t) :
  (eof b = true -> e = true) -> keeps b (set_cursor x buf e b).
Proof.
  intros He. split; [reflexivity|]. split; [reflexivity|]. split; [exact He|].
  split; reflexivity.
Qed.

Lemma read_line_keeps (b b' : BedFragments.t) (r : bool) :
  read_line line_buf_size b = Ok (r, b') -> keeps b b'.
Proof.
  intros (x & buf & e & -> & He)%read_line_cursor. apply set_cursor_keeps, He.
Qed.

(** [emplace_cell] touches the cell table only, and only adds to it. *)
Lemma emplace_cell_cells (name : string) (b : BedFragments.t) :
  exists names lookup next,
    snd (emplace_cell name b) = with_cells names lookup next b /\
    cell_names b `prefix_of` names.
Proof.
  unfold emplace_cell. destruct (cell_id_lookup b !! name) as [id|].
  - exists (cell_names b), (cell_id_lookup b), (next_cell_id b).
    split; [destruct b; reflexivity|reflexivity].
  - eexists _, _, _. split; [reflexivity|]. apply prefix_app_r. reflexivity.
Qed.

Lemma parse_line_cells (b b' : BedFragments.t) (s e c : Z) (chr : string) (out : Z * Z * Z) :
  parse_line b s e c = Ok (chr, out, b') ->
  exists names lookup next,
    b' = with_cells names lookup next b /\ cell_names b `prefix_of` names.
Proof.
  assert (Hself : exists names lookup next,
             b = with_cells names lookup next b /\ cell_names b `prefix_of` names).
  { exists (cell_names b), (cell_id_lookup b), (next_cell_id b).
    split; [destruct b; reflexivity|reflexivity]. }
  unfold parse_line.
  destruct (ptr_eq _ _); [intros [= _ _ <-]; exact Hself|].
  destruct (negb _); [discriminate|].
  destruct (_ || _); [discriminate|].
  destruct (_ || _); [discriminate|].
  match goal with |- context [emplace_cell ?n b] =>
    destruct (emplace_cell_cells n b) as (names & lookup & next & Hb & Hpre);
    destruct (emplace_cell n b) as [id b1] end.
  cbn [snd] in Hb. intros [= _ _ <-]. subst b1. eauto.
Qed.

Lemma with_cells_keeps (names : list string) (lookup : gmap string Z) (next : Z)
    (b : BedFragments.t) :
  cell_names b `prefix_of` names -> keeps b (with_cells names lookup next b).
Proof.
  intros Hpre. split; [reflexivity|]. split; [reflexivity|]. split; [auto|].
  split; [exact Hpre|reflexivity].
Qed.

Lemma parse_line_keeps (b b' : BedFragments.t) (s e c : Z) (chr : string) (out : Z * Z * Z) :
  parse_line b s e c = Ok (chr, out, b') -> keeps b b'.
Proof.
  intros (names & lookup & next & -> & Hpre)%parse_line_cells.
  apply with_cells_keeps, Hpre.
Qed.

Lemma with_last_start_keeps (x : Z) (b : BedFragments.t) : keeps b (with_last_start x b).
Proof.
  split; [reflexivity|]. split; [reflexivity|]. split; [auto|split; reflexivity].
Qed.

Lemma with_current_chr_keeps (x : string) (b : BedFragments.t) :
  keeps b (with_current_chr x b).
Proof.
  split; [reflexivity|]. split; [reflexivity|]. split; [auto|split; reflexivity].
Qed.

Lemma load_from_keeps (k : nat) : forall (i : nat) (b : BedFragments.t)
    (buffer : FragmentArray.t) (n : nat) (b' : BedFragments.t) (buffer' : FragmentArray.t),
  load_from line_buf_size k i b buffer = Ok (n, b', buffer') -> keeps b b'.
Proof.
  induction k as [|k IH]; intros i b buffer n b' buffer' Hload.
  - injection Hload as _ <- _. apply keeps_refl.
  - cbn [load_from] in Hload.
    destruct (parse_line b _ _ _) as [[[chr [[s e] c]] b1]| |] eqn:Hparse; [|discriminate..].
    cbn [bind] in Hload. pose proof (parse_line_keeps _ _ _ _ _ _ _ Hparse) as H1.
    destruct (_ || _).
    { injection Hload as _ <- _. exact H1. }
    destruct (bool_decide _); [discriminate|].
    destruct (read_line _ _) as [[more b2]| |] eqn:Hread; [|discriminate..].
    cbn [bind] in Hload.
    pose proof (read_line_keeps _ _ _ Hread) as H2.
    assert (H12 : keeps b b2).
    { eapply keeps_trans; [exact H1|]. eapply keeps_trans; [|exact H2].
      apply with_last_start_keeps. }
    destruct (negb more).
    + injection Hload as _ <- _. exact H12.
    + eapply keeps_trans; [exact H12|]. eapply IH, Hload.
Qed.

Lemma nextChr_loop_keeps (fuel : nat) : forall (b : BedFragments.t) (dummy : Z * Z * Z)
    (r : bool) (b' : BedFragments.t),
  nextChr_loop line_buf_size fuel b dummy = Ok (r, b') -> keeps b b'.
Proof.
  induction fuel as [|fuel IH]; intros b [[ds de] dc] r b' Hloop; [discriminate|].
  cbn [nextChr_loop] in Hloop.
  destruct (parse_line b _ _ _) as [[[chr [[s e] c]] b1]| |] eqn:Hparse; [|discriminate..].
  cbn [bind] in Hloop. pose proof (parse_line_keeps _ _ _ _ _ _ _ Hparse) as H1.
  destruct (_ || _).
  { injection Hloop as _ <-. eapply keeps_trans; [exact H1|].
    apply with_current_chr_keeps. }
  destruct (bool_decide _); [discriminate|].
  destruct (read_line _ _) as [[more b2]| |] eqn:Hread; [|discriminate..].
  cbn [bind] in Hloop.
  pose proof (read_line_keeps _ _ _ Hread) as H2.
  assert (H12 : keeps b b2).
  { eapply keeps_trans; [exact H1|]. eapply keeps_trans; [|exact H2].
    apply with_last_start_keeps. }
  destruct (negb more).
  - injection Hloop as _ <-. exact H12.
  - eapply keeps_trans; [exact H12|]. eapply IH, Hloop.
Qed.

Lemma skip_comments_keeps (fuel : nat) : forall (b b' : BedFragments.t),
  skip_comments line_buf_size fuel b = Ok b' -> keeps b b'.
Proof.
  induction fuel as [|fuel IH]; intros b b' Hskip; [discriminate|].
  cbn [skip_comments] in Hskip.
  destruct (bool_decide _); [injection Hskip as <-; apply keeps_refl|].
  destruct (negb _); [injection Hskip as <-; apply keeps_refl|].
  destruct (read_line _ _) as [[more b1]| |] eqn:Hread; [|discriminate..].
  cbn [bind] in Hskip. eapply keeps_trans; [apply (read_line_keeps _ _ _ Hread)|].
  apply IH, Hskip.
Qed.

(** X5. Whatever the reader is asked to do, [restart()] included, it keeps
    its path and comment prefix, never clears the end flag once that is
    set, and only adds names at the end of its two tables: ids handed out
    stay valid. *)
Theorem reader_operations_keep (b b' : BedFragments.t) :
  (forall r, read_line line_buf_size b = Ok (r, b') -> keeps b b') /\
  (forall s e c chr out, parse_line b s e c = Ok (chr, out, b') -> keeps b b') /\
  (forall fuel r, nextChr line_buf_size fuel b = Ok (r, b') -> keeps b b') /\
  (forall count buffer n buffer',
     load line_buf_size count b buffer = Ok (n, b', buffer') -> keeps b b') /\
  (forall fs fuel, restart line_buf_size fs fuel b = Ok b' -> keeps b b').
Proof.
  split; [intros r; apply read_line_keeps|].
  split; [intros s e c chr out; apply parse_line_keeps|].
  split; [|split].
  - intros fuel r. unfold nextChr.
    destruct (_ || _); [intros [= _ <-]; apply keeps_refl|].
    destruct (nextChr_loop _ _ _ _) as [[broke b1]| |] eqn:Hloop; [|discriminate..].
    cbn [bind]. pose proof (nextChr_loop_keeps _ _ _ _ _ Hloop) as H1.
    destruct (negb broke); [intros [= _ <-]; exact H1|].
    destruct (chr_lookup b1 !! current_chr b1); [discriminate|].
    intros [= _ <-]. eapply keeps_trans; [exact H1|].
    split; [reflexivity|]. split; [reflexivity|]. split; [auto|].
    split; [reflexivity|]. cbn. apply prefix_app_r. reflexivity.
  - intros count buffer n buffer'. unfold load.
    destruct (load_from _ _ _ _ _) as [[[i b1] buffer1]| |] eqn:Hload; [|discriminate..].
    cbn [bind]. intros [= _ <- _]. apply (load_from_keeps _ _ _ _ _ _ _ Hload).
  - intros fs fuel. unfold restart. destruct (gzopen fs (path b)) as [g|]; [|discriminate].
    destruct (read_line _ _) as [[more b1]| |] eqn:Hread; [|discriminate..].
    cbn [bind]. pose proof (read_line_keeps _ _ _ Hread) as H1.
    assert (H01 : keeps b b1).
    { eapply keeps_trans; [|exact H1].
      split; [reflexivity|]. split; [reflexivity|]. split; [auto|split; reflexivity]. }
    destruct (_ =? _)%nat; [intros [= <-]; exact H01|].
    destruct (skip_comments _ _ _) as [b2| |] eqn:Hskip; [|discriminate..].
    cbn [bind]. intros [= <-]. eapply keeps_trans; [exact H01|].
    eapply keeps_trans; [apply (skip_comments_keeps _ _ _ Hskip)|].
    apply with_current_chr_keeps.
Qed.

End Keeps.

(** ** More on the reader: the caller's buffer, the end of the data, restart *)

Section LoadFrame.
Import CStr Zlib BedText BedFragments BedInvariants.

Variable line_buf_size : nat.

Lemma written_other (i j : nat) (s e c : Z) (buffer : FragmentArray.t) :
  j <> i -> entry_raw (written i s e c buffer) j = entry_raw buffer j.
Proof.
  intros Hj. unfold entry_raw, written. cbn.
  rewrite !list_lookup_total_insert_ne by auto. reflexivity.
Qed.

Lemma written_lengths (i : nat) (s e c : Z) (buffer : FragmentArray.t) :
  length (FragmentArray.start (written i s e c buffer)) = length (FragmentArray.start buffer) /\
  length (FragmentArray.end_ (written i s e c buffer)) = length (FragmentArray.end_ buffer) /\
  length (FragmentArray.cell (written i s e c buffer)) = length (FragmentArray.cell buffer).
Proof. unfold written. cbn. rewrite !length_insert. auto. Qed.

(** The chromosome side of the reader, which [load] leaves alone. *)
Lemma parse_line_chrs (b b' : BedFragments.t) (s e c : Z) (chr : string) (out : Z * Z * Z) :
  parse_line b s e c = Ok (chr, out, b') ->
  chr_names b' = chr_names b /\ chr_lookup b' = chr_lookup b /\
  next_chr_id b' = next_chr_id b /\ current_chr b' = current_chr b.
Proof. intros (names & lookup & next & -> & _)%parse_line_cells. auto. Qed.

Lemma read_line_chrs (b b' : BedFragments.t) (r : bool) :
  read_line line_buf_size b = Ok (r, b') ->
  chr_names b' = chr_names b /\ chr_lookup b' = chr_lookup b /\
  next_chr_id b' = next_chr_id b /\ current_chr b' = current_chr b.
Proof. intros (x & buf & e & -> & _)%read_line_cursor. auto. Qed.

Lemma load_from_frame (k : nat) : forall (i : nat) (b : BedFragments.t)
    (buffer : FragmentArray.t) (n : nat) (b' : BedFragments.t) (buffer' : FragmentArray.t),
  load_from line_buf_size k i b buffer = Ok (n, b', buffer') ->
  (i <= n <= i + k)%nat /\
  (length (FragmentArray.start buffer') = length (FragmentArray.start buffer) /\
   length (FragmentArray.end_ buffer') = length (FragmentArray.end_ buffer) /\
   length (FragmentArray.cell buffer') = length (FragmentArray.cell buffer)) /\
  (forall j, (j < i \/ i + k <= j)%nat -> entry_raw buffer' j = entry_raw buffer j) /\
  (chr_names b' = chr_names b /\ chr_lookup b' = chr_lookup b /\
   next_chr_id b' = next_chr_id b /\ current_chr b' = current_chr b).
Proof.
  induction k as [|k IH]; intros i b buffer n b' buffer' Hload.
  - injection Hload as <- <- <-. split; [lia|]. split; [auto|].
    split; [intros; reflexivity|auto].
  - cbn [load_from] in Hload.
    destruct (parse_line b _ _ _) as [[[chr [[s e] c]] b1]| |] eqn:Hparse; [|discriminate..].
    cbn [bind] in Hload.
    pose proof (parse_line_chrs _ _ _ _ _ _ _ Hparse) as (Hc1 & Hc2 & Hc3 & Hc4).
    change (FragmentArray.mk (<[i:=s]> (FragmentArray.start buffer))
              (<[i:=e]> (FragmentArray.end_ buffer))
              (<[i:=c]> (FragmentArray.cell buffer)))
      with (written i s e c buffer) in Hload.
    pose proof (written_lengths i s e c buffer) as Hlen.
    destruct (_ || _).
    { injection Hload as <- <- <-. split; [lia|]. split; [exact Hlen|].
      split; [|auto]. intros j Hj. apply written_other. lia. }
    destruct (bool_decide _); [discriminate|].
    destruct (read_line _ _) as [[more b2]| |] eqn:Hread; [|discriminate..].
    cbn [bind] in Hload.
    pose proof (read_line_chrs _ _ _ Hread) as (Hr1 & Hr2 & Hr3 & Hr4).
    cbn in Hr1, Hr2, Hr3, Hr4.
    destruct (negb more).
    + injection Hload as <- <- <-. split; [lia|]. split; [exact Hlen|].
      split; [|repeat split; congruence]. intros j Hj. apply written_other. lia.
    + destruct (IH _ _ _ _ _ _ Hload) as (Hn & Hlen' & Hsame & Hchr).
      split; [lia|].
      split; [destruct Hlen as (A1 & A2 & A3), Hlen' as (B1 & B2 & B3);
              rewrite B1, B2, B3; auto|].
      split.
      * intros j Hj. rewrite Hsame by lia. apply written_other. lia.
      * destruct Hchr as (H1 & H2 & H3 & H4). repeat split; congruence.
Qed.

(** X7. A call of [load(count, buffer)] that returns, returns a number
    from 0 to [count]; the arrays keep their sizes and their entries from
    [count] on; and the chromosome table, the next chromosome id and the
    current chromosome are as before: only [nextChr()] moves among
    chromosomes. *)
Theorem load_frame (count : Z) (b b' : BedFragments.t) (buffer buffer' : FragmentArray.t)
    (n : Z) :
  0 <= count < 2 ^ 31 ->
  roomy_buffer (Z.to_nat count) buffer ->
  load line_buf_size count b buffer = Ok (n, b', buffer') ->
  0 <= n <= count /\
  roomy_buffer (Z.to_nat count) buffer' /\
  length (FragmentArray.start buffer') = length (FragmentArray.start buffer) /\
  length (FragmentArray.end_ buffer') = length (FragmentArray.end_ buffer) /\
  length (FragmentArray.cell buffer') = length (FragmentArray.cell buffer) /\
  (forall j, (Z.to_nat count <= j)%nat -> entry_raw buffer' j = entry_raw buffer j) /\
  chr_names b' = chr_names b /\ chr_lookup b' = chr_lookup b /\
  next_chr_id b' = next_chr_id b /\ current_chr b' = current_chr b.
Proof.
  intros Hcount Hroom. unfold load.
  destruct (load_from _ _ _ _ _) as [[[i b1] buffer1]| |] eqn:Hload; [|discriminate..].
  cbn [bind]. intros [= <- <- <-].
  destruct (load_from_frame _ _ _ _ _ _ _ Hload) as (Hn & (L1 & L2 & L3) & Hsame & Hchr).
  split.
  { unfold to_int32. rewrite Z.mod_small by lia. lia. }
  split.
  { destruct Hroom as (R1 & R2 & R3). unfold roomy_buffer. rewrite L1, L2, L3. auto. }
  split; [exact L1|]. split; [exact L2|]. split; [exact L3|].
  split; [|exact Hchr]. intros j Hj. apply Hsame. lia.
Qed.

Lemma insert_same (l : list Z) (i : nat) : <[i := l !!! i]> l = l.
Proof.
  destruct (l !! i) as [x|] eqn:Hl.
  - rewrite (list_lookup_total_correct _ _ _ Hl). apply list_insert_id, Hl.
  - apply list_insert_ge. apply lookup_ge_None, Hl.
Qed.

Lemma parse_line_blank (b : BedFragments.t) (s e c : Z) :
  line_buf b = "" \/ deref (line_buf b) = NL ->
  parse_line b s e c = Ok ("", (s, e, c), b).
Proof.
  intros Hbuf. unfold parse_line.
  assert (Hd : at_delimiter (line_buf b)) by (destruct Hbuf; [left|right; right]; assumption).
  rewrite (nextField_at_delimiter _ Hd), ptr_eq_refl.
  unfold ptr_diff. rewrite Nat.sub_diag.
  destruct (line_buf b); reflexivity.
Qed.

(** X8. With the buffer emptied at the end of the file, or holding an
    empty line, [nextChr()] returns false and [load()] returns 0, and both
    leave the reader and the caller's arrays as they are, however often
    they are called: nothing after an empty line is ever read. *)
Theorem empty_line_ends_the_data (count : Z) (b : BedFragments.t)
    (buffer : FragmentArray.t) :
  line_buf b = "" \/ deref (line_buf b) = NL ->
  (forall fuel, nextChr line_buf_size fuel b = Ok (false, b)) /\
  load line_buf_size count b buffer = Ok (0, b, buffer).
Proof.
  intros Hbuf. split.
  - intros fuel. unfold nextChr.
    destruct Hbuf as [-> | ->]; [reflexivity|].
    rewrite (bool_decide_eq_true_2 (NL = NL) eq_refl), orb_true_r. reflexivity.
  - unfold load. destruct (Z.to_nat count) as [|k]; [reflexivity|].
    cbn [load_from]. rewrite (parse_line_blank b _ _ _ Hbuf). cbn [bind].
    rewrite !insert_same. rewrite bool_decide_eq_true_2 by reflexivity. cbn [orb bind].
    destruct buffer; reflexivity.
Qed.

End LoadFrame.

(** ** More on the reader: reading a second time *)

Section Restart.
Import CStr Zlib BedText BedFragments BedInvariants.

Variable line_buf_size : nat.
Variable final_nl : bool.

(** [restart()] on a file that starts with a data line leaves that line in
    the buffer, and the tables as they were. *)
Lemma restart_first_line (fs : filesystem) (b : BedFragments.t) (l : bed_line)
    (rest : list string) (fuel : nat) :
  wf_line l = true -> fits line_buf_size (render l) ->
  fs !! path b = Some (text_of (render l :: rest) final_nl) ->
  all_chars line_char (comment b) = true ->
  (comment b <> "" -> String.prefix (comment b) (render l) = false) ->
  exists x eol,
    is_eol eol /\
    restart line_buf_size fs (S fuel) b =
      Ok (if (String.length (comment b) =? 0)%nat
          then set_cursor x (render l +:+ eol) (eof b) b
          else with_current_chr "" (set_cursor x (render l +:+ eol) (eof b) b)).
Proof.
  intros Hwl Hfit Hfs Hchars Hpre.
  assert (Hsize : (2 <= line_buf_size)%nat) by (destruct Hfit as (_ & _ & Hlen); lia).
  unfold restart, gzopen. rewrite Hfs.
  destruct (gzgets_line line_buf_size Hsize final_nl (render l) rest false Hfit)
    as (eol & g' & Hgets & Heol & _).
  assert (Hread : read_line line_buf_size
                    (with_f (Some (mk_gzFile (text_of (render l :: rest) final_nl) false)) b)
                  = Ok (true, set_cursor (Some g') (render l +:+ eol) (eof b) b)).
  { unfold read_line. cbn [f with_f]. rewrite Hgets.
    rewrite c_str_line by (auto; apply Hfit). reflexivity. }
  rewrite Hread. cbn [bind].
  exists (Some g'), eol. split; [exact Heol|].
  change (comment (set_cursor (Some g') (render l +:+ eol) (eof b) b)) with (comment b).
  destruct (String.length (comment b) =? 0)%nat eqn:Hlen; [reflexivity|].
  cbn [skip_comments].
  change (line_buf (set_cursor (Some g') (render l +:+ eol) (eof b) b))
    with (render l +:+ eol).
  change (comment (set_cursor (Some g') (render l +:+ eol) (eof b) b)) with (comment b).
  rewrite (bool_decide_eq_false_2 _ (first_char_fits _ (render l) eol Hfit)).
  assert (Hno : String.prefix (comment b) (render l +:+ eol) = false).
  { destruct (String.prefix (comment b) (render l +:+ eol)) eqn:Hp; [|reflexivity].
    apply prefix_within_line in Hp; [|assumption..].
    rewrite Hpre in Hp; [discriminate|].
    intros Hc. rewrite Hc in Hlen. discriminate. }
  rewrite Hno. reflexivity.
Qed.

(** [nextChr()] on a line of a chromosome that is in the table and is not
    the current one. *)
Lemma nextChr_known_chromosome (b : BedFragments.t) (l : bed_line) (eol : string)
    (id : Z) (fuel : nat) :
  wf_line l = true -> is_eol eol -> line_buf b = render l +:+ eol ->
  chr_lookup b !! chrom l = Some id -> current_chr b <> chrom l ->
  nextChr line_buf_size (S fuel) b = Throw sort_error.
Proof.
  intros Hwl Heol Hbuf Hid Hcur.
  destruct (first_char_of_line l eol Hwl) as [Hnul Hnl].
  assert (Hc0 : chrom l <> "") by (apply wf_line_spec in Hwl; tauto).
  unfold nextChr. rewrite Hbuf.
  rewrite (bool_decide_eq_false_2 _ Hnul), (bool_decide_eq_false_2 _ Hnl). cbn [orb].
  cbn [nextChr_loop]. rewrite (parse_line_wf b l eol _ _ _ Hwl Heol Hbuf). cbn [bind].
  destruct (emplace_cell_cells (barcode l) b) as (names & lookup & next & Hb1 & _).
  rewrite Hb1. change (current_chr (with_cells names lookup next b)) with (current_chr b).
  rewrite (bool_decide_eq_false_2 _ Hc0).
  rewrite (bool_decide_eq_false_2 (chrom l = current_chr b)) by congruence.
  cbn [orb negb bind].
  change (chr_lookup (with_current_chr (chrom l) (with_cells names lookup next b)))
    with (chr_lookup b).
  change (current_chr (with_current_chr (chrom l) (with_cells names lookup next b)))
    with (chrom l).
  rewrite Hid. reflexivity.
Qed.

(** [nextChr()] on a line of the current chromosome that starts below the
    last start. *)
Lemma nextChr_below_last_start (b : BedFragments.t) (l : bed_line) (eol : string)
    (fuel : nat) :
  wf_line l = true -> is_eol eol -> line_buf b = render l +:+ eol ->
  current_chr b = chrom l -> dec_value (start_txt l) < last_start b ->
  nextChr line_buf_size (S fuel) b = Throw sort_error.
Proof.
  intros Hwl Heol Hbuf Hcur Hlt.
  destruct (first_char_of_line l eol Hwl) as [Hnul Hnl].
  assert (Hc0 : chrom l <> "") by (apply wf_line_spec in Hwl; tauto).
  unfold nextChr. rewrite Hbuf.
  rewrite (bool_decide_eq_false_2 _ Hnul), (bool_decide_eq_false_2 _ Hnl). cbn [orb].
  cbn [nextChr_loop]. rewrite (parse_line_wf b l eol _ _ _ Hwl Heol Hbuf). cbn [bind].
  destruct (emplace_cell_cells (barcode l) b) as (names & lookup & next & Hb1 & _).
  rewrite Hb1. change (current_chr (with_cells names lookup next b)) with (current_chr b).
  change (last_start (with_cells names lookup next b)) with (last_start b).
  rewrite (bool_decide_eq_false_2 _ Hc0).
  rewrite (bool_decide_eq_true_2 (chrom l = current_chr b)) by congruence.
  cbn [orb negb]. rewrite (bool_decide_eq_true_2 _ Hlt). reflexivity.
Qed.

(** X6. A reader cannot be taken through its file a second time:
    [restart()] reopens the file but keeps the chromosome table, so when
    the first line is of a chromosome met before, the [nextChr()] after it
    throws the sort error. (With an empty comment prefix [restart()] keeps
    the current chromosome and the last start as well; if the first line is
    of that chromosome the error needs its start to be below the last
    start.) *)
Theorem restart_then_nextChr_throws (fs : filesystem) (b : BedFragments.t) (l : bed_line)
    (rest : list string) (id : Z) (fuel : nat) :
  wf_line l = true -> fits line_buf_size (render l) ->
  fs !! path b = Some (text_of (render l :: rest) final_nl) ->
  all_chars line_char (comment b) = true ->
  (comment b <> "" -> String.prefix (comment b) (render l) = false) ->
  chr_lookup b !! chrom l = Some id ->
  (comment b = "" -> current_chr b = chrom l -> dec_value (start_txt l) < last_start b) ->
  exists b', restart line_buf_size fs (S fuel) b = Ok b' /\
             nextChr line_buf_size (S fuel) b' = Throw sort_error.
Proof.
  intros Hwl Hfit Hfs Hchars Hpre Hid Hsame.
  destruct (restart_first_line fs b l rest fuel Hwl Hfit Hfs Hchars Hpre)
    as (x & eol & Heol & Hrestart).
  assert (Hc0 : chrom l <> "") by (apply wf_line_spec in Hwl; tauto).
  eexists. split; [exact Hrestart|].
  destruct (String.length (comment b) =? 0)%nat eqn:Hlen.
  - assert (Hc : comment b = "") by (destruct (comment b); [reflexivity|discriminate]).
    destruct (decide (current_chr b = chrom l)) as [Hcur|Hcur].
    + apply (nextChr_below_last_start _ l eol); auto.
    + apply (nextChr_known_chromosome _ l eol id); auto.
  - apply (nextChr_known_chromosome _ l eol id); auto.
Qed.

End Restart.

Lemma restart_then_nextChr_throws_witness :
  exists b', BedFragments.restart 64 two_chr_files 1 two_chr_reader = Ok b' /\
             BedFragments.nextChr 64 1 b' = Throw BedFragments.sort_error.
Proof.
  apply (restart_then_nextChr_throws 64 true two_chr_files two_chr_reader
           (BedText.mk_line "chr1" "5" "10" "a" "")
           (BedText.render <$> [BedText.mk_line "chr1" "5" "12" "b" "";
                                BedText.mk_line "chr1" "7" "9" "a" (BedText.tab +:+ "0");
                                BedText.mk_line "chr2" "1" "4" "c" ""]) 0 0).
  - reflexivity.
  - split; [discriminate|]. split; [reflexivity|]. vm_compute. lia.
  - vm_compute. reflexivity.
  - reflexivity.
  - intros Hne. contradiction.
  - vm_compute. reflexivity.
  - intros _ Hcur. discriminate.
Defined.

Lemma load_frame_witness :
  exists b' buffer',
    BedFragments.load 64 2 chr1_reader (FragmentArray.make 3) = Ok (2, b', buffer') /\
    BedInvariants.entry_raw buffer' 2 = (0, 0, 0) /\
    BedFragments.chr_names b' = ["chr1"] /\
    BedFragments.current_chr b' = "chr1".
Proof.
  eexists _, _. split; [vm_compute; reflexivity|].
  match goal with
  | |- BedInvariants.entry_raw ?buf 2 = _ /\ BedFragments.chr_names ?b = _ /\ _ =>
      destruct (load_frame 64 2 chr1_reader b (FragmentArray.make 3) buf 2)
        as (_ & _ & _ & _ & _ & Hsame & Hnames & _ & _ & Hcur)
  end.
  - lia.
  - repeat split; vm_compute; lia.
  - vm_compute. reflexivity.
  - split; [apply (Hsame 2%nat); vm_compute; lia|]. split; [exact Hnames|exact Hcur].
Defined.

Lemma empty_line_ends_the_data_witness :
  (forall fuel, BedFragments.nextChr 64 fuel (reader_on BedText.nl)
                = Ok (false, reader_on BedText.nl)) /\
  BedFragments.load 64 2 (reader_on BedText.nl) (FragmentArray.make 2)
    = Ok (0, reader_on BedText.nl, FragmentArray.make 2).
Proof.
  apply (empty_line_ends_the_data 64 2 (reader_on BedText.nl) (FragmentArray.make 2)).
  right. reflexivity.
Defined.

(** ** The writer: what is written, and what it makes of a failing gzprintf *)

Section WriterText.
Import CStr BedFragmentsWriter.

Variable H : Type.
Variable checkInterrupt : option (H -> outcome H).
Variable append_5th_column : bool.
Variable s : source.

Local Abbreviation flines := (frag_lines append_5th_column s).

Lemma joined_cons (l : string) (ls : list string) : joined (l :: ls) = l +:+ joined ls.
Proof. reflexivity. Qed.

Lemma joined_app (ls ls' : list string) : joined (ls ++ ls') = joined ls +:+ joined ls'.
Proof.
  induction ls as [|l ls IH]; [reflexivity|].
  cbn [app]. rewrite !joined_cons, IH, str_app_assoc. reflexivity.
Qed.

Lemma format_length (chr_name cell_name : option string) (start end_ : Z) :
  (0 < String.length (format append_5th_column chr_name start end_ cell_name))%nat.
Proof. unfold format. rewrite str_length_app. cbn [String.length]. lia. Qed.

(** One call of [gzprintf] with room for the line. *)
Lemma gzprintf_fits (f : gzOut) (line : string) :
  (String.length line <= gz_room f)%nat ->
  gzprintf f line =
    (Z.of_nat (String.length line),
     mk_gzOut (gz_written f +:+ line) (gz_room f - String.length line) (gz_errcode f)).
Proof. intros Hfit. unfold gzprintf. apply Nat.leb_le in Hfit. rewrite Hfit. reflexivity. Qed.

(** One call of [gzprintf] without room for the line. *)
Lemma gzprintf_full (f : gzOut) (line : string) :
  (gz_room f < String.length line)%nat ->
  gzprintf f line = (Z.min 0 (gz_errcode f), f).
Proof. intros Hfull. unfold gzprintf. apply Nat.leb_gt in Hfull. rewrite Hfull. reflexivity. Qed.

(** The inner loop with room for all its lines. *)
Lemma write_frags_text (chr_name : option string) (frags : list (Z * Z * Z)) :
  forall (st st' : wstate H) (r : outcome bool),
  (String.length (joined (flines chr_name frags)) <= gz_room (w_f H st))%nat ->
  Z.of_nat (gz_room (w_f H st)) < 2 ^ 32 ->
  write_frags H append_5th_column s checkInterrupt chr_name frags st = (st', r) ->
  r <> Ok false /\
  (checkInterrupt = None -> r = Ok true) /\
  (r = Ok true ->
     gz_written (w_f H st') =
       gz_written (w_f H st) +:+ joined (flines chr_name frags) /\
     gz_room (w_f H st') =
       (gz_room (w_f H st)
        - String.length (joined (flines chr_name frags)))%nat /\
     gz_errcode (w_f H st') = gz_errcode (w_f H st)).
Proof.
  induction frags as [|[[start end_] cell] rest IH]; intros st st' r Hroom Hsmall Hw.
  - injection Hw as <- <-. split; [discriminate|]. split; [reflexivity|]. intros _.
    cbn [frag_lines fmap list_fmap joined foldr String.length]. rewrite str_app_nil_r.
    split; [reflexivity|]. split; [lia|reflexivity].
  - change (flines chr_name ((start, end_, cell) :: rest))
      with (format append_5th_column chr_name start end_ (src_cellNames s cell)
            :: flines chr_name rest) in Hroom |- *.
    rewrite joined_cons in Hroom |- *.
    set (line := format append_5th_column chr_name start end_ (src_cellNames s cell)) in *.
    set (tail := joined (flines chr_name rest)) in *.
    rewrite str_length_app in Hroom |- *.
    pose proof (format_length chr_name (src_cellNames s cell) start end_) as Hpos.
    fold line in Hpos.
    cbn [write_frags] in Hw. fold line in Hw.
    rewrite (gzprintf_fits (w_f H st) line) in Hw by lia.
    assert (Hbytes : to_uint32 (Z.of_nat (String.length line)) = Z.of_nat (String.length line)).
    { unfold to_uint32. apply Z.mod_small. lia. }
    rewrite Hbytes in Hw. rewrite bool_decide_eq_false_2 in Hw by lia.
    cbn [w_f total_fragments w_env w_log] in Hw.
    set (f' := mk_gzOut (gz_written (w_f H st) +:+ line)
                 (gz_room (w_f H st) - String.length line) (gz_errcode (w_f H st))) in *.
    assert (Hrec : forall tot env log,
               write_frags H append_5th_column s checkInterrupt chr_name rest
                 (mk_wstate H f' tot env log) = (st', r) ->
               r <> Ok false /\
               (checkInterrupt = None -> r = Ok true) /\
               (r = Ok true ->
                  gz_written (w_f H st') = gz_written (w_f H st) +:+ (line +:+ tail) /\
                  gz_room (w_f H st') =
                    (gz_room (w_f H st) - (String.length line + String.length tail))%nat /\
                  gz_errcode (w_f H st') = gz_errcode (w_f H st))).
    { intros tot env log Hrest.
      assert (Hroom' : (String.length tail <= gz_room (w_f H (mk_wstate H f' tot env log)))%nat)
        by (unfold f'; cbn [w_f gz_room]; lia).
      assert (Hsmall' : Z.of_nat (gz_room (w_f H (mk_wstate H f' tot env log))) < 2 ^ 32)
        by (unfold f'; cbn [w_f gz_room]; lia).
      destruct (IH _ _ _ Hroom' Hsmall' Hrest) as (Hnf & Hnone & Hok).
      split; [exact Hnf|]. split; [exact Hnone|]. intros Hr.
      destruct (Hok Hr) as (Hw1 & Hw2 & Hw3).
      unfold f' in Hw1, Hw2, Hw3. cbn [w_f gz_written gz_room gz_errcode] in Hw1, Hw2, Hw3.
      fold tail in Hw1, Hw2. rewrite Hw1, Hw2, str_app_assoc.
      split; [reflexivity|]. split; [lia|exact Hw3]. }
    destruct checkInterrupt as [hook|]; [|apply (Hrec _ _ _ Hw)].
    destruct (bool_decide _); [|apply (Hrec _ _ _ Hw)].
    destruct (hook (w_env H st)) as [env'|e|].
    + apply (Hrec _ _ _ Hw).
    + injection Hw as <- <-. split; [discriminate|]. split; discriminate.
    + injection Hw as <- <-. split; [discriminate|]. split; discriminate.
Qed.

(** The outer loop with room for all its lines. *)
Lemma write_chrs_text (chrs : list (Z * list (Z * Z * Z))) :
  forall (st st' : wstate H) (r : outcome bool),
  let lines := flat_map (fun chr => flines (src_chrNames s (fst chr)) (snd chr)) chrs in
  (String.length (joined lines) <= gz_room (w_f H st))%nat ->
  Z.of_nat (gz_room (w_f H st)) < 2 ^ 32 ->
  write_chrs H append_5th_column s checkInterrupt chrs st = (st', r) ->
  r <> Ok false /\
  (checkInterrupt = None -> r = Ok true) /\
  (r = Ok true ->
     gz_written (w_f H st') = gz_written (w_f H st) +:+ joined lines /\
     gz_room (w_f H st') = (gz_room (w_f H st) - String.length (joined lines))%nat /\
     gz_errcode (w_f H st') = gz_errcode (w_f H st)).
Proof.
  induction chrs as [|[chr_id frags] rest IH]; intros st st' r lines Hroom Hsmall Hw.
  - injection Hw as <- <-. split; [discriminate|]. split; [reflexivity|]. intros _.
    unfold lines. cbn [flat_map joined foldr String.length]. rewrite str_app_nil_r.
    split; [reflexivity|]. split; [lia|reflexivity].
  - unfold lines in *. clear lines. cbn [flat_map fst snd] in Hroom |- *.
    rewrite joined_app in Hroom |- *. rewrite str_length_app in Hroom |- *.
    set (head := joined (flines (src_chrNames s chr_id) frags)) in *.
    set (tail := joined (flat_map _ rest)) in *.
    cbn [write_chrs] in Hw.
    destruct (write_frags H append_5th_column s checkInterrupt (src_chrNames s chr_id) frags st)
      as [st1 r1] eqn:Hfrags.
    assert (Hroom0 : (String.length head <= gz_room (w_f H st))%nat) by lia.
    destruct (write_frags_text _ _ _ _ _ Hroom0 Hsmall Hfrags) as (Hnf & Hnone & Hok).
    fold head in Hok.
    assert (Hstop : r1 <> Ok true -> (st1, r1) = (st', r) ->
              r <> Ok false /\ (checkInterrupt = None -> r = Ok true) /\
              (r = Ok true ->
                 gz_written (w_f H st') = gz_written (w_f H st) +:+ (head +:+ tail) /\
                 gz_room (w_f H st') =
                   (gz_room (w_f H st) - (String.length head + String.length tail))%nat /\
                 gz_errcode (w_f H st') = gz_errcode (w_f H st))).
    { intros Hne [= <- <-]. split; [exact Hnf|]. split; [exact Hnone|].
      intros Hr. contradiction. }
    destruct r1 as [[|]|e|]; [|apply Hstop; [discriminate|exact Hw]..].
    destruct (Hok eq_refl) as (Hw1 & Hw2 & Hw3).
    assert (Hroom1 : (String.length tail <= gz_room (w_f H st1))%nat) by (rewrite Hw2; lia).
    assert (Hsmall1 : Z.of_nat (gz_room (w_f H st1)) < 2 ^ 32) by (rewrite Hw2; lia).
    destruct (IH _ _ _ Hroom1 Hsmall1 Hw) as (Hnf' & Hnone' & Hok').
    split; [exact Hnf'|]. split; [exact Hnone'|]. intros Hr.
    destruct (Hok' Hr) as (Hv1 & Hv2 & Hv3). fold tail in Hv1, Hv2.
    rewrite Hv1, Hv2, Hv3, Hw1, Hw2, Hw3, str_app_assoc.
    split; [reflexivity|]. split; [lia|reflexivity].
Qed.


End WriterText.

(** ** The writer on a device that runs full *)

Section WriterFull.
Import CStr BedFragmentsWriter.

Variable H : Type.
Variable append_5th_column : bool.
Variable s : source.

Local Abbreviation flines := (frag_lines append_5th_column s).

Lemma to_uint32_negative (v : Z) : - 2 ^ 31 <= v < 0 -> 0 < to_uint32 v.
Proof.
  intros Hv. unfold to_uint32. rewrite <- (Z_mod_plus_full v 1 (2 ^ 32)).
  rewrite Z.mod_small by lia. lia.
Qed.

(** The inner loop when a failing [gzprintf] returns a negative code:
    nothing stops it. *)
Lemma write_frags_negative (chr_name : option string) (frags : list (Z * Z * Z)) :
  forall (st : wstate H),
  - 2 ^ 31 <= gz_errcode (w_f H st) < 0 ->
  Z.of_nat (gz_room (w_f H st)) < 2 ^ 32 ->
  exists st',
    write_frags H append_5th_column s None chr_name frags st = (st', Ok true) /\
    gz_errcode (w_f H st') = gz_errcode (w_f H st) /\
    (gz_room (w_f H st') <= gz_room (w_f H st))%nat /\
    (String.length (gz_written (w_f H st')) + gz_room (w_f H st')
     = String.length (gz_written (w_f H st)) + gz_room (w_f H st))%nat.
Proof.
  induction frags as [|[[start end_] cell] rest IH]; intros st Herr Hsmall.
  - exists st. split; [reflexivity|]. split; [reflexivity|]. split; [lia|reflexivity].
  - cbn [write_frags].
    set (line := format append_5th_column chr_name start end_ (src_cellNames s cell)).
    pose proof (format_length append_5th_column chr_name (src_cellNames s cell) start end_)
      as Hpos. fold line in Hpos.
    destruct (le_lt_dec (String.length line) (gz_room (w_f H st))) as [Hfit|Hfull].
    + rewrite (gzprintf_fits _ line Hfit).
      assert (Hbytes : to_uint32 (Z.of_nat (String.length line))
                       = Z.of_nat (String.length line)).
      { unfold to_uint32. apply Z.mod_small. lia. }
      rewrite Hbytes, bool_decide_eq_false_2 by lia.
      cbn [w_f total_fragments w_env w_log].
      match goal with |- context [write_frags _ _ _ _ _ rest ?st1] =>
        destruct (IH st1) as (st' & Hw & He & Hr & Hl) end.
      { exact Herr. }
      { cbn [w_f gz_room]. lia. }
      cbn [w_f gz_written gz_room gz_errcode] in He, Hr, Hl.
      rewrite str_length_app in Hl.
      exists st'. split; [exact Hw|]. split; [exact He|]. split; lia.
    + rewrite (gzprintf_full _ line Hfull).
      rewrite Z.min_r by lia.
      rewrite bool_decide_eq_false_2
        by (pose proof (to_uint32_negative _ Herr); lia).
      cbn [w_f total_fragments w_env w_log].
      match goal with |- context [write_frags _ _ _ _ _ rest ?st1] =>
        destruct (IH st1) as (st' & Hw & He & Hr & Hl) end.
      { exact Herr. }
      { exact Hsmall. }
      exists st'. split; [exact Hw|]. split; [exact He|]. split; [exact Hr|exact Hl].
Qed.

Lemma write_chrs_negative (chrs : list (Z * list (Z * Z * Z))) :
  forall (st : wstate H),
  - 2 ^ 31 <= gz_errcode (w_f H st) < 0 ->
  Z.of_nat (gz_room (w_f H st)) < 2 ^ 32 ->
  exists st',
    write_chrs H append_5th_column s None chrs st = (st', Ok true) /\
    (String.length (gz_written (w_f H st')) + gz_room (w_f H st')
     = String.length (gz_written (w_f H st)) + gz_room (w_f H st))%nat.
Proof.
  induction chrs as [|[chr_id frags] rest IH]; intros st Herr Hsmall.
  - exists st. split; reflexivity.
  - cbn [write_chrs].
    destruct (write_frags_negative (src_chrNames s chr_id) frags st Herr Hsmall)
      as (st1 & -> & He & Hr & Hl).
    destruct (IH st1) as (st' & Hw & Hl'); [rewrite He; exact Herr|lia|].
    exists st'. split; [exact Hw|lia].
Qed.

(** The inner loop when a failing [gzprintf] returns 0: it stops at the
    first line that does not fit. *)
Lemma write_frags_zero (chr_name : option string) (frags : list (Z * Z * Z)) :
  forall (st : wstate H),
  0 <= gz_errcode (w_f H st) ->
  Z.of_nat (gz_room (w_f H st)) < 2 ^ 32 ->
  (gz_room (w_f H st) < String.length (joined (flines chr_name frags)))%nat ->
  snd (write_frags H append_5th_column s None chr_name frags st) = Ok false.
Proof.
  induction frags as [|[[start end_] cell] rest IH]; intros st Herr Hsmall Hfull.
  - cbn in Hfull. lia.
  - change (flines chr_name ((start, end_, cell) :: rest))
      with (format append_5th_column chr_name start end_ (src_cellNames s cell)
            :: flines chr_name rest) in Hfull.
    rewrite joined_cons, str_length_app in Hfull.
    cbn [write_frags].
    set (line := format append_5th_column chr_name start end_ (src_cellNames s cell)) in *.
    pose proof (format_length append_5th_column chr_name (src_cellNames s cell) start end_)
      as Hpos. fold line in Hpos.
    destruct (le_lt_dec (String.length line) (gz_room (w_f H st))) as [Hfit|Hnofit].
    + rewrite (gzprintf_fits _ line Hfit).
      assert (Hbytes : to_uint32 (Z.of_nat (String.length line))
                       = Z.of_nat (String.length line)).
      { unfold to_uint32. apply Z.mod_small. lia. }
      rewrite Hbytes, bool_decide_eq_false_2 by lia.
      cbn [w_f total_fragments w_env w_log].
      apply IH; cbn [w_f gz_room gz_errcode]; [exact Herr|lia|lia].
    + rewrite (gzprintf_full _ line Hnofit). rewrite Z.min_l by lia.
      reflexivity.
Qed.

Lemma write_chrs_zero (chrs : list (Z * list (Z * Z * Z))) :
  forall (st : wstate H),
  0 <= gz_errcode (w_f H st) ->
  Z.of_nat (gz_room (w_f H st)) < 2 ^ 32 ->
  (gz_room (w_f H st)
   < String.length (joined (flat_map (fun chr => flines (src_chrNames s (fst chr)) (snd chr))
                                     chrs)))%nat ->
  snd (write_chrs H append_5th_column s None chrs st) = Ok false.
Proof.
  induction chrs as [|[chr_id frags] rest IH]; intros st Herr Hsmall Hfull.
  - cbn in Hfull. lia.
  - cbn [flat_map fst snd] in Hfull. rewrite joined_app, str_length_app in Hfull.
    cbn [write_chrs].
    destruct (le_lt_dec (String.length (joined (flines (src_chrNames s chr_id) frags)))
                (gz_room (w_f H st))) as [Hfit|Hnofit].
    + destruct (write_frags H append_5th_column s None (src_chrNames s chr_id) frags st)
        as [st1 r1] eqn:Hfrags.
      destruct (write_frags_text H None append_5th_column s _ _ _ _ _ Hfit Hsmall Hfrags)
        as (_ & Hnone & Hok).
      rewrite (Hnone eq_refl) in *. destruct (Hok eq_refl) as (_ & Hroom1 & Herr1).
      apply IH; [rewrite Herr1; exact Herr|lia|lia].
    + pose proof (write_frags_zero (src_chrNames s chr_id) frags st Herr Hsmall Hnofit) as Hz.
      destruct (write_frags H append_5th_column s None (src_chrNames s chr_id) frags st)
        as [st1 r1].
      cbn [snd] in Hz. subst r1. reflexivity.
Qed.


End WriterFull.

(** ** From the writer to the reader *)

Section Decimal.
Import CStr BedText BedFragmentsWriter.

Lemma pretty_N_char_digit (d : N) :
  (d < 10)%N -> isdigit (pretty_N_char d) = true /\ digit_val (pretty_N_char d) = Z.of_N d.
Proof.
  intros Hd.
  assert (d = 0 \/ d = 1 \/ d = 2 \/ d = 3 \/ d = 4 \/ d = 5 \/ d = 6 \/ d = 7 \/ d = 8
          \/ d = 9)%N as Hcases by lia.
  repeat (destruct Hcases as [->|Hcases]; [split; reflexivity|]).
  subst d. split; reflexivity.
Qed.

(** The digits [pretty] puts before [s] are those of the number. *)
Lemma pretty_N_go_digits (x : N) : forall (s : string),
  all_chars isdigit s = true ->
  all_chars isdigit (pretty_N_go x s) = true /\
  dec_value (pretty_N_go x s) = Z.of_N x * 10 ^ Z.of_nat (String.length s) + dec_value s.
Proof.
  induction (N.lt_wf_0 x) as [x _ IH]. intros s Hs.
  destruct (N.eq_dec x 0%N) as [->|Hx].
  - rewrite pretty_N_go_0. split; [exact Hs|]. lia.
  - rewrite pretty_N_go_step by lia.
    destruct (pretty_N_char_digit (x `mod` 10)%N) as [Hdig Hval]; [apply N.mod_lt; lia|].
    destruct (IH (x `div` 10)%N) with (s := String (pretty_N_char (x `mod` 10)%N) s)
      as [Hall Hdec].
    + apply N.div_lt; lia.
    + cbn [all_chars]. rewrite Hdig, Hs. reflexivity.
    + split; [exact Hall|]. rewrite Hdec. cbn [String.length dec_value]. rewrite Hval.
      rewrite Nat2Z.inj_succ, Z.pow_succ_r by lia.
      rewrite (N.div_mod x 10%N) at 3 by lia. rewrite N2Z.inj_add, N2Z.inj_mul.
      change (Z.of_N 10) with 10. ring.
Qed.

(** [%d] of a number from 0 to 2^31 - 1: its decimal digits. *)
Lemma fmt_d_digits (x : Z) :
  0 <= x < 2 ^ 31 ->
  fmt_d x <> "" /\ all_chars isdigit (fmt_d x) = true /\ dec_value (fmt_d x) = x.
Proof.
  intros Hx. unfold fmt_d, to_int32.
  replace ((x + 2 ^ 31) mod 2 ^ 32 - 2 ^ 31) with x by (rewrite Z.mod_small; lia).
  destruct x as [|p|p]; [repeat split; discriminate || reflexivity| |lia].
  unfold pretty, pretty_Z, pretty, pretty_positive, pretty, pretty_N.
  destruct (decide (N.pos p = 0%N)) as [Hp|_]; [discriminate|].
  destruct (pretty_N_go_digits (N.pos p) "" eq_refl) as [Hall Hdec].
  split; [|split; [exact Hall|]].
  - intros Hempty. rewrite Hempty in Hdec. cbn in Hdec. lia.
  - rewrite Hdec. cbn. lia.
Qed.

End Decimal.

Section RoundTrip.
Import CStr Zlib BedText BedOrder BedFragments BedFragmentsWriter BedInvariants
       FragmentsConsumer WriterReader.

Variable line_buf_size : nat.
Variable append_5th_column : bool.
Variable s : source.

Lemma text_of_joined (ls : list string) :
  text_of ls true = joined ((fun l => l +:+ nl) <$> ls).
Proof.
  induction ls as [|l ls IH]; [reflexivity|].
  cbn [fmap list_fmap]. rewrite joined_cons.
  change (list_fmap string string (fun l0 => l0 +:+ nl) ls)
    with ((fun l0 => l0 +:+ nl) <$> ls).
  rewrite <- IH. destruct ls as [|l' ls].
  - cbn [text_of]. rewrite str_app_nil_r. reflexivity.
  - change (text_of (l :: l' :: ls) true) with (l +:+ nl +:+ text_of (l' :: ls) true).
    rewrite str_app_assoc. reflexivity.
Qed.

(** A formatted line is the data line and a newline. *)
Lemma format_line_of (chr_id : Z) (fr : Z * Z * Z) :
  format append_5th_column (src_chrNames s chr_id) (fst (fst fr)) (snd (fst fr))
         (src_cellNames s (snd fr))
  = render (line_of append_5th_column s chr_id fr) +:+ nl.
Proof.
  rewrite render_eol. unfold format, line_of.
  cbn [chrom start_txt end_txt barcode extra].
  destruct append_5th_column; reflexivity.
Qed.

Lemma lines_of_bed_lines :
  lines_of append_5th_column s
  = (fun l => render l +:+ nl) <$> bed_lines append_5th_column s.
Proof.
  unfold lines_of, bed_lines. induction (src_chrs s) as [|[chr_id frags] chrs IH].
  - reflexivity.
  - cbn [flat_map fst snd]. rewrite fmap_app, IH. f_equal.
    unfold frag_lines. rewrite <- list_fmap_compose. apply list_fmap_ext.
    intros i fr _. apply format_line_of.
Qed.

(** What [write] writes is the text of the data lines. *)
Lemma written_text :
  joined (lines_of append_5th_column s)
  = text_of (render <$> bed_lines append_5th_column s) true.
Proof.
  rewrite text_of_joined, lines_of_bed_lines, <- list_fmap_compose. reflexivity.
Qed.

Hypothesis source_ok : rereadable line_buf_size append_5th_column s.

Lemma rereadable_lines :
  Forall (fun l => wf_line l = true /\
                   (String.length (render l) + 2 <= line_buf_size)%nat /\
                   barcode l ∈ src_cell_names s /\ chrom l ∈ src_chr_names s)
         (bed_lines append_5th_column s) /\
  fields <$> bed_lines append_5th_column s = source_fields s.
Proof.
  destruct source_ok as (_ & Hfrags & _).
  unfold bed_lines, source_fields. induction Hfrags as [|[chr_id frags] chrs Hchr _ IH].
  - split; [constructor|reflexivity].
  - destruct IH as [IH1 IH2]. cbn [flat_map fst snd] in *.
    rewrite fmap_app, IH2.
    assert (Hblock :
      Forall (fun l => wf_line l = true /\
                       (String.length (render l) + 2 <= line_buf_size)%nat /\
                       barcode l ∈ src_cell_names s /\ chrom l ∈ src_chr_names s)
             (line_of append_5th_column s chr_id <$> frags) /\
      fields <$> (line_of append_5th_column s chr_id <$> frags)
      = (fun fr => (src_chrNames s chr_id, fst (fst fr), snd (fst fr),
                    src_cellNames s (snd fr))) <$> frags).
    { clear IH1 IH2. induction Hchr as [|fr frags Hfr _ IHf].
      - split; [constructor|reflexivity].
      - destruct IHf as [IHf1 IHf2]. cbn [fmap list_fmap] in *.
        destruct Hfr as ((name & Hname & Hne & Hnc) & (cell & Hcell & Hcc) & Hs & He & Hlen).
        destruct (fmt_d_digits _ Hs) as (Hs0 & Hsd & Hsv).
        destruct (fmt_d_digits _ He) as (He0 & Hed & Hev).
        split.
        + constructor; [|exact IHf1]. split; [|split; [exact Hlen|]].
          * unfold wf_line, line_of. cbn [chrom start_txt end_txt barcode extra].
            rewrite Hname, Hcell.
            change (fmt_s (Some name)) with name. change (fmt_s (Some cell)) with cell.
            rewrite (bool_decide_eq_false_2 _ Hne), Hnc, Hcc, Hsd, Hed, Hsv, Hev.
            rewrite (bool_decide_eq_false_2 _ Hs0), (bool_decide_eq_false_2 _ He0).
            rewrite !bool_decide_eq_true_2 by lia.
            destruct append_5th_column; reflexivity.
          * unfold line_of. cbn [chrom barcode]. rewrite Hname, Hcell.
            change (fmt_s (Some name)) with name. change (fmt_s (Some cell)) with cell.
            split.
            -- unfold src_cellNames in Hcell. destruct (bool_decide _); [|discriminate].
               apply (list_elem_of_lookup_2 _ _ _ Hcell).
            -- unfold src_chrNames in Hname. destruct (bool_decide _); [|discriminate].
               apply (list_elem_of_lookup_2 _ _ _ Hname).
        + f_equal; [|exact IHf2]. unfold fields, line_of.
          cbn [chrom start_txt end_txt barcode]. rewrite Hname, Hcell, Hsv, Hev.
          reflexivity. }
    destruct Hblock as [Hb1 Hb2]. split.
    + apply Forall_app. split; assumption.
    + f_equal. exact Hb2.
Qed.

Lemma names_bound (used table : list string) :
  Forall (fun x => x ∈ table) used ->
  Z.of_nat (length table) < 2 ^ 32 ->
  Z.of_nat (length (remove_dups used)) < 2 ^ 32.
Proof.
  intros Hused Hlen.
  assert (Hle : (length (remove_dups used) <= length table)%nat); [|lia].
  apply submseteq_length, NoDup_submseteq; [apply NoDup_remove_dups|].
  intros x Hx. rewrite Forall_forall in Hused.
  apply Hused, (proj1 (elem_of_remove_dups used x)), Hx.
Qed.

Lemma rereadable_readable :
  readable line_buf_size "" [] (bed_lines append_5th_column s).
Proof.
  destruct rereadable_lines as [Hlines _].
  destruct source_ok as (Hsize & _ & _ & _ & Hcells & Hchrs).
  split; [exact Hsize|]. split.
  { eapply Forall_impl; [exact Hlines|]. intros l (Hwl & Hlen & _). split; assumption. }
  split; [constructor|]. split; [reflexivity|]. split; [reflexivity|].
  split; [intros Hne; contradiction|]. split.
  - apply (names_bound _ (src_cell_names s)); [|exact Hcells].
    apply Forall_fmap. eapply Forall_impl; [exact Hlines|]. intros l Hl. apply Hl.
  - apply (names_bound _ (src_chr_names s)); [|exact Hchrs].
    apply Forall_fmap. eapply Forall_impl; [exact Hlines|]. intros l Hl. apply Hl.
Qed.

End RoundTrip.

Section WriteThenRead.
Import CStr Zlib BedText BedOrder BedFragments BedFragmentsWriter BedInvariants
       FragmentsConsumer WriterReader.


End WriteThenRead.




(** ** arrayIO.h: creating, then opening *)

Section CreateThenOpen.
Import HighFive H5Readers ArrayIO.

(** What a call that returns hands over is what is on disk, and holds no
    object. *)
Lemma createPackedMatrixH5_returns (w : world) (file_path group_path : string)
    (buffer_size chunk_size : Z) (wr : PackedMatrixWriter) :
  snd (createPackedMatrixH5 w file_path group_path buffer_size chunk_size) = Ok wr ->
  getNumberObjects (pmw_group wr) = 0%nat /\
  group_on_disk (h5 (fst (createPackedMatrixH5 w file_path group_path buffer_size chunk_size)))
    file_path group_path = Some (g_node (pmw_group wr)) /\
  (group_on_disk (h5 w) file_path group_path = None -> g_node (pmw_group wr) = empty_group).
Proof.
  intros Hwr.
  destruct (group_on_disk (h5 w) file_path group_path) as [g|] eqn:Hg.
  - destruct (createPackedMatrixH5_existing w file_path group_path buffer_size chunk_size g Hg)
      as (ds & Heq).
    rewrite Heq in Hwr |- *. cbn [fst snd h5] in *.
    destruct (Nat.eqb_spec (size (datasets g) + size (links g)) 0) as [Hz|Hz];
      cbn [negb] in Hwr; [|discriminate].
    injection Hwr as <-. unfold getNumberObjects. cbn [pmw_group g_node].
    split; [exact Hz|]. split; [exact Hg|discriminate].
  - destruct (createPackedMatrixH5_missing w file_path group_path buffer_size chunk_size Hg)
      as (w' & wr' & Heq & Hnode & Hdisk).
    rewrite Heq in Hwr |- *. cbn [fst snd] in *. injection Hwr as <-.
    rewrite Hdisk, Hnode. split; [|split; reflexivity].
    unfold getNumberObjects. rewrite Hnode. reflexivity.
Qed.

(** Opening a group that holds no dataset fails, whatever its attributes. *)
Lemma openPackedMatrixH5_no_dataset (d : disk) (file_path group_path : string)
    (buffer_size : Z) (g : group) :
  group_on_disk d file_path group_path = Some g ->
  datasets g = ∅ ->
  exists e, openPackedMatrixH5 d file_path group_path buffer_size = Throw e /\
            (attrs g !! "version" = None ->
             e = AttributeException "Unable to open the attribute").
Proof.
  unfold group_on_disk, openPackedMatrixH5, File_open.
  intros Hg Hds.
  destruct (d !! file_path) as [gs|] eqn:Hd; [|discriminate].
  cbn [snd bind]. unfold File_getGroup. cbn [file_groups].
  rewrite Hg. cbn [bind]. unfold getAttribute. cbn [g_node].
  destruct (attrs g !! "version") as [[v|v]|] eqn:Hv; cbn [bind read_string].
  - destruct (bool_decide (v = "v1-packed")); cbn [negb].
    + unfold ZH5UIntReader, open_num. cbn [g_node]. rewrite Hds, lookup_empty. cbn [bind].
      eexists. split; [reflexivity|discriminate].
    + eexists. split; [reflexivity|discriminate].
  - eexists. split; [reflexivity|discriminate].
  - eexists. split; [reflexivity|reflexivity].
Qed.

(** X13. What [createPackedMatrixH5] has created, [openPackedMatrixH5]
    cannot open: the call returns from inside its [try] block, before the
    version attribute and the seven arrays are written, so opening the
    group right after always throws; for a group that did not exist before,
    it is the version attribute that is missed. *)
Theorem created_group_cannot_be_opened (w : world) (file_path group_path : string)
    (buffer_size chunk_size buffer_size' : Z) (wr : PackedMatrixWriter) :
  snd (createPackedMatrixH5 w file_path group_path buffer_size chunk_size) = Ok wr ->
  exists e,
    openPackedMatrixH5
      (h5 (fst (createPackedMatrixH5 w file_path group_path buffer_size chunk_size)))
      file_path group_path buffer_size' = Throw e /\
    (group_on_disk (h5 w) file_path group_path = None ->
     e = AttributeException "Unable to open the attribute").
Proof.
  intros Hwr.
  destruct (createPackedMatrixH5_returns _ _ _ _ _ _ Hwr) as (Hnone & Hdisk & Hnew).
  assert (Hds : datasets (g_node (pmw_group wr)) = ∅).
  { unfold getNumberObjects in Hnone. apply map_size_empty_inv. lia. }
  destruct (openPackedMatrixH5_no_dataset _ _ _ buffer_size' _ Hdisk Hds) as (e & He & Hattr).
  exists e. split; [exact He|]. intros Hmissing. apply Hattr.
  rewrite (Hnew Hmissing). reflexivity.
Qed.

Lemma created_group_cannot_be_opened_witness :
  exists e,
    openPackedMatrixH5
      (h5 (fst (createPackedMatrixH5 busy_world "out/m.h5" "fresh" 8192 1024)))
      "out/m.h5" "fresh" 8192 = Throw e /\
    e = AttributeException "Unable to open the attribute".
Proof.
  destruct (snd (createPackedMatrixH5 busy_world "out/m.h5" "fresh" 8192 1024))
    as [wr| |] eqn:Hwr; [|vm_compute in Hwr; discriminate..].
  destruct (created_group_cannot_be_opened busy_world "out/m.h5" "fresh" 8192 1024 8192 wr Hwr)
    as (e & He & Hattr).
  exists e. split; [exact He|]. apply Hattr. vm_compute. reflexivity.
Defined.

End CreateThenOpen.

(** ** arrayIO.h: what creating leaves alone, and what opening hands over *)

Section CreateKeeps.
Import HighFive H5Readers ArrayIO.

Lemma create_directories_upto_grows (fuel : nat) : forall (ds : gset string) (p : string),
  ds ⊆ create_directories_upto fuel ds p.
Proof.
  induction fuel as [|fuel IH]; intros ds p; [reflexivity|].
  cbn [create_directories_upto]. destruct (_ || _); [reflexivity|].
  etransitivity; [|apply IH]. apply union_subseteq_r.
Qed.

Lemma File_open_keeps (d : disk) (path : string) (mode : open_mode)
    (file' group' : string) (g : group) :
  group_on_disk d file' group' = Some g ->
  group_on_disk (fst (File_open d path mode)) file' group' = Some g.
Proof.
  unfold File_open, group_on_disk. intros Hg.
  destruct (d !! path) as [gs|] eqn:Hd; [exact Hg|].
  destruct mode; try exact Hg. cbn [fst].
  destruct (decide (file' = path)) as [->|Hne].
  - rewrite Hd in Hg. discriminate.
  - rewrite lookup_insert_ne by auto. exact Hg.
Qed.

Lemma File_open_handle (d d' : disk) (path : string) (mode : open_mode) (fl : File) :
  File_open d path mode = (d', Ok fl) ->
  file_path fl = path /\ d' !! path = Some (file_groups fl).
Proof.
  unfold File_open. destruct (d !! path) as [gs|] eqn:Hd.
  - intros [= <- <-]. auto.
  - destruct mode; try discriminate. intros [= <- <-]. split; [reflexivity|].
    cbn. apply lookup_insert_eq.
Qed.

Lemma createGroup_keeps (d : disk) (fl : File) (p : string) (file' group' : string)
    (g : group) :
  d !! file_path fl = Some (file_groups fl) ->
  file_groups fl !! abs_path p = None ->
  group_on_disk d file' group' = Some g ->
  group_on_disk (fst (createGroup d fl p)) file' group' = Some g.
Proof.
  unfold createGroup, group_on_disk. cbn [fst]. intros Hfl Hnew Hg.
  destruct (decide (file' = file_path fl)) as [->|Hne].
  - rewrite lookup_insert_eq. rewrite Hfl in Hg.
    rewrite lookup_insert_ne; [exact Hg|]. intros Heq. rewrite <- Heq, Hnew in Hg. discriminate.
  - rewrite lookup_insert_ne by auto. exact Hg.
Qed.


End CreateKeeps.

Section OpenReaders.
Import HighFive H5Readers ArrayIO.

Lemma open_num_reads (g : Group) (name : string) (buffer_size : Z) (r : NumReader) :
  open_num g name buffer_size = Ok r -> reads (g_node g) buffer_size name r.
Proof.
  unfold open_num. destruct (datasets (g_node g) !! name) as [[v|v|dims ms]|] eqn:Hds;
    try discriminate.
  intros [= <-]. split; [exact Hds|]. split; reflexivity.
Qed.

Lemma open_num_stored (g : Group) (name : string) (buffer_size : Z) (v : list Z) :
  datasets (g_node g) !! name = Some (DNum v) ->
  exists r, open_num g name buffer_size = Ok r.
Proof. intros Hds. unfold open_num. rewrite Hds. eauto. Qed.

(** X15. [openPackedMatrixH5] returns exactly when the group is there, is
    tagged "v1-packed" and holds the seven numeric arrays; the matrix it
    returns reads "val_data", "val_idx", "row_data", "row_starts",
    "row_idx", "col_ptr" and "row_count" of that group, each with the
    buffer size asked for. *)
Theorem openPackedMatrixH5_readers (d : disk) (file_path group_path : string)
    (buffer_size : Z) :
  (forall m, openPackedMatrixH5 d file_path group_path buffer_size = Ok m ->
     exists g, group_on_disk d file_path group_path = Some g /\
       attrs g !! "version" = Some (AttrString "v1-packed") /\
       reads g buffer_size "val_data" (val_data m) /\
       reads g buffer_size "val_idx" (val_idx m) /\
       reads g buffer_size "row_data" (row_data m) /\
       reads g buffer_size "row_starts" (row_starts m) /\
       reads g buffer_size "row_idx" (row_idx m) /\
       reads g buffer_size "col_ptr" (col_ptr m) /\
       reads g buffer_size "row_count" (row_count m)) /\
  (forall g, group_on_disk d file_path group_path = Some g ->
     attrs g !! "version" = Some (AttrString "v1-packed") ->
     Forall (fun name => exists v, datasets g !! name = Some (DNum v))
       ["val_data"; "val_idx"; "row_data"; "row_starts"; "row_idx"; "col_ptr"; "row_count"] ->
     exists m, openPackedMatrixH5 d file_path group_path buffer_size = Ok m).
Proof.
  split.
  - intros m. unfold group_on_disk, openPackedMatrixH5, File_open.
    destruct (d !! file_path) as [gs|] eqn:Hd; [|discriminate].
    cbn [snd bind]. unfold File_getGroup. cbn [file_groups].
    destruct (gs !! abs_path _) as [g|] eqn:Hg; [|discriminate].
    cbn [bind]. unfold getAttribute. cbn [g_node].
    destruct (attrs g !! "version") as [[v|v]|] eqn:Hv; try discriminate.
    cbn [bind read_string].
    destruct (bool_decide (v = "v1-packed")) eqn:Htag; cbn [negb]; [|discriminate].
    apply bool_decide_eq_true_1 in Htag. subst v.
    unfold ZH5UIntReader.
    repeat match goal with
    | |- context [open_num ?grp ?name buffer_size] =>
        let r := fresh "r" in let Hr := fresh "Hr" in
        destruct (open_num grp name buffer_size) as [r| |] eqn:Hr; [|discriminate..];
        apply open_num_reads in Hr; cbn [g_node] in Hr; cbn [bind]
    end.
    intros [= <-]. exists g. cbn. auto 10.
  - intros g Hg Hv Hall. unfold group_on_disk, openPackedMatrixH5, File_open in *.
    destruct (d !! file_path) as [gs|] eqn:Hd; [|discriminate].
    cbn [snd bind]. unfold File_getGroup. cbn [file_groups]. rewrite Hg.
    cbn [bind]. unfold getAttribute. cbn [g_node]. rewrite Hv. cbn [bind read_string].
    rewrite bool_decide_eq_true_2 by reflexivity. cbn [negb]. unfold ZH5UIntReader.
    repeat (apply Forall_cons in Hall as [[? Hds] Hall];
            match type of Hds with
            | datasets g !! ?name = Some (DNum ?v) =>
                destruct (open_num_stored
                            (mk_Group (mk_File file_path gs)
                               (abs_path (if bool_decide (group_path = "") then "/"
                                          else group_path)) g)
                            name buffer_size v Hds) as [? ->]
            end; cbn [bind]; clear Hds).
    eauto.
Qed.

Lemma openPackedMatrixH5_readers_witness :
  exists m, openPackedMatrixH5 (packed_disk "v1-packed") "m.h5" "m" 8192 = Ok m /\
            nr_name (row_idx m) = "row_idx" /\ nr_buffer_size (col_ptr m) = 8192.
Proof.
  destruct (proj2 (openPackedMatrixH5_readers (packed_disk "v1-packed") "m.h5" "m" 8192)
              (packed_group "v1-packed")) as [m Hm].
  - vm_compute. reflexivity.
  - vm_compute. reflexivity.
  - repeat constructor; eexists; vm_compute; reflexivity.
  - exists m. split; [exact Hm|].
    destruct (proj1 (openPackedMatrixH5_readers (packed_disk "v1-packed") "m.h5" "m" 8192)
                m Hm) as (g & _ & _ & _ & _ & _ & _ & (_ & Hn & _) & (_ & _ & Hb) & _).
    split; assumption.
Defined.

End OpenReaders.

(** ** ImportMatrixHDF5.cpp: the two readers of the orientation, and readMember *)

Section Orientation.
Import HighFive H5Readers ImportMatrixHDF5.

(** The builder does not depend on the buffer sizes. *)
Lemma new_H5ReaderBuilder_group (d : disk) (file group : string) (b1 r1 b2 r2 : Z)
    (rb : H5ReaderBuilder) :
  new_H5ReaderBuilder d file group b1 r1 = Ok rb ->
  new_H5ReaderBuilder d file group b2 r2 = Ok (mk_H5ReaderBuilder (rb_group rb) b2 r2).
Proof.
  unfold new_H5ReaderBuilder.
  destruct (snd (File_open d file ReadOnly)) as [fl| |]; [|discriminate..]. cbn [bind].
  destruct (File_getGroup fl group) as [g| |]; [|discriminate..]. cbn [bind].
  intros [= <-]. reflexivity.
Qed.

(** The encoding [anndata_header] finds is the one
    [isRowOrientedAnnDataMatrix] finds. *)
Lemma anndata_header_encoding (g : Group) (encoding : string) (dims : list Z)
    (cn rn : StringReader) :
  anndata_header g = Ok (encoding, dims, cn, rn) ->
  (if hasAttribute g "h5sparse_format" then
     let* a := getAttribute g "h5sparse_format" in
     let* encoding := read_string a in
     Ok (encoding +:+ "_matrix")
   else if hasAttribute g "encoding-type" then
     let* a := getAttribute g "encoding-type" in
     read_string a
   else
     Throw (runtime_error
              "h5ad could not be read - missing attribute 'encoding-type' on sparse matrix"))
  = Ok encoding.
Proof.
  unfold anndata_header.
  destruct (File_getGroup (getFile g) "/") as [root| |]; [|discriminate..]. cbn [bind].
  destruct (hasAttribute g "h5sparse_format").
  - destruct (getAttribute g "h5sparse_format") as [a| |]; [|discriminate..]. cbn [bind].
    destruct (read_string a) as [enc| |]; [|discriminate..]. cbn [bind].
    destruct (getAttribute g "h5sparse_shape") as [a'| |]; [|discriminate..]. cbn [bind].
    destruct (read_uints a') as [ds| |]; [|discriminate..]. cbn [bind].
    destruct (getDataSet root "var") as [var| |]; [|discriminate..]. cbn [bind].
    destruct (readMember var "index") as [cnd| |]; [|discriminate..]. cbn [bind].
    destruct (getDataSet root "obs") as [obs| |]; [|discriminate..]. cbn [bind].
    destruct (readMember obs "index") as [rnd| |]; [|discriminate..]. cbn [bind].
    intros [= <- _ _ _]. reflexivity.
  - destruct (hasAttribute g "encoding-type"); [|discriminate].
    destruct (getAttribute g "encoding-type") as [a| |]; [|discriminate..]. cbn [bind].
    destruct (read_string a) as [enc| |]; [|discriminate..]. cbn [bind].
    destruct (getAttribute g "shape") as [a'| |]; [|discriminate..]. cbn [bind].
    destruct (read_uints a') as [ds| |]; [|discriminate..]. cbn [bind].
    destruct (Group_getGroup root "var") as [var| |]; [|discriminate..]. cbn [bind].
    destruct (getAttribute var "_index") as [a1| |]; [|discriminate..]. cbn [bind].
    destruct (read_string a1) as [ci| |]; [|discriminate..]. cbn [bind].
    destruct (Group_getGroup root "obs") as [obs| |]; [|discriminate..]. cbn [bind].
    destruct (getAttribute obs "_index") as [a2| |]; [|discriminate..]. cbn [bind].
    destruct (read_string a2) as [ri| |]; [|discriminate..]. cbn [bind].
    destruct (new_H5StringReader root _) as [c| |]; [|discriminate..]. cbn [bind].
    destruct (new_H5StringReader root _) as [r| |]; [|discriminate..]. cbn [bind].
    intros [= <- _ _ _]. reflexivity.
Qed.

(** X16. Whenever [openAnnDataMatrix] returns a matrix,
    [isRowOrientedAnnDataMatrix] returns on the same file and group, and
    tells how the matrix was made: true when the rows are [dims[1]] and the
    name tables were exchanged, false when the rows are [dims[0]] and the
    tables are as read. *)
Theorem isRowOrientedAnnDataMatrix_agrees (d : disk) (file group : string)
    (buffer_size read_size : Z) (m : StoredMatrix) :
  openAnnDataMatrix d file group buffer_size read_size = Ok m ->
  exists rb encoding dims cn rn,
    new_H5ReaderBuilder d file group buffer_size read_size = Ok rb /\
    anndata_header (getGroup rb) = Ok (encoding, dims, cn, rn) /\
    ((isRowOrientedAnnDataMatrix d file group = Ok true /\
      rows m = dims !!! 1%nat /\ row_names m = cn /\ col_names m = rn) \/
     (isRowOrientedAnnDataMatrix d file group = Ok false /\
      rows m = dims !!! 0%nat /\ row_names m = rn /\ col_names m = cn)).
Proof.
  unfold openAnnDataMatrix.
  destruct (new_H5ReaderBuilder d file group buffer_size read_size) as [rb| |] eqn:Hrb;
    [|discriminate..]. cbn [bind].
  destruct (anndata_header (getGroup rb)) as [[[[encoding dims] cn] rn]| |] eqn:Hh;
    [|discriminate..]. cbn [bind].
  pose proof (anndata_header_encoding _ _ _ _ _ Hh) as Henc.
  assert (Hrow : isRowOrientedAnnDataMatrix d file group =
                 if bool_decide (encoding = "csr_matrix") then Ok true
                 else if bool_decide (encoding = "csc_matrix") then Ok false
                 else Throw (runtime_error ("Unsupported matrix encoding: " +:+ encoding))).
  { unfold isRowOrientedAnnDataMatrix.
    rewrite (new_H5ReaderBuilder_group _ _ _ _ _ 1024 1024 _ Hrb). cbn [bind].
    change (getGroup (mk_H5ReaderBuilder (rb_group rb) 1024 1024)) with (getGroup rb).
    rewrite Henc. reflexivity. }
  unfold orient. rewrite Hrow.
  destruct (bool_decide (encoding = "csr_matrix")); cbn [bind].
  - destruct (openUIntReader rb "indices") as [i| |]; [|discriminate..]. cbn [bind].
    destruct (openFloatReader rb "data") as [x| |]; [|discriminate..]. cbn [bind].
    destruct (openUIntReader rb "indptr") as [p| |]; [|discriminate..]. cbn [bind].
    intros [= <-]. exists rb, encoding, dims, cn, rn. split; [reflexivity|].
    split; [exact Hh|]. left. cbn. auto.
  - destruct (bool_decide (encoding = "csc_matrix")); cbn [bind]; [|discriminate].
    destruct (openUIntReader rb "indices") as [i| |]; [|discriminate..]. cbn [bind].
    destruct (openFloatReader rb "data") as [x| |]; [|discriminate..]. cbn [bind].
    destruct (openUIntReader rb "indptr") as [p| |]; [|discriminate..]. cbn [bind].
    intros [= <-]. exists rb, encoding, dims, cn, rn. split; [reflexivity|].
    split; [exact Hh|]. right. cbn. auto.
Qed.

Lemma isRowOrientedAnnDataMatrix_agrees_witness :
  isRowOrientedAnnDataMatrix (legacy_anndata_disk "csr") "a.h5ad" "X" = Ok true /\
  exists m, openAnnDataMatrix (legacy_anndata_disk "csr") "a.h5ad" "X" 8192 1024 = Ok m /\
            rows m = 2 /\ row_names m = VecStringReader ["v1"; "v2"].
Proof.
  destruct (openAnnDataMatrix (legacy_anndata_disk "csr") "a.h5ad" "X" 8192 1024)
    as [m| |] eqn:Hm; [|vm_compute in Hm; discriminate..].
  destruct (isRowOrientedAnnDataMatrix_agrees _ _ _ _ _ m Hm)
    as (rb & encoding & dims & cn & rn & Hrb & Hh & Hcase).
  assert (Hrow : isRowOrientedAnnDataMatrix (legacy_anndata_disk "csr") "a.h5ad" "X" = Ok true)
    by (vm_compute; reflexivity).
  split; [exact Hrow|]. exists m. split; [reflexivity|].
  destruct Hcase as [(_ & Hrows & Hnames & _)|(Hfalse & _)]; [|congruence].
  vm_compute in Hrb. injection Hrb as <-. vm_compute in Hh. injection Hh as <- <- <- <-.
  split; [exact Hrows|exact Hnames].
Defined.

End Orientation.

Section ReadMember.
Import HighFive H5Readers ImportMatrixHDF5.

Lemma find_member_skips (pre rest : list (string * column)) (name : string) :
  name ∉ pre.*1 -> find_member (pre ++ rest) name = find_member rest name.
Proof.
  induction pre as [|[n c] pre IH]; intros Hout; [reflexivity|].
  cbn [app find_member]. rewrite fmap_cons in Hout. cbn [fst] in Hout.
  apply not_elem_of_cons in Hout as [Hne Hout].
  rewrite bool_decide_eq_false_2 by congruence. apply IH, Hout.
Qed.

Lemma find_member_absent (members : list (string * column)) (name : string) :
  name ∉ members.*1 -> find_member members name = Ok None.
Proof.
  intros Hout. rewrite <- (app_nil_r members). rewrite (find_member_skips _ _ _ Hout).
  reflexivity.
Qed.



End ReadMember.

(** ** The tests: matrix_identical_cpp *)

Section Identical.
Import Matrix.

Lemma entries_identical_eq (j : nat) (c1 : list (nat * Z)) : forall (c2 : list (nat * Z)),
  entries_identical j j c1 c2 = true <-> c1 = c2.
Proof.
  induction c1 as [|[r1 v1] c1 IH]; intros [|[r2 v2] c2]; cbn [entries_identical];
    try (split; [discriminate|discriminate]); [split; reflexivity|].
  rewrite Nat.eqb_refl. cbn [negb]. rewrite orb_false_r.
  destruct (Nat.eqb_spec r1 r2) as [->|Hr]; cbn [negb orb].
  - destruct (Z.eqb_spec v1 v2) as [->|Hv]; cbn [negb].
    + rewrite IH. split; [intros ->; reflexivity|intros [= ->]; reflexivity].
    + split; [discriminate|intros [= ?]; contradiction].
  - split; [discriminate|intros [= ? _]; contradiction].
Qed.

Lemma columns_identical_eq (cs1 : list (list (nat * Z))) :
  forall (j : nat) (cs2 : list (list (nat * Z))),
  columns_identical j j cs1 cs2 = true <-> cs1 = cs2.
Proof.
  induction cs1 as [|c1 cs1 IH]; intros j [|c2 cs2]; cbn [columns_identical];
    try (split; [discriminate|discriminate]); [split; reflexivity|].
  rewrite Nat.eqb_refl. cbn [negb].
  destruct (entries_identical j j c1 c2) eqn:He; cbn [negb].
  - apply entries_identical_eq in He as ->. rewrite IH.
    split; [intros ->; reflexivity|intros [= ->]; reflexivity].
  - split; [discriminate|]. intros [= -> _].
    rewrite (proj2 (entries_identical_eq j c2 c2) eq_refl) in He. discriminate.
Qed.

(** X18. [matrix_identical_cpp] of the tests holds exactly when the two
    matrices yield the same columns with the same entries in the same
    order. It looks at nothing else: matrices that differ in their number
    of rows or in their row and column names compare as identical. *)
Theorem matrix_identical_cpp_compares_columns (mat1 mat2 : matrix) :
  (matrix_identical_cpp mat1 mat2 = true <-> columns mat1 = columns mat2) /\
  (forall r1 r2 c1 c2 rn1 rn2 cn1 cn2,
     matrix_identical_cpp (mk_matrix r1 c1 (columns mat1) rn1 cn1)
                          (mk_matrix r2 c2 (columns mat1) rn2 cn2) = true).
Proof.
  split.
  - unfold matrix_identical_cpp. apply columns_identical_eq.
  - intros r1 r2 c1 c2 rn1 rn2 cn1 cn2. unfold matrix_identical_cpp. cbn [columns].
    apply columns_identical_eq. reflexivity.
Qed.

End Identical.

(** ** More on the reader: nextChr in the middle of a chromosome *)

Section SkipChromosome.
Import CStr Zlib BedText BedOrder BedFragments BedInvariants.

Variable line_buf_size : nat.
Hypothesis buf_size_ge : (2 <= line_buf_size)%nat.
Variable final_nl : bool.
Variables cell_universe chr_universe : list string.
Hypothesis cells_bound : Z.of_nat (length (remove_dups cell_universe)) < 2 ^ 32.
Hypothesis chrs_bound : Z.of_nat (length (remove_dups chr_universe)) < 2 ^ 32.

Local Abbreviation inv := (Inv line_buf_size final_nl cell_universe chr_universe).

Variable known : list string.
Variable c : string.

(** One round of the loop of [nextChr] on a line of the current chromosome
    that is in order: the line is passed over. *)
Lemma nextChr_loop_round (l : bed_line) (pending : list bed_line) (ls : Z)
    (b : BedFragments.t) (d : Z * Z * Z) :
  inv (DAt l pending) known c ls b -> chrom l = c -> ls <= dec_value (start_txt l) ->
  exists b3 d3,
    (forall fuel, nextChr_loop line_buf_size (S fuel) b d
                  = nextChr_loop line_buf_size fuel b3 d3) /\
    inv (dadvance l pending) known c (dec_value (start_txt l)) b3.
Proof.
  intros (Hpos & Hwf & Hcells & Hchrs & Hknown & Hcur & Hls & _) Heq Hle.
  cbn [raw at_pos] in Hpos.
  destruct Hpos as ((g & eol & Hf & Hrest & Hbuf & Heol) & Heof).
  unfold pos_wf in Hwf. cbn [dseen] in Hwf.
  pose proof Hwf as [(Hwl & Hfit & Hbc & Hch) Hwf']%Forall_cons.
  destruct (emplace_cell_spec cell_universe cells_bound (barcode l) b Hcells Hbc)
    as (id & names & lookup & next & Hemp & Hcells' & Hpre & Hid & Hnth).
  set (b1 := with_cells names lookup next b).
  set (b2 := with_last_start (dec_value (start_txt l)) b1).
  destruct (read_line_advances line_buf_size buf_size_ge final_nl b2
              (At (render l) (render <$> pending))) as (x & buf & e & Hread & Hpos3).
  { cbn [at_pos]. split; [|exact Heof]. exists g, eol. auto. }
  { discriminate. }
  { apply Forall_fmap. eapply Forall_impl; [exact Hwf'|]. cbn. tauto. }
  assert (Hc0 : chrom l <> "") by (apply wf_line_spec in Hwl; tauto).
  exists (set_cursor x buf e b2), (dec_value (start_txt l), dec_value (end_txt l), id).
  split.
  - intros fuel. destruct d as [[ds de] dc]. cbn [nextChr_loop].
    rewrite (parse_line_wf b l eol _ _ _ Hwl Heol Hbuf). cbn [bind].
    rewrite Hemp. cbn [fst snd]. fold b1.
    change (current_chr b1) with (current_chr b). change (last_start b1) with (last_start b).
    rewrite Hcur, Hls.
    rewrite (bool_decide_eq_false_2 _ Hc0), (bool_decide_eq_true_2 _ Heq). cbn [orb negb].
    rewrite bool_decide_eq_false_2 by lia.
    fold b2. rewrite Hread. reflexivity.
  - split; [|split; [|split; [exact Hcells'|split; [exact Hchrs|]]]].
    + destruct pending; exact Hpos3.
    + unfold pos_wf. destruct pending as [|l' pending]; cbn [dadvance dseen].
      * exact Hwf.
      * exact Hwf'.
    + split; [exact Hknown|]. split; [exact Hcur|]. split; [reflexivity|].
      destruct pending; cbn [dadvance]; auto.
Qed.

(** The round on the last line held again after the end of the text: the
    loop is left by [return false]. *)
Lemma nextChr_loop_stale (l : bed_line) (ls : Z) (b : BedFragments.t) (d : Z * Z * Z) :
  inv (DStale l) known c ls b ->
  exists b3,
    (forall fuel, nextChr_loop line_buf_size (S fuel) b d = Ok (false, b3)) /\
    line_buf b3 = "".
Proof.
  intros (Hpos & Hwf & Hcells & Hchrs & Hknown & Hcur & Hls & Heq & Hlsl).
  cbn [raw at_pos] in Hpos.
  destruct Hpos as ((g & eol & Hf & Hrest & Hbuf & Heol) & Heof).
  unfold pos_wf in Hwf. cbn [dseen] in Hwf.
  pose proof Hwf as [(Hwl & Hfit & Hbc & Hch) _]%Forall_cons.
  destruct (emplace_cell_spec cell_universe cells_bound (barcode l) b Hcells Hbc)
    as (id & names & lookup & next & Hemp & Hcells' & Hpre & Hid & Hnth).
  set (b1 := with_cells names lookup next b).
  set (b2 := with_last_start (dec_value (start_txt l)) b1).
  destruct (read_line_advances line_buf_size buf_size_ge final_nl b2 (Stale (render l)))
    as (x & buf & e & Hread & Hpos3).
  { cbn [at_pos]. split; [|exact Heof]. exists g, eol. auto. }
  { discriminate. }
  { exact I. }
  assert (Hc0 : chrom l <> "") by (apply wf_line_spec in Hwl; tauto).
  exists (set_cursor x buf e b2). split; [|exact Hpos3].
  intros fuel. destruct d as [[ds de] dc]. cbn [nextChr_loop].
  rewrite (parse_line_wf b l eol _ _ _ Hwl Heol Hbuf). cbn [bind].
  rewrite Hemp. cbn [fst snd]. fold b1.
  change (current_chr b1) with (current_chr b). change (last_start b1) with (last_start b).
  rewrite Hcur, Hls.
  rewrite (bool_decide_eq_false_2 _ Hc0), (bool_decide_eq_true_2 _ Heq). cbn [orb negb].
  rewrite bool_decide_eq_false_2 by lia.
  fold b2. rewrite Hread. reflexivity.
Qed.

(** The loop of [nextChr] from a line of the current chromosome, the lines
    ahead in order: it runs to the end of the text, or to the first line
    of another chromosome. *)
Lemma nextChr_loop_skips (pending : list bed_line) : forall (l : bed_line) (ls : Z)
    (b : BedFragments.t) (d : Z * Z * Z),
  inv (DAt l pending) known c ls b -> chrom l = c -> ls <= dec_value (start_txt l) ->
  start_sorted (l :: pending) = true ->
  match after_chr c pending with
  | [] =>
      exists b' k, (forall fuel, nextChr_loop line_buf_size (k + S fuel) b d = Ok (false, b')) /\
                   line_buf b' = ""
  | l' :: pending' =>
      exists b1 ls1 d1 k,
        (forall fuel, nextChr_loop line_buf_size (k + fuel) b d
                      = nextChr_loop line_buf_size fuel b1 d1) /\
        inv (DAt l' pending') known c ls1 b1 /\ chrom l' <> c
  end.
Proof.
  induction pending as [|l2 pending IH]; intros l ls b d Hinv Heq Hle Hsort.
  - cbn [after_chr].
    destruct (nextChr_loop_round l [] ls b d Hinv Heq Hle) as (b3 & d3 & Hstep & Hinv3).
    cbn [dadvance] in Hinv3.
    destruct (nextChr_loop_stale l _ b3 d3 Hinv3) as (b' & Hend & Hbuf).
    exists b', 1%nat. split; [|exact Hbuf]. intros fuel.
    change (1 + S fuel)%nat with (S (S fuel)). rewrite Hstep. apply Hend.
  - destruct (nextChr_loop_round l (l2 :: pending) ls b d Hinv Heq Hle)
      as (b3 & d3 & Hstep & Hinv3).
    cbn [dadvance] in Hinv3.
    apply start_sorted_cons in Hsort as [Hsort Hnext].
    cbn [after_chr]. destruct (decide (chrom l2 = c)) as [Heq2|Hne2].
    + rewrite (bool_decide_eq_true_2 _ Heq2).
      assert (Hle2 : dec_value (start_txt l) <= dec_value (start_txt l2))
        by (apply (Hnext l2 eq_refl); congruence).
      specialize (IH l2 _ b3 d3 Hinv3 Heq2 Hle2 Hsort).
      destruct (after_chr c pending) as [|l' pending'].
      * destruct IH as (b' & k & Hrun & Hbuf). exists b', (S k). split; [|exact Hbuf].
        intros fuel. change (S k + S fuel)%nat with (S (k + S fuel)).
        rewrite Hstep. apply Hrun.
      * destruct IH as (b1 & ls1 & d1 & k & Hrun & Hinv1 & Hne).
        exists b1, ls1, d1, (S k). split; [|split; [exact Hinv1|exact Hne]].
        intros fuel. change (S k + fuel)%nat with (S (k + fuel)).
        rewrite Hstep. apply Hrun.
    + rewrite (bool_decide_eq_false_2 _ Hne2).
      exists b3, (dec_value (start_txt l)), d3, 1%nat.
      split; [|split; [exact Hinv3|exact Hne2]].
      intros fuel. apply Hstep.
Qed.

(** On a well-formed line the loop does not look at what its three
    variables held. *)
Lemma nextChr_loop_fresh (l : bed_line) (pending : list bed_line) (ls : Z)
    (b : BedFragments.t) (d d' : Z * Z * Z) (fuel : nat) :
  inv (DAt l pending) known c ls b ->
  nextChr_loop line_buf_size fuel b d = nextChr_loop line_buf_size fuel b d'.
Proof.
  intros (Hpos & Hwf & _). cbn [raw at_pos] in Hpos.
  destruct Hpos as ((g & eol & Hf & Hrest & Hbuf & Heol) & Heof).
  unfold pos_wf in Hwf. cbn [dseen] in Hwf.
  pose proof Hwf as [(Hwl & _) _]%Forall_cons.
  destruct fuel as [|fuel]; [reflexivity|].
  destruct d as [[ds de] dc], d' as [[ds' de'] dc']. cbn [nextChr_loop].
  rewrite !(parse_line_wf b l eol _ _ _ Hwl Heol Hbuf). reflexivity.
Qed.

(** X9. [nextChr()] called on a reader that holds a line of the current
    chromosome, the lines ahead being in order, passes over all that is
    left of that chromosome: it returns false with the buffer emptied when
    no other chromosome follows, and otherwise does what it does when
    called at the first line of the next chromosome -- it throws the sort
    error if that chromosome was met before, and else makes it current.
    The lines passed over are never delivered. *)
Theorem nextChr_skips_the_rest_of_the_chromosome (l : bed_line) (pending : list bed_line)
    (ls : Z) (b : BedFragments.t) :
  inv (DAt l pending) known c ls b -> chrom l = c -> ls <= dec_value (start_txt l) ->
  start_sorted (l :: pending) = true ->
  match after_chr c pending with
  | [] =>
      exists b' fuel0,
        (forall fuel, (fuel0 <= fuel)%nat ->
           nextChr line_buf_size fuel b = Ok (false, b')) /\
        line_buf b' = ""
  | l' :: pending' =>
      if bool_decide (chrom l' ∈ known) then
        exists fuel0, forall fuel, (fuel0 <= fuel)%nat ->
          nextChr line_buf_size fuel b = Throw sort_error
      else
        exists b' fuel0,
          (forall fuel, (fuel0 <= fuel)%nat ->
             nextChr line_buf_size fuel b = Ok (true, b')) /\
          inv (DAt l' pending') (known ++ [chrom l']) (chrom l') 0 b'
  end.
Proof.
  intros Hinv Heq Hle Hsort.
  pose proof (nextChr_loop_skips pending l ls b (0, 0, 0) Hinv Heq Hle Hsort) as Hskip.
  assert (Hfirst : forall fuel,
             nextChr line_buf_size fuel b =
             let* (broke, b) := nextChr_loop line_buf_size fuel b (0, 0, 0) in
             if negb broke then Ok (false, b)
             else
               match chr_lookup b !! current_chr b with
               | None =>
                   Ok (true,
                       with_last_start 0
                         (with_chrs (chr_names b ++ [current_chr b])
                            (<[current_chr b := next_chr_id b]> (chr_lookup b))
                            (to_uint32 (next_chr_id b + 1)) b))
               | Some _ => Throw sort_error
               end).
  { intros fuel. pose proof Hinv as (Hpos & Hwf & _). cbn [raw at_pos] in Hpos.
    destruct Hpos as ((g & eol & Hf & Hrest & Hbuf & Heol) & Heof).
    unfold pos_wf in Hwf. cbn [dseen] in Hwf.
    pose proof Hwf as [(Hwl & _) _]%Forall_cons.
    destruct (first_char_of_line l eol Hwl) as [Hnul Hnl].
    unfold nextChr. rewrite Hbuf.
    rewrite (bool_decide_eq_false_2 _ Hnul), (bool_decide_eq_false_2 _ Hnl). reflexivity. }
  destruct (after_chr c pending) as [|l' pending'].
  - destruct Hskip as (b' & k & Hrun & Hbuf). exists b', (k + 1)%nat.
    split; [|exact Hbuf]. intros fuel Hfuel.
    replace fuel with (k + S (fuel - k - 1))%nat by lia.
    rewrite Hfirst, Hrun. reflexivity.
  - destruct Hskip as (b1 & ls1 & d1 & k & Hrun & Hinv1 & Hne).
    pose proof (nextChr_new_chromosome line_buf_size final_nl cell_universe chr_universe
                  cells_bound chrs_bound known c ls1 b1 l' pending' Hinv1 Hne) as Hnext.
    assert (Hsame : forall fuel,
               nextChr line_buf_size (k + S fuel) b = nextChr line_buf_size (S fuel) b1).
    { intros fuel. rewrite Hfirst, Hrun.
      rewrite (nextChr_loop_fresh l' pending' ls1 b1 d1 (0, 0, 0) (S fuel) Hinv1).
      pose proof Hinv1 as (Hpos & Hwf & _). cbn [raw at_pos] in Hpos.
      destruct Hpos as ((g & eol & Hf & Hrest & Hbuf & Heol) & Heof).
      unfold pos_wf in Hwf. cbn [dseen] in Hwf.
      pose proof Hwf as [(Hwl & _) _]%Forall_cons.
      destruct (first_char_of_line l' eol Hwl) as [Hnul Hnl].
      unfold nextChr at 1. rewrite Hbuf.
      rewrite (bool_decide_eq_false_2 _ Hnul), (bool_decide_eq_false_2 _ Hnl). reflexivity. }
    destruct (bool_decide (chrom l' ∈ known)).
    + exists (k + 1)%nat. intros fuel Hfuel.
      replace fuel with (k + S (fuel - k - 1))%nat by lia. rewrite Hsame. apply Hnext.
    + destruct Hnext as (b' & Hrun' & Hinv' & _). exists b', (k + 1)%nat.
      split; [|exact Hinv']. intros fuel Hfuel.
      replace fuel with (k + S (fuel - k - 1))%nat by lia. rewrite Hsame. apply Hrun'.
Qed.

End SkipChromosome.

Lemma nextChr_skips_the_rest_of_the_chromosome_witness :
  exists b0 b1 b2 fuel,
    BedFragments.new 64 bed_files fuel "in_order.tsv" "#" false "" = Ok b0 /\
    BedFragments.nextChr 64 fuel b0 = Ok (true, b1) /\
    BedFragments.current_chr b1 = "chr1" /\
    BedFragments.nextChr 64 fuel b1 = Ok (true, b2) /\
    BedFragments.current_chr b2 = "chr2".
Proof.
  assert (Hread : BedInvariants.readable 64 "#" ["# fragments"] bed_in_order).
  { unfold BedInvariants.readable, BedInvariants.fits.
    split; [lia|].
    split; [repeat constructor; vm_compute; lia|].
    split; [repeat constructor; try discriminate; vm_compute; try reflexivity; lia|].
    split; [discriminate|].
    split; [reflexivity|].
    split; [intros _ l [= <-]; vm_compute; reflexivity|].
    split; vm_compute; reflexivity. }
  pose proof Hread as (Hsize & _ & _ & _ & _ & _ & Hcells & Hchrs).
  destruct (new_reaches 64 false "#" ["# fragments"] bed_in_order bed_files "in_order.tsv" ""
              Hread) as (b0 & Hnew & Hinv0).
  { vm_compute. reflexivity. }
  { intros _ _. reflexivity. }
  change (BedInvariants.start_dpos bed_in_order)
    with (BedInvariants.DAt (BedText.mk_line "chr1" "5" "10" "a" "")
            [BedText.mk_line "chr1" "5" "12" "b" "";
             BedText.mk_line "chr1" "7" "9" "a" (BedText.tab +:+ "0");
             BedText.mk_line "chr2" "1" "4" "c" ""]) in Hinv0.
  pose proof (nextChr_new_chromosome 64 false _ _ Hcells Hchrs [] "" 0 b0 _ _ Hinv0) as Hfirst.
  cbn [BedText.chrom] in Hfirst.
  rewrite bool_decide_eq_false_2 in Hfirst by (intros Hin; inversion Hin).
  destruct Hfirst as (b1 & Hrun1 & Hinv1 & _); [discriminate|].
  pose proof (nextChr_skips_the_rest_of_the_chromosome 64 Hsize false _ _ Hcells Hchrs
                _ _ _ _ 0 b1 Hinv1) as Hskip.
  cbn [BedText.chrom BedOrder.after_chr] in Hskip.
  rewrite !(bool_decide_eq_true_2 ("chr1" = "chr1") eq_refl) in Hskip.
  rewrite (bool_decide_eq_false_2 ("chr2" = "chr1")) in Hskip by discriminate.
  rewrite bool_decide_eq_false_2 in Hskip
    by (intros Hin; apply list_elem_of_singleton in Hin; discriminate).
  destruct Hskip as (b2 & fuel0 & Hrun2 & Hinv2);
    [reflexivity|vm_compute; discriminate|vm_compute; reflexivity|].
  exists b0, b1, b2, (S (fuel0 + 4)).
  split; [apply Hnew; cbn; lia|]. split; [apply Hrun1|].
  split; [apply Hinv1|]. split; [apply Hrun2; lia|apply Hinv2].
Defined.

(** ** The writer's constructor: which files are compressed *)

Section WriterMode.
Import CStr BedFragmentsWriter.

Lemma rfind_dot_after (pre post : string) (j : nat) :
  rfind_dot post = Some j -> rfind_dot (pre +:+ post) = Some (String.length pre + j)%nat.
Proof.
  intros Hpost. induction pre as [|a pre IH]; [exact Hpost|].
  rewrite str_app_cons. cbn [rfind_dot String.length]. rewrite IH. reflexivity.
Qed.

Lemma substr_after (pre post : string) : substr (pre +:+ post) (String.length pre) = post.
Proof.
  induction pre as [|a pre IH]; [destruct post; reflexivity|].
  rewrite str_app_cons. cbn [String.length substr]. exact IH.
Qed.

Lemma rfind_dot_before (s : string) : forall (i : nat),
  rfind_dot s = Some i -> exists pre, s = pre +:+ substr s i.
Proof.
  induction s as [|a s IH]; intros i Hi; [discriminate|].
  cbn [rfind_dot] in Hi. destruct (rfind_dot s) as [j|].
  - injection Hi as <-. destruct (IH j eq_refl) as [pre Hpre].
    exists (String a pre). cbn [substr]. rewrite str_app_cons, <- Hpre. reflexivity.
  - destruct (bool_decide (a = "."%char)); [|discriminate]. injection Hi as <-.
    exists "". reflexivity.
Qed.

(** X20. The constructor of the writer opens the file compressed (mode
    "wb1") exactly when the path ends in ".gz", and as plain text (mode
    "wT") in every other case. *)
Theorem new_mode_compresses_gz_only (path : string) :
  (new_mode path = "wb1" <-> exists stem, path = stem +:+ ".gz") /\
  (new_mode path = "wb1" \/ new_mode path = "wT").
Proof.
  split.
  - split.
    + unfold new_mode. destruct (rfind_dot path) as [i|] eqn:Hi; [|discriminate].
      destruct (bool_decide (substr path i = ".gz")) eqn:Hgz; [|discriminate].
      apply bool_decide_eq_true_1 in Hgz. intros _.
      destruct (rfind_dot_before path i Hi) as [pre Hpre]. exists pre.
      rewrite Hgz in Hpre. exact Hpre.
    + intros [stem ->]. unfold new_mode.
      rewrite (rfind_dot_after stem ".gz" 0 eq_refl), Nat.add_0_r, substr_after.
      reflexivity.
  - unfold new_mode. destruct (rfind_dot path) as [i|]; [|right; reflexivity].
    destruct (bool_decide _); [left|right]; reflexivity.
Qed.

End WriterMode.

(** ** The reader: the current chromosome *)

Section CurrentChr.
Import CStr Zlib BedText BedFragments BedInvariants.

Variable line_buf_size : nat.

Lemma nextChr_loop_chrs (fuel : nat) : forall (b : BedFragments.t) (d : Z * Z * Z)
    (r : bool) (b' : BedFragments.t),
  nextChr_loop line_buf_size fuel b d = Ok (r, b') ->
  chr_names b' = chr_names b /\ chr_lookup b' = chr_lookup b /\
  next_chr_id b' = next_chr_id b.
Proof.
  induction fuel as [|fuel IH]; intros b [[ds de] dc] r b' Hloop; [discriminate|].
  cbn [nextChr_loop] in Hloop.
  destruct (parse_line b _ _ _) as [[[chr [[s e] c]] b1]| |] eqn:Hparse; [|discriminate..].
  cbn [bind] in Hloop.
  pose proof (parse_line_chrs _ _ _ _ _ _ _ Hparse) as (H1 & H2 & H3 & _).
  destruct (_ || _); [injection Hloop as _ <-; auto|].
  destruct (bool_decide _); [discriminate|].
  destruct (read_line _ _) as [[more b2]| |] eqn:Hread; [|discriminate..].
  cbn [bind] in Hloop.
  pose proof (read_line_chrs _ _ _ _ Hread) as (R1 & R2 & R3 & _). cbn in R1, R2, R3.
  destruct (negb more).
  - injection Hloop as _ <-. repeat split; congruence.
  - destruct (IH _ _ _ _ Hloop) as (I1 & I2 & I3). repeat split; congruence.
Qed.

Lemma restart_chrs (fs : filesystem) (fuel : nat) (b b' : BedFragments.t) :
  restart line_buf_size fs fuel b = Ok b' -> chr_lookup b' = chr_lookup b.
Proof.
  unfold restart. destruct (gzopen fs (path b)) as [g|]; [|discriminate].
  destruct (read_line _ _) as [[more b1]| |] eqn:Hread; [|discriminate..].
  cbn [bind]. pose proof (read_line_chrs _ _ _ _ Hread) as (_ & R2 & _). cbn in R2.
  destruct (_ =? _)%nat; [intros [= <-]; exact R2|].
  destruct (skip_comments _ _ _) as [b2| |] eqn:Hskip; [|discriminate..].
  cbn [bind]. intros [= <-]. cbn. rewrite <- R2. clear Hread R2.
  revert b1 b2 Hskip. induction fuel as [|fuel IH]; intros b1 b2 Hskip; [discriminate|].
  cbn [skip_comments] in Hskip.
  destruct (bool_decide _); [injection Hskip as <-; reflexivity|].
  destruct (negb _); [injection Hskip as <-; reflexivity|].
  destruct (read_line _ b1) as [[more' b3]| |] eqn:Hread; [|discriminate..].
  cbn [bind] in Hskip. pose proof (read_line_chrs _ _ _ _ Hread) as (_ & R2 & _).
  rewrite (IH _ _ Hskip). exact R2.
Qed.

(** X19. [currentChr()] throws [std::out_of_range] on a reader that was
    just constructed: no chromosome is in the table before the first
    [nextChr()]. After a [nextChr()] that returns true, on a reader whose
    next chromosome id is the size of its table, it returns that id, and
    [chrNames] gives for it the name of the chromosome now current. *)
Theorem currentChr_after_nextChr :
  (forall fs fuel path comment_prefix eof0 line_buf0 b,
     new line_buf_size fs fuel path comment_prefix eof0 line_buf0 = Ok b ->
     exists msg, currentChr b = Throw (out_of_range msg)) /\
  (forall fuel b b',
     next_chr_id b = Z.of_nat (length (chr_names b)) ->
     nextChr line_buf_size fuel b = Ok (true, b') ->
     currentChr b' = Ok (next_chr_id b) /\
     chrNames b' (next_chr_id b) = Some (current_chr b')).
Proof.
  split.
  - intros fs fuel path cp eof0 buf0 b Hnew. unfold new in Hnew.
    apply restart_chrs in Hnew. cbn in Hnew.
    unfold currentChr. rewrite Hnew, lookup_empty. eauto.
  - intros fuel b b' Hnext. unfold nextChr.
    destruct (_ || _); [discriminate|].
    destruct (nextChr_loop _ _ _ _) as [[broke b1]| |] eqn:Hloop; [|discriminate..].
    cbn [bind]. destruct (nextChr_loop_chrs _ _ _ _ _ Hloop) as (H1 & H2 & H3).
    destruct (negb broke); [discriminate|].
    destruct (chr_lookup b1 !! current_chr b1) eqn:Hlook; [discriminate|].
    intros [= <-]. unfold currentChr, chrNames. cbn.
    rewrite lookup_insert_eq, H3, H1, Hnext. split; [reflexivity|].
    rewrite length_app. cbn [length].
    rewrite bool_decide_eq_false_2 by lia.
    rewrite Nat2Z.id. apply list_lookup_middle. reflexivity.
Qed.

End CurrentChr.
